(** * tenant_bootstrap: plan quotas and tenant set-up, verified on a shallow embedding

    The two Python modules of the repository, [usage_limits.py] and
    [setup.py], are sequences of calls into the host framework wrapped in
    [try]/[except].  They are embedded here as programs of a small
    state-and-exception monad over an explicit model of the tenant site:
    the process-wide cache, the loaded site configuration, the file
    [site_config.json], the database with its committed snapshot, and the
    output and error logs.  A raised exception keeps the state reached so
    far, as in Python: nothing is undone when an [except] clause runs. *)

From Stdlib Require Import String Ascii List ZArith QArith Bool Lia DecimalString.
Import ListNotations.
Local Open Scope string_scope.
Local Open Scope list_scope.
Local Open Scope Z_scope.

(** ** Python values *)

(** The values that travel through the code: JSON data (configuration,
    limits, results), the rows of the database and the dates used by the
    monthly invoice window.  A [dict] keeps insertion order, as Python's. *)
#[warnings="-register-all"]
Inductive pyval : Type :=
| PNone
| PBool (b : bool)
| PInt (z : Z)
| PFloat (q : Q)
| PStr (s : string)
| PDate (y m d : Z)
| PList (l : list pyval)
| PDict (d : list (string * pyval)).

Definition dict : Type := list (string * pyval).

(** [d.get(k)] on an association list with unique keys. *)
Fixpoint assoc_get {V : Type} (d : list (string * V)) (k : string) : option V :=
  match d with
  | [] => None
  | (k', v) :: d' => if String.eqb k' k then Some v else assoc_get d' k
  end.

(** [d[k] = v]: replaces the value in place, or appends a new key. *)
Fixpoint assoc_set {V : Type} (d : list (string * V)) (k : string) (v : V)
  : list (string * V) :=
  match d with
  | [] => [(k, v)]
  | (k', v') :: d' =>
      if String.eqb k' k then (k', v) :: d' else (k', v') :: assoc_set d' k v
  end.

Definition dict_get (d : dict) (k : string) : option pyval := assoc_get d k.
Definition dict_set (d : dict) (k : string) (v : pyval) : dict := assoc_set d k v.

(** [d.get(k, default)] *)
Definition dict_get_default (d : dict) (k : string) (default : pyval) : pyval :=
  match dict_get d k with
  | Some v => v
  | None => default
  end.

(** Python truthiness: what [if x] and [not x] test. *)
Definition py_truthy (v : pyval) : bool :=
  match v with
  | PNone => false
  | PBool b => b
  | PInt z => negb (z =? 0)
  | PFloat q => negb (Qnum q =? 0)
  | PStr s => negb (String.eqb s EmptyString)
  | PDate _ _ _ => true
  | PList l => match l with [] => false | _ => true end
  | PDict d => match d with [] => false | _ => true end
  end.

(** [v == "literal"] and [v == n] for an integer literal. *)
Definition py_eq_str (v : pyval) (s : string) : bool :=
  match v with
  | PStr s' => String.eqb s' s
  | _ => false
  end.

Definition py_eq_int (v : pyval) (n : Z) : bool :=
  match v with
  | PInt z => z =? n
  | PBool b => (if b then 1 else 0) =? n
  | PFloat q => Qeq_bool q (inject_Z n)
  | _ => false
  end.

(** What [json.dump] can write: [None], booleans, numbers, strings, and
    lists and dicts of such values.  A date makes it raise a
    [TypeError]; the keys of a dict are strings here. *)
Fixpoint json_serialisable (v : pyval) : bool :=
  match v with
  | PDate _ _ _ => false
  | PList l =>
      (fix all (l : list pyval) : bool :=
         match l with
         | nil => true
         | cons x xs => json_serialisable x && all xs
         end) l
  | PDict d =>
      (fix all (d : list (string * pyval)) : bool :=
         match d with
         | nil => true
         | cons (_, x) xs => json_serialisable x && all xs
         end) d
  | _ => true
  end.

Definition string_of_Z (z : Z) : string := NilZero.string_of_int (Z.to_int z).

(** ** Exceptions and outcomes *)

(** An exception, of a subclass of [Exception], is its class and
    [str(e)]. *)
Record exn : Type := Exn { exn_class : string; exn_str : string }.

Inductive outcome (A : Type) : Type :=
| Ok (a : A)
| Raise (e : exn).
Arguments Ok {A} a.
Arguments Raise {A} e.

(** ** The database *)

(** A row has its primary key [name] and the other columns. *)
Record Row : Type := { row_name : string; row_fields : dict }.

(** A filter condition: a plain value means equality, the others are the
    framework's [["!=", v]], [["not in", [...]]] and [["between", [a, b]]]. *)
Inductive cond : Type :=
| Eq (v : pyval)
| Ne (v : pyval)
| NotIn (vs : list pyval)
| Between (lo hi : pyval).

Definition filters : Type := list (string * cond).

Record Database : Type := {
  tables : list (string * list Row);
  singles : list (string * dict);
  defaults : dict;
  passwords : dict
}.

Definition column (r : Row) (k : string) : pyval :=
  if String.eqb k "name" then PStr (row_name r)
  else dict_get_default (row_fields r) k PNone.

(** Equality of column values: integers, strings and dates. *)
Definition sql_eqb (a b : pyval) : bool :=
  match a, b with
  | PInt x, PInt y => x =? y
  | PStr x, PStr y => String.eqb x y
  | PDate y1 m1 d1, PDate y2 m2 d2 => (y1 =? y2) && (m1 =? m2) && (d1 =? d2)
  | _, _ => false
  end.

(** Calendar order on dates. *)
Definition date_leb (a b : pyval) : bool :=
  match a, b with
  | PDate y1 m1 d1, PDate y2 m2 d2 =>
      (y1 <? y2) || ((y1 =? y2) && ((m1 <? m2) || ((m1 =? m2) && (d1 <=? d2))))
  | _, _ => false
  end.

Definition eval_cond (c : cond) (v : pyval) : bool :=
  match c with
  | Eq x => sql_eqb v x
  | Ne x => negb (sql_eqb v x)
  | NotIn xs => negb (existsb (sql_eqb v) xs)
  | Between lo hi => date_leb lo v && date_leb v hi
  end.

Definition row_matches (f : filters) (r : Row) : bool :=
  forallb (fun kc => eval_cond (snd kc) (column r (fst kc))) f.

Definition table (db : Database) (doctype : string) : list Row :=
  match assoc_get (tables db) doctype with
  | Some rows => rows
  | None => []
  end.

Definition count_rows (db : Database) (doctype : string) (f : filters) : Z :=
  Z.of_nat (length (filter (row_matches f) (table db doctype))).

Definition has_row (db : Database) (doctype : string) (f : filters) : bool :=
  existsb (row_matches f) (table db doctype).

Definition set_tables (t : list (string * list Row)) (db : Database) : Database :=
  {| tables := t; singles := singles db; defaults := defaults db;
     passwords := passwords db |}.

Definition set_singles (x : list (string * dict)) (db : Database) : Database :=
  {| tables := tables db; singles := x; defaults := defaults db;
     passwords := passwords db |}.

Definition set_defaults (x : dict) (db : Database) : Database :=
  {| tables := tables db; singles := singles db; defaults := x;
     passwords := passwords db |}.

Definition set_passwords (x : dict) (db : Database) : Database :=
  {| tables := tables db; singles := singles db; defaults := defaults db;
     passwords := x |}.

(** ** Calls into the framework *)

(** Every call that reaches the cache, the database or a document is
    recorded, with its arguments, in the order it is made. *)
Inductive Op : Type :=
| CacheGet (key : string)
| CacheSet (key : string)
| CacheClear
| DbCount (doctype : string)
| DbExists (doctype : string) (f : filters)
| DbSetSingle (doctype field : string)
| DbSetValue (doctype field : string)
| DbSetDefault (key : string)
| DbCommit
| DocInsert (doctype name : string)
| DocLoad (doctype name : string)
| DocSave (doctype name : string)
| UpdatePassword (user : string).

(** ** The host: what the code cannot control *)

(** [decode_config] is [json.loads(base64.b64decode(x).decode())];
    [parse_int] and [parse_float] are [int] and [float] on a string;
    [float_repr] is [str] on a float; [today_ymd] is the current date;
    [cache_error], when set, is raised by every cache call (the cache
    backend is unreachable); [fault n op] tells whether the database or
    document call [op], made after [n] earlier calls, raises;
    [autoname doctype fields] is the name the framework gives a new
    document. *)
Record Host : Type := {
  decode_config : string -> outcome pyval;
  parse_int : string -> option Z;
  parse_float : string -> option Q;
  float_repr : Q -> string;
  today_ymd : Z * Z * Z;
  cache_error : option exn;
  fault : nat -> Op -> option exn;
  autoname : string -> dict -> string
}.

(** ** The site: the state the code reads and writes *)

(** What is found at the path of [site_config.json]: no file, text that
    [json.load] rejects (an empty file, or one cut off in the middle of
    a dump), or the value [json.load] returns. *)
Inductive file_content : Type :=
| Missing
| NotJson
| Json (v : pyval).

(** [cache] is [frappe.cache()], [conf] is [frappe.conf] (the
    configuration loaded when the process started), [site_config] is the
    file [site_config.json], [db] the database as this connection sees
    it and [committed] what the last [commit] made durable. *)
Record Site : Type := {
  cache : dict;
  conf : dict;
  site_config : file_content;
  site_config_writable : bool;
  db : Database;
  committed : Database;
  flags : dict;
  stdout : list string;
  error_log : list string;
  calls : list Op
}.

Definition with_cache (x : dict) (s : Site) : Site :=
  {| cache := x; conf := conf s; site_config := site_config s;
     site_config_writable := site_config_writable s; db := db s;
     committed := committed s; flags := flags s; stdout := stdout s;
     error_log := error_log s; calls := calls s |}.

Definition with_site_config (x : file_content) (s : Site) : Site :=
  {| cache := cache s; conf := conf s; site_config := x;
     site_config_writable := site_config_writable s; db := db s;
     committed := committed s; flags := flags s; stdout := stdout s;
     error_log := error_log s; calls := calls s |}.

Definition with_db (x : Database) (s : Site) : Site :=
  {| cache := cache s; conf := conf s; site_config := site_config s;
     site_config_writable := site_config_writable s; db := x;
     committed := committed s; flags := flags s; stdout := stdout s;
     error_log := error_log s; calls := calls s |}.

Definition with_committed (x : Database) (s : Site) : Site :=
  {| cache := cache s; conf := conf s; site_config := site_config s;
     site_config_writable := site_config_writable s; db := db s;
     committed := x; flags := flags s; stdout := stdout s;
     error_log := error_log s; calls := calls s |}.

Definition with_flags (x : dict) (s : Site) : Site :=
  {| cache := cache s; conf := conf s; site_config := site_config s;
     site_config_writable := site_config_writable s; db := db s;
     committed := committed s; flags := x; stdout := stdout s;
     error_log := error_log s; calls := calls s |}.

Definition with_stdout (x : list string) (s : Site) : Site :=
  {| cache := cache s; conf := conf s; site_config := site_config s;
     site_config_writable := site_config_writable s; db := db s;
     committed := committed s; flags := flags s; stdout := x;
     error_log := error_log s; calls := calls s |}.

Definition with_error_log (x : list string) (s : Site) : Site :=
  {| cache := cache s; conf := conf s; site_config := site_config s;
     site_config_writable := site_config_writable s; db := db s;
     committed := committed s; flags := flags s; stdout := stdout s;
     error_log := x; calls := calls s |}.

Definition with_calls (x : list Op) (s : Site) : Site :=
  {| cache := cache s; conf := conf s; site_config := site_config s;
     site_config_writable := site_config_writable s; db := db s;
     committed := committed s; flags := flags s; stdout := stdout s;
     error_log := error_log s; calls := x |}.

(** ** The monad *)

Definition M (A : Type) : Type := Site -> outcome A * Site.

Definition ret {A : Type} (a : A) : M A := fun s => (Ok a, s).

Definition bind {A B : Type} (m : M A) (k : A -> M B) : M B :=
  fun s =>
    match m s with
    | (Ok a, s') => k a s'
    | (Raise e, s') => (Raise e, s')
    end.

Definition raise {A : Type} (e : exn) : M A := fun s => (Raise e, s).

(** [try: body except Exception as e: handler(e)].  The handler starts
    from the state the body had reached. *)
Definition try_except {A : Type} (body : M A) (handler : exn -> M A) : M A :=
  fun s =>
    match body s with
    | (Ok a, s') => (Ok a, s')
    | (Raise e, s') => handler e s'
    end.

Declare Scope py_scope.
Delimit Scope py_scope with py.
Notation "x <- c ;; k" := (bind c (fun x => k))
  (at level 61, c at next level, right associativity) : py_scope.
Notation "c ;; k" := (bind c (fun _ => k))
  (at level 61, right associativity) : py_scope.
Local Open Scope py_scope.

(** [for x in xs: body(x)] *)
Fixpoint for_each {A : Type} (xs : list A) (body : A -> M unit) : M unit :=
  match xs with
  | [] => ret tt
  | x :: xs' => body x ;; for_each xs' body
  end.

Definition lift_outcome {A : Type} (o : outcome A) : M A := fun s => (o, s).

(** ** Primitive operations *)

Definition get_site : M Site := fun s => (Ok s, s).
Definition modify (f : Site -> Site) : M unit := fun s => (Ok tt, f s).

Definition record_call (op : Op) (s : Site) : Site :=
  with_calls (calls s ++ [op]) s.

(** [print(line)] *)
Definition print (line : string) : M unit :=
  modify (fun s => with_stdout (stdout s ++ [line]) s).

(** [traceback.print_exc()] *)
Definition print_exc (e : exn) : M unit :=
  print ("Traceback (most recent call last): " ++ exn_class e ++ ": " ++ exn_str e).

(** [frappe.log_error(message)] *)
Definition log_error (message : string) : M unit :=
  modify (fun s => with_error_log (error_log s ++ [message]) s).

(** [frappe.throw(msg, title=title)]: the framework's validation error,
    shown to the user with [title]. *)
Definition frappe_throw {A : Type} (msg title : string) : M A :=
  raise (Exn "frappe.exceptions.ValidationError" msg).

Definition py_type_name (v : pyval) : string :=
  match v with
  | PNone => "NoneType"
  | PBool _ => "bool"
  | PInt _ => "int"
  | PFloat _ => "float"
  | PStr _ => "str"
  | PDate _ _ _ => "datetime.date"
  | PList _ => "list"
  | PDict _ => "dict"
  end.

(** [obj[key]] for a string key. *)
Definition py_getitem (obj : pyval) (key : string) : M pyval :=
  match obj with
  | PDict d =>
      match dict_get d key with
      | Some v => ret v
      | None => raise (Exn "KeyError" ("'" ++ key ++ "'"))
      end
  | PList _ => raise (Exn "TypeError" "list indices must be integers or slices, not str")
  | PStr _ => raise (Exn "TypeError" "string indices must be integers, not 'str'")
  | v => raise (Exn "TypeError" ("'" ++ py_type_name v ++ "' object is not subscriptable"))
  end.

(** [obj[key] = v] for a string key; the updated object is returned. *)
Definition py_setitem (obj : pyval) (key : string) (v : pyval) : M pyval :=
  match obj with
  | PDict d => ret (PDict (dict_set d key v))
  | PList _ => raise (Exn "TypeError" "list indices must be integers or slices, not str")
  | o => raise (Exn "TypeError"
                  ("'" ++ py_type_name o ++ "' object does not support item assignment"))
  end.

(** [obj.get(key, default)] *)
Definition py_get (obj : pyval) (key : string) (default : pyval) : M pyval :=
  match obj with
  | PDict d => ret (dict_get_default d key default)
  | o => raise (Exn "AttributeError"
                  ("'" ++ py_type_name o ++ "' object has no attribute 'get'"))
  end.

(** [n >= v] for an integer [n]. *)
Definition py_ge (n : Z) (v : pyval) : M bool :=
  match v with
  | PInt z => ret (z <=? n)
  | PBool b => ret ((if b then 1 else 0) <=? n)
  | PFloat q => ret (Qle_bool q (inject_Z n))
  | o => raise (Exn "TypeError"
                  ("'>=' not supported between instances of 'int' and '"
                     ++ py_type_name o ++ "'"))
  end.

(** [with open(site_config_path) as f: json.load(f)] *)
Definition read_site_config : M pyval :=
  fun s =>
    match site_config s with
    | Json v => (Ok v, s)
    | Missing =>
        (Raise (Exn "FileNotFoundError"
                  "[Errno 2] No such file or directory: 'site_config.json'"), s)
    | NotJson =>
        (Raise (Exn "json.decoder.JSONDecodeError"
                  "Expecting value: line 1 column 1 (char 0)"), s)
    end.

(** [with open(site_config_path, "w") as f: json.dump(v, f)].  When the
    file cannot be opened for writing it is left alone.  Once opened it
    is empty, and [json.dump] writes [v] piece by piece: when [v] holds
    a value that is not JSON serialisable, the [TypeError] comes after
    the beginning of the object has been written, and what is left in
    the file does not parse. *)
Definition write_site_config (v : pyval) : M unit :=
  fun s =>
    if site_config_writable s then
      if json_serialisable v then (Ok tt, with_site_config (Json v) s)
      else (Raise (Exn "TypeError" "Object of type date is not JSON serializable"),
            with_site_config NotJson s)
    else (Raise (Exn "PermissionError"
                   "[Errno 13] Permission denied: 'site_config.json'"), s).

(** The statements both modules use on [site_config.json]:
    [with open(path) as f: config = json.load(f)],
    [config[key] = v],
    [with open(path, "w") as f: json.dump(config, f, indent=...)]. *)
Definition rewrite_site_config (key : string) (v : pyval) : M unit :=
  config <- read_site_config ;;
  config <- py_setitem config key v ;;
  write_site_config config.

(** ** Calendar helpers of the framework *)

Definition is_leap (y : Z) : bool :=
  ((y mod 4 =? 0) && negb (y mod 100 =? 0)) || (y mod 400 =? 0).

Definition days_in_month (y m : Z) : Z :=
  if m =? 2 then (if is_leap y then 29 else 28)
  else if (m =? 4) || (m =? 6) || (m =? 9) || (m =? 11) then 30
  else 31.

Definition get_first_day (d : pyval) : pyval :=
  match d with
  | PDate y m _ => PDate y m 1
  | v => v
  end.

Definition get_last_day (d : pyval) : pyval :=
  match d with
  | PDate y m _ => PDate y m (days_in_month y m)
  | v => v
  end.

(** ** Documents handed to the validation hooks *)

(** [doc.name], the other attributes of the document, and [doc.is_new()]. *)
Record Document : Type := {
  doc_name : string;
  doc_fields : dict;
  doc_islocal : bool
}.

Definition doc_attr (doc : Document) (k : string) : pyval :=
  dict_get_default (doc_fields doc) k PNone.

Definition is_new (doc : Document) : bool := doc_islocal doc.

Section Program.

Variable h : Host.

Definition today : pyval :=
  let '(y, m, d) := today_ymd h in PDate y m d.

(** A call to the cache: recorded, and raising when the cache backend
    is unreachable. *)
Definition cache_call (op : Op) : M unit :=
  fun s =>
    match cache_error h with
    | Some e => (Raise e, record_call op s)
    | None => (Ok tt, record_call op s)
    end.

(** [frappe.cache().get_value(key)] *)
Definition cache_get_value (key : string) : M pyval :=
  cache_call (CacheGet key) ;;
  s <- get_site ;;
  ret (dict_get_default (cache s) key PNone).

(** [frappe.cache().set_value(key, v)] *)
Definition cache_set_value (key : string) (v : pyval) : M unit :=
  cache_call (CacheSet key) ;;
  modify (fun s => with_cache (dict_set (cache s) key v) s).

(** [frappe.conf.get(key, default)] *)
Definition conf_get (key : string) (default : pyval) : M pyval :=
  s <- get_site ;;
  ret (dict_get_default (conf s) key default).

(** A call into the database layer: recorded, and raising when the host
    says so. *)
Definition db_call (op : Op) : M unit :=
  fun s =>
    match fault h (length (calls s)) op with
    | Some e => (Raise e, record_call op s)
    | None => (Ok tt, record_call op s)
    end.

(** [frappe.db.count(doctype, filters=f)] *)
Definition db_count (doctype : string) (f : filters) : M Z :=
  db_call (DbCount doctype) ;;
  s <- get_site ;;
  ret (count_rows (db s) doctype f).

(** [int(v)] *)
Definition py_int (v : pyval) : M Z :=
  match v with
  | PBool b => ret (if b then 1 else 0)
  | PInt z => ret z
  | PFloat q => ret (Z.quot (Qnum q) (Zpos (Qden q)))
  | PStr s =>
      match parse_int h s with
      | Some z => ret z
      | None => raise (Exn "ValueError"
                         ("invalid literal for int() with base 10: '" ++ s ++ "'"))
      end
  | o => raise (Exn "TypeError"
                  ("int() argument must be a string, a bytes-like object or a real number, not '"
                     ++ py_type_name o ++ "'"))
  end.

(** [float(v)] *)
Definition py_float (v : pyval) : M Q :=
  match v with
  | PBool b => ret (inject_Z (if b then 1 else 0))
  | PInt z => ret (inject_Z z)
  | PFloat q => ret q
  | PStr s =>
      match parse_float h s with
      | Some q => ret q
      | None => raise (Exn "ValueError"
                         ("could not convert string to float: '" ++ s ++ "'"))
      end
  | o => raise (Exn "TypeError"
                  ("float() argument must be a string or a real number, not '"
                     ++ py_type_name o ++ "'"))
  end.

Definition pad2 (z : Z) : string :=
  if z <? 10 then ("0" ++ string_of_Z z)%string else string_of_Z z.

(** [repr(v)]; quotes inside strings are not escaped. *)
Fixpoint py_repr (v : pyval) : string :=
  (match v with
   | PNone => "None"
   | PBool b => if b then "True" else "False"
   | PInt z => string_of_Z z
   | PFloat q => float_repr h q
   | PStr s => "'" ++ s ++ "'"
   | PDate y m d =>
       "datetime.date(" ++ string_of_Z y ++ ", " ++ string_of_Z m ++ ", "
         ++ string_of_Z d ++ ")"
   | PList l =>
       "[" ++ (fix items (l : list pyval) : string :=
                 match l with
                 | nil => EmptyString
                 | cons x xs =>
                     match xs with
                     | nil => py_repr x
                     | _ => py_repr x ++ ", " ++ items xs
                     end
                 end) l ++ "]"
   | PDict d =>
       "{" ++ (fix items (d : list (string * pyval)) : string :=
                 match d with
                 | nil => EmptyString
                 | cons (k, x) xs =>
                     match xs with
                     | nil => "'" ++ k ++ "': " ++ py_repr x
                     | _ => "'" ++ k ++ "': " ++ py_repr x ++ ", " ++ items xs
                     end
                 end) d ++ "}"
   end)%string.

(** [str(v)], which is also what an f-string and [str.format] insert. *)
Definition py_str (v : pyval) : string :=
  match v with
  | PStr s => s
  | PDate y m d => (string_of_Z y ++ "-" ++ pad2 m ++ "-" ++ pad2 d)%string
  | o => py_repr o
  end.

Definition py_format (v : pyval) : string := py_str v.

(** ** usage_limits.py *)

Definition LIMITS_CACHE_KEY : string := "saas_plan_limits".

Definition get_plan_limits : M pyval :=
  limits <- cache_get_value LIMITS_CACHE_KEY ;;
  limits <- (if negb (py_truthy limits) then
               limits <- conf_get "saas_plan_limits" (PDict []) ;;
               (if py_truthy limits
                then cache_set_value LIMITS_CACHE_KEY limits
                else ret tt) ;;
               ret limits
             else ret limits) ;;
  ret (if py_truthy limits then limits else PDict []).

Definition set_plan_limits (limits : pyval) : M unit :=
  cache_set_value LIMITS_CACHE_KEY limits ;;
  try_except
    (rewrite_site_config "saas_plan_limits" limits)
    (fun e => log_error ("Failed to save plan limits to site config: " ++ exn_str e)).

Definition user_limit_message (max_users : pyval) : string :=
  "You have reached the maximum number of users (" ++ py_format max_users
    ++ ") allowed in your plan. Please upgrade your plan to add more users.".

Definition validate_user_limit (doc : Document) : M unit :=
  if negb (py_eq_str (doc_attr doc "user_type") "System User") then ret tt
  else if existsb (String.eqb (doc_name doc)) ["Administrator"; "Guest"] then ret tt
  else
    limits <- get_plan_limits ;;
    max_users <- py_get limits "max_users" (PInt 0) ;;
    if negb (py_truthy max_users) then ret tt
    else
      current_users <- db_count "User"
        [("enabled", Eq (PInt 1));
         ("user_type", Eq (PStr "System User"));
         ("name", NotIn [PStr "Administrator"; PStr "Guest"; PStr (doc_name doc)])] ;;
      reached <- py_ge current_users max_users ;;
      if reached
      then frappe_throw (user_limit_message max_users) "User Limit Reached"
      else ret tt.

(** The filter the customer, supplier and company hooks build. *)
Definition other_than (doc : Document) : filters :=
  [] ++ (if negb (is_new doc) then [("name", Ne (PStr (doc_name doc)))] else []).

Definition customer_limit_message (max_customers : pyval) : string :=
  "You have reached the maximum number of customers (" ++ py_format max_customers
    ++ ") allowed in your plan. Please upgrade your plan to add more customers.".

Definition validate_customer_limit (doc : Document) : M unit :=
  limits <- get_plan_limits ;;
  max_customers <- py_get limits "max_customers" (PInt 0) ;;
  if negb (py_truthy max_customers) then ret tt
  else
    current_customers <- db_count "Customer" (other_than doc) ;;
    reached <- py_ge current_customers max_customers ;;
    if reached
    then frappe_throw (customer_limit_message max_customers) "Customer Limit Reached"
    else ret tt.

Definition supplier_limit_message (max_suppliers : pyval) : string :=
  "You have reached the maximum number of suppliers (" ++ py_format max_suppliers
    ++ ") allowed in your plan. Please upgrade your plan to add more suppliers.".

Definition validate_supplier_limit (doc : Document) : M unit :=
  limits <- get_plan_limits ;;
  max_suppliers <- py_get limits "max_suppliers" (PInt 0) ;;
  if negb (py_truthy max_suppliers) then ret tt
  else
    current_suppliers <- db_count "Supplier" (other_than doc) ;;
    reached <- py_ge current_suppliers max_suppliers ;;
    if reached
    then frappe_throw (supplier_limit_message max_suppliers) "Supplier Limit Reached"
    else ret tt.

Definition company_limit_message (max_companies : pyval) : string :=
  "You have reached the maximum number of companies (" ++ py_format max_companies
    ++ ") allowed in your plan. Please upgrade your plan to add more companies.".

Definition validate_company_limit (doc : Document) : M unit :=
  limits <- get_plan_limits ;;
  max_companies <- py_get limits "max_companies" (PInt 0) ;;
  if negb (py_truthy max_companies) then ret tt
  else
    current_companies <- db_count "Company" (other_than doc) ;;
    reached <- py_ge current_companies max_companies ;;
    if reached
    then frappe_throw (company_limit_message max_companies) "Company Limit Reached"
    else ret tt.

Definition invoice_limit_message (max_invoices : pyval) : string :=
  "You have reached the maximum number of invoices (" ++ py_format max_invoices
    ++ ") allowed per month in your plan. Please upgrade your plan to create more invoices.".

Definition validate_invoice_limit (doc : Document) : M unit :=
  if negb (py_eq_int (doc_attr doc "docstatus") 1) then ret tt
  else
    limits <- get_plan_limits ;;
    max_invoices <- py_get limits "max_invoices_per_month" (PInt 0) ;;
    if negb (py_truthy max_invoices) then ret tt
    else
      let first_day := get_first_day today in
      let last_day := get_last_day today in
      current_invoices <- db_count "Sales Invoice"
        [("docstatus", Eq (PInt 1));
         ("posting_date", Between first_day last_day);
         ("name", Ne (PStr (doc_name doc)))] ;;
      reached <- py_ge current_invoices max_invoices ;;
      if reached
      then frappe_throw (invoice_limit_message max_invoices) "Monthly Invoice Limit Reached"
      else ret tt.

(** [int(x) if x else 0] *)
Definition int_or_zero (x : pyval) : M pyval :=
  if py_truthy x then (z <- py_int x ;; ret (PInt z)) else ret (PInt 0).

(** [float(x) if x else 0] *)
Definition float_or_zero (x : pyval) : M pyval :=
  if py_truthy x then (q <- py_float x ;; ret (PFloat q)) else ret (PInt 0).

Definition sync_plan_limits_body
  (max_users max_customers max_suppliers max_companies
   max_invoices_per_month max_storage_gb : pyval) : M pyval :=
  v_users <- int_or_zero max_users ;;
  v_customers <- int_or_zero max_customers ;;
  v_suppliers <- int_or_zero max_suppliers ;;
  v_companies <- int_or_zero max_companies ;;
  v_invoices <- int_or_zero max_invoices_per_month ;;
  v_storage <- float_or_zero max_storage_gb ;;
  let limits := PDict [("max_users", v_users);
                       ("max_customers", v_customers);
                       ("max_suppliers", v_suppliers);
                       ("max_companies", v_companies);
                       ("max_invoices_per_month", v_invoices);
                       ("max_storage_gb", v_storage)] in
  set_plan_limits limits ;;
  ret (PDict [("success", PBool true);
              ("message", PStr "Plan limits updated");
              ("limits", limits)]).

Definition sync_failure (e : exn) : pyval :=
  PDict [("success", PBool false); ("error", PStr (exn_str e))].

Definition sync_plan_limits
  (max_users max_customers max_suppliers max_companies
   max_invoices_per_month max_storage_gb : pyval) : M pyval :=
  try_except
    (sync_plan_limits_body max_users max_customers max_suppliers max_companies
       max_invoices_per_month max_storage_gb)
    (fun e =>
       log_error ("Failed to sync plan limits: " ++ exn_str e) ;;
       ret (sync_failure e)).

Definition get_current_limits : M pyval :=
  limits <- get_plan_limits ;;
  ret (PDict [("success", PBool true); ("limits", limits)]).

(** ** Calls of setup.py into the framework *)

Definition single (d : Database) (doctype : string) : dict :=
  match assoc_get (singles d) doctype with
  | Some x => x
  | None => []
  end.

(** [frappe.flags.<flag> = v] *)
Definition set_flag (flag : string) (v : pyval) : M unit :=
  modify (fun s => with_flags (dict_set (flags s) flag v) s).

(** [frappe.db.set_single_value(doctype, field, v)] *)
Definition db_set_single_value (doctype field : string) (v : pyval) : M unit :=
  db_call (DbSetSingle doctype field) ;;
  modify (fun s =>
    with_db (set_singles
               (assoc_set (singles (db s)) doctype
                  (dict_set (single (db s) doctype) field v))
               (db s)) s).

(** [frappe.db.commit()] *)
Definition db_commit : M unit :=
  db_call DbCommit ;;
  modify (fun s => with_committed (db s) s).

(** [frappe.db.exists(doctype, filters)] *)
Definition db_exists (doctype : string) (f : filters) : M bool :=
  db_call (DbExists doctype f) ;;
  s <- get_site ;;
  ret (has_row (db s) doctype f).

(** The filter of [frappe.db.exists(doctype, name)]. *)
Definition named (name : pyval) : filters := [("name", Eq name)].

Definition set_column (field : string) (v : pyval) (r : Row) : Row :=
  {| row_name := row_name r; row_fields := dict_set (row_fields r) field v |}.

(** [frappe.db.set_value(doctype, filters, field, v)] *)
Definition db_set_value (doctype : string) (f : filters) (field : string) (v : pyval)
  : M unit :=
  db_call (DbSetValue doctype field) ;;
  modify (fun s =>
    with_db (set_tables
               (assoc_set (tables (db s)) doctype
                  (map (fun r => if row_matches f r then set_column field v r else r)
                     (table (db s) doctype)))
               (db s)) s).

(** [frappe.db.set_default(key, v)] *)
Definition db_set_default (key : string) (v : pyval) : M unit :=
  db_call (DbSetDefault key) ;;
  modify (fun s => with_db (set_defaults (dict_set (defaults (db s)) key v) (db s)) s).

(** [frappe.get_doc({"doctype": doctype, ...fields}).insert(ignore_permissions=True)]:
    the framework names the document; a name already taken is refused.
    The inserted row is returned, as the document object the code goes
    on using. *)
Definition doc_insert (doctype : string) (fields : dict) : M Row :=
  let name := autoname h doctype fields in
  db_call (DocInsert doctype name) ;;
  s <- get_site ;;
  if has_row (db s) doctype (named (PStr name))
  then raise (Exn "frappe.exceptions.DuplicateEntryError"
                ("('" ++ doctype ++ "', '" ++ name ++ "')"))
  else
    let r := {| row_name := name; row_fields := fields |} in
    modify (fun s =>
      with_db (set_tables
                 (assoc_set (tables (db s)) doctype (table (db s) doctype ++ [r]))
                 (db s)) s) ;;
    ret r.

(** [frappe.get_doc(doctype, name)] *)
Definition get_doc (doctype : string) (name : pyval) : M Row :=
  db_call (DocLoad doctype (py_str name)) ;;
  s <- get_site ;;
  match find (row_matches (named name)) (table (db s) doctype) with
  | Some r => ret r
  | None => raise (Exn "frappe.exceptions.DoesNotExistError"
                     (doctype ++ " " ++ py_str name ++ " not found"))
  end.

(** [doc.save(ignore_permissions=True)] *)
Definition doc_save (doctype : string) (r : Row) : M unit :=
  db_call (DocSave doctype (row_name r)) ;;
  modify (fun s =>
    with_db (set_tables
               (assoc_set (tables (db s)) doctype
                  (map (fun r' => if String.eqb (row_name r') (row_name r) then r else r')
                     (table (db s) doctype)))
               (db s)) s).

(** [frappe.get_single(doctype)] *)
Definition get_single (doctype : string) : M dict :=
  db_call (DocLoad doctype doctype) ;;
  s <- get_site ;;
  ret (single (db s) doctype).

(** [settings.save(ignore_permissions=True)] on a single document *)
Definition single_save (doctype : string) (d : dict) : M unit :=
  db_call (DocSave doctype doctype) ;;
  modify (fun s => with_db (set_singles (assoc_set (singles (db s)) doctype d) (db s)) s).

(** [frappe.clear_cache()] *)
Definition clear_cache : M unit :=
  cache_call CacheClear ;;
  modify (fun s => with_cache [] s).

(** [update_password(user, password)] *)
Definition update_password (user password : pyval) : M unit :=
  db_call (UpdatePassword (py_str user)) ;;
  modify (fun s =>
    with_db (set_passwords (dict_set (passwords (db s)) (py_str user) password) (db s)) s).

(** [[r.role for r in user.roles]] *)
Definition roles_of (user : Row) : list pyval :=
  match column user "roles" with
  | PList l => l
  | _ => []
  end.

(** [user.add_roles(role)]: appends the role and saves the user. *)
Definition add_roles (user : Row) (role : string) : M Row :=
  let user' := set_column "roles" (PList (roles_of user ++ [PStr role])) user in
  doc_save "User" user' ;;
  ret user'.

(** ** setup.py *)

Definition setup_company_body (config_b64 : string) : M pyval :=
  config <- lift_outcome (decode_config h config_b64) ;;
  company_name <- py_getitem config "company_name" ;;
  company_abbr <- py_getitem config "company_abbr" ;;
  country <- py_getitem config "country" ;;
  currency <- py_getitem config "currency" ;;
  chart_of_accounts <- py_get config "chart_of_accounts" (PStr "Standard") ;;
  fy_name <- py_getitem config "fy_name" ;;
  fy_start_date <- py_getitem config "fy_start_date" ;;
  fy_end_date <- py_getitem config "fy_end_date" ;;
  print ("[SETUP] Company: " ++ py_str company_name ++ ", Abbr: "
           ++ py_str company_abbr ++ ", Country: " ++ py_str country) ;;
  set_flag "ignore_permissions" (PBool true) ;;
  (* Step 1 *)
  rewrite_site_config "setup_complete" (PInt 1) ;;
  print "[SETUP] site_config.json updated with setup_complete=1" ;;
  (* Step 2 *)
  db_set_single_value "System Settings" "setup_complete" (PInt 1) ;;
  db_set_single_value "System Settings" "enable_onboarding" (PInt 0) ;;
  db_set_single_value "System Settings" "country" country ;;
  db_set_single_value "System Settings" "language" (PStr "en") ;;
  db_set_single_value "System Settings" "time_zone" (PStr "Asia/Kolkata") ;;
  db_commit ;;
  print "[SETUP] System Settings updated with setup_complete=1, enable_onboarding=0" ;;
  (* Step 2b *)
  for_each ["frappe"; "erpnext"] (fun app_name =>
    found <- db_exists "Installed Application" [("app_name", Eq (PStr app_name))] ;;
    if found then
      db_set_value "Installed Application" [("app_name", Eq (PStr app_name))]
        "is_setup_complete" (PInt 1) ;;
      print ("[SETUP] Marked " ++ app_name ++ " as setup complete in Installed Application")
    else ret tt) ;;
  db_commit ;;
  (* Step 2c *)
  db_set_default "desktop:home_page" (PStr "home") ;;
  db_commit ;;
  print "[SETUP] Set desktop:home_page to 'home' (prevents setup wizard redirect)" ;;
  (* Step 3 *)
  for_each ["Transit"; "Stores"; "Goods In Transit"; "Virtual"] (fun wt =>
    found <- db_exists "Warehouse Type" (named (PStr wt)) ;;
    if negb found then
      doc_insert "Warehouse Type" [("name", PStr wt)] ;;
      print ("[SETUP] Created Warehouse Type: " ++ wt)
    else ret tt) ;;
  db_commit ;;
  (* Step 4 *)
  set_flag "in_setup_wizard" (PBool true) ;;
  found <- db_exists "Company" (named company_name) ;;
  (if negb found then
     print ("[SETUP] Creating company: " ++ py_str company_name) ;;
     doc_insert "Company"
       [("company_name", company_name);
        ("abbr", company_abbr);
        ("country", country);
        ("default_currency", currency);
        ("enable_perpetual_inventory", PInt 1);
        ("chart_of_accounts", chart_of_accounts)] ;;
     db_set_default "company" company_name ;;
     db_set_default "country" country ;;
     db_set_default "currency" currency ;;
     db_commit ;;
     print ("[SETUP] Company created: " ++ py_str company_name)
   else
     db_set_default "company" company_name ;;
     db_set_default "country" country ;;
     db_set_default "currency" currency ;;
     db_commit ;;
     print ("[SETUP] Company already exists: " ++ py_str company_name)) ;;
  set_flag "in_setup_wizard" (PBool false) ;;
  (* Step 5 *)
  found <- db_exists "Fiscal Year" (named fy_name) ;;
  (if negb found then
     print ("[SETUP] Creating fiscal year: " ++ py_str fy_name) ;;
     doc_insert "Fiscal Year"
       [("year", fy_name);
        ("year_start_date", fy_start_date);
        ("year_end_date", fy_end_date);
        ("is_short_year", PInt 0)] ;;
     db_set_default "fiscal_year" fy_name ;;
     db_commit ;;
     print ("[SETUP] Fiscal Year created: " ++ py_str fy_name)
   else
     db_set_default "fiscal_year" fy_name ;;
     db_commit ;;
     print ("[SETUP] Fiscal Year exists: " ++ py_str fy_name)) ;;
  (* Step 6 *)
  found <- db_exists "DocType" (named (PStr "ERPNext Settings")) ;;
  (if found then
     try_except
       (erpnext_settings <- get_single "ERPNext Settings" ;;
        single_save "ERPNext Settings" (dict_set erpnext_settings "setup_complete" (PInt 1)) ;;
        db_commit ;;
        print "[SETUP] ERPNext Settings updated with setup_complete=1")
       (fun e => print ("[SETUP] Warning: Could not update ERPNext Settings: " ++ exn_str e))
   else ret tt) ;;
  (* Step 7 *)
  found <- db_exists "DocType" (named (PStr "Global Defaults")) ;;
  (if found then
     try_except
       (global_defaults <- get_single "Global Defaults" ;;
        let global_defaults := dict_set global_defaults "default_company" company_name in
        let global_defaults := dict_set global_defaults "current_fiscal_year" fy_name in
        let global_defaults := dict_set global_defaults "country" country in
        let global_defaults := dict_set global_defaults "default_currency" currency in
        single_save "Global Defaults" global_defaults ;;
        db_commit ;;
        print "[SETUP] Global Defaults updated")
       (fun e => print ("[SETUP] Warning: Could not update Global Defaults: " ++ exn_str e))
   else ret tt) ;;
  (* Step 8 *)
  found <- db_exists "DocType" (named (PStr "Stock Settings")) ;;
  (if found then
     try_except
       (stock_settings <- get_single "Stock Settings" ;;
        single_save "Stock Settings" (dict_set stock_settings "stock_uom" (PStr "Nos")) ;;
        db_commit ;;
        print "[SETUP] Stock Settings updated")
       (fun e => print ("[SETUP] Warning: Could not update Stock Settings: " ++ exn_str e))
   else ret tt) ;;
  (* Step 9 *)
  clear_cache ;;
  print "[SETUP] Cache cleared" ;;
  (* Verify company was created *)
  found <- db_exists "Company" (named company_name) ;;
  if found then
    print "SETUP_SUCCESS" ;;
    ret (PDict [("success", PBool true);
                ("message", PStr ("Company " ++ py_str company_name
                                    ++ " created successfully"))])
  else
    print ("SETUP_FAILED: Company '" ++ py_str company_name ++ "' not found after creation") ;;
    ret (PDict [("success", PBool false);
                ("message", PStr ("Company '" ++ py_str company_name
                                    ++ "' not found after creation"))]).

Definition failure (e : exn) : pyval :=
  PDict [("success", PBool false); ("message", PStr (exn_str e))].

Definition setup_company (config_b64 : string) : M pyval :=
  try_except (setup_company_body config_b64)
    (fun e =>
       print ("SETUP_FAILED: " ++ exn_str e) ;;
       print_exc e ;;
       ret (failure e)).

Definition create_user_body (config_b64 : string) : M pyval :=
  config <- lift_outcome (decode_config h config_b64) ;;
  email <- py_getitem config "email" ;;
  first_name <- py_get config "first_name" (PStr "User") ;;
  last_name <- py_get config "last_name" (PStr EmptyString) ;;
  password <- py_getitem config "password" ;;
  print ("[USER] Creating/updating user: " ++ py_str email) ;;
  set_flag "ignore_permissions" (PBool true) ;;
  found <- db_exists "User" (named email) ;;
  if found then
    update_password email password ;;
    db_commit ;;
    user <- get_doc "User" email ;;
    let user := set_column "enabled" (PInt 1) user in
    user <- (if negb (existsb (fun r => py_eq_str r "System Manager") (roles_of user))
             then add_roles user "System Manager"
             else ret user) ;;
    doc_save "User" user ;;
    db_commit ;;
    print ("USER_SUCCESS: User " ++ py_str email ++ " exists, password and roles updated") ;;
    ret (PDict [("success", PBool true);
                ("message", PStr ("User " ++ py_str email ++ " updated"))])
  else
    user <- doc_insert "User"
      [("email", email);
       ("first_name", first_name);
       ("last_name", last_name);
       ("enabled", PInt 1);
       ("user_type", PStr "System User");
       ("send_welcome_email", PInt 0)] ;;
    update_password email password ;;
    db_commit ;;
    add_roles user "System Manager" ;;
    db_commit ;;
    print ("USER_SUCCESS: User " ++ py_str email ++ " created successfully") ;;
    try_except
      (update_password (PStr "Administrator") password ;;
       db_commit ;;
       print "[USER] Administrator password also updated")
      (fun admin_err =>
         print ("[USER] Warning: Could not update Administrator password: "
                  ++ exn_str admin_err)) ;;
    ret (PDict [("success", PBool true);
                ("message", PStr ("User " ++ py_str email ++ " created/updated"))]).

Definition create_user (config_b64 : string) : M pyval :=
  try_except (create_user_body config_b64)
    (fun e =>
       print ("USER_FAILED: " ++ exn_str e) ;;
       print_exc e ;;
       ret (failure e)).

End Program.

(** * Concrete sites and hosts *)

(** The sites and hosts the properties below are run on. *)
Module Scenario.

Definition acme_config_b64 : string :=
  "eyJjb21wYW55X25hbWUiOiAiQWNtZSIsICJjb21wYW55X2FiYnIiOiAiQUMiLCAiY291bnRyeSI6ICJJbmRpYSIsICJjdXJyZW5jeSI6ICJJTlIiLCAiZnlfbmFtZSI6ICIyMDI0LTIwMjUiLCAiZnlfc3RhcnRfZGF0ZSI6ICIyMDI0LTA0LTAxIiwgImZ5X2VuZF9kYXRlIjogIjIwMjUtMDMtMzEifQ==".

(** [{"company_name": "Acme", "company_abbr": "AC", "country": "India",
     "currency": "INR", "fy_name": "2024-2025",
     "fy_start_date": "2024-04-01", "fy_end_date": "2025-03-31"}] *)
Definition acme_config : pyval :=
  PDict [("company_name", PStr "Acme");
         ("company_abbr", PStr "AC");
         ("country", PStr "India");
         ("currency", PStr "INR");
         ("fy_name", PStr "2024-2025");
         ("fy_start_date", PStr "2024-04-01");
         ("fy_end_date", PStr "2025-03-31")].

Definition no_fiscal_year_b64 : string :=
  "eyJjb21wYW55X25hbWUiOiAiQWNtZSIsICJjb21wYW55X2FiYnIiOiAiQUMiLCAiY291bnRyeSI6ICJJbmRpYSIsICJjdXJyZW5jeSI6ICJJTlIifQ==".

(** [{"company_name": "Acme", "company_abbr": "AC", "country": "India",
     "currency": "INR"}]: the fiscal year keys are missing. *)
Definition no_fiscal_year_config : pyval :=
  PDict [("company_name", PStr "Acme");
         ("company_abbr", PStr "AC");
         ("country", PStr "India");
         ("currency", PStr "INR")].

Definition spaced_config_b64 : string :=
  "eyJjb21wYW55X25hbWUiOiAiIEFjbWUiLCAiY29tcGFueV9hYmJyIjogIkFDIiwgImNvdW50cnkiOiAiSW5kaWEiLCAiY3VycmVuY3kiOiAiSU5SIiwgImZ5X25hbWUiOiAiMjAyNC0yMDI1IiwgImZ5X3N0YXJ0X2RhdGUiOiAiMjAyNC0wNC0wMSIsICJmeV9lbmRfZGF0ZSI6ICIyMDI1LTAzLTMxIn0=".

(** As [acme_config], with the company name [" Acme"]. *)
Definition spaced_config : pyval :=
  PDict [("company_name", PStr " Acme");
         ("company_abbr", PStr "AC");
         ("country", PStr "India");
         ("currency", PStr "INR");
         ("fy_name", PStr "2024-2025");
         ("fy_start_date", PStr "2024-04-01");
         ("fy_end_date", PStr "2025-03-31")].

Definition ann_config_b64 : string :=
  "eyJlbWFpbCI6ICJhbm5AZXhhbXBsZS5jb20iLCAiZmlyc3RfbmFtZSI6ICJBbm4iLCAicGFzc3dvcmQiOiAiczNjcmV0In0=".

(** [{"email": "ann@example.com", "first_name": "Ann", "password": "s3cret"}] *)
Definition ann_config : pyval :=
  PDict [("email", PStr "ann@example.com");
         ("first_name", PStr "Ann");
         ("password", PStr "s3cret")].

(** The decoder on the inputs used here; anything else is taken as
    malformed base64. *)
Definition decode (x : string) : outcome pyval :=
  if String.eqb x acme_config_b64 then Ok acme_config
  else if String.eqb x no_fiscal_year_b64 then Ok no_fiscal_year_config
  else if String.eqb x spaced_config_b64 then Ok spaced_config
  else if String.eqb x ann_config_b64 then Ok ann_config
  else Raise (Exn "binascii.Error" "Incorrect padding").

Definition strip_left (x : string) : string :=
  match x with
  | String " " rest => rest
  | _ => x
  end.

(** Naming by field: the company by its [company_name], the fiscal year
    by its [year], the user by its [email], anything else by [name];
    a leading blank is dropped. *)
Definition naming_field (doctype : string) : string :=
  if String.eqb doctype "Company" then "company_name"
  else if String.eqb doctype "Fiscal Year" then "year"
  else if String.eqb doctype "User" then "email"
  else "name".

Definition field_autoname (doctype : string) (fields : dict) : string :=
  match dict_get fields (naming_field doctype) with
  | Some (PStr x) => strip_left x
  | _ => EmptyString
  end.

(** A host on which nothing fails, on 15 February 2024. *)
Definition host : Host :=
  {| decode_config := decode;
     parse_int := fun _ => None;
     parse_float := fun _ => None;
     float_repr := fun _ => "0.0";
     today_ymd := (2024, 2, 15);
     cache_error := None;
     fault := fun _ _ => None;
     autoname := field_autoname |}.

(** The same host with the cache backend unreachable. *)
Definition host_cache_down : Host :=
  {| decode_config := decode;
     parse_int := fun _ => None;
     parse_float := fun _ => None;
     float_repr := fun _ => "0.0";
     today_ymd := (2024, 2, 15);
     cache_error := Some (Exn "redis.exceptions.TimeoutError" "Timeout reading from socket");
     fault := fun _ _ => None;
     autoname := field_autoname |}.

(** The same host on which inserting a Company is refused. *)
Definition host_company_refused : Host :=
  {| decode_config := decode;
     parse_int := fun _ => None;
     parse_float := fun _ => None;
     float_repr := fun _ => "0.0";
     today_ymd := (2024, 2, 15);
     cache_error := None;
     fault := fun _ op =>
       match op with
       | DocInsert doctype _ =>
           if String.eqb doctype "Company"
           then Some (Exn "frappe.exceptions.LinkValidationError"
                        "Could not find Country: India")
           else None
       | _ => None
       end;
     autoname := field_autoname |}.

Definition empty_db : Database :=
  {| tables := []; singles := []; defaults := []; passwords := [] |}.

(** A new site: nothing cached, a configuration file with the database
    name only, an empty database. *)
Definition fresh_site : Site :=
  {| cache := [];
     conf := [("db_name", PStr "tenant1")];
     site_config := Json (PDict [("db_name", PStr "tenant1")]);
     site_config_writable := true;
     db := empty_db;
     committed := empty_db;
     flags := [];
     stdout := [];
     error_log := [];
     calls := [] |}.

Definition system_user (name : string) : Row :=
  {| row_name := name;
     row_fields := [("enabled", PInt 1); ("user_type", PStr "System User")] |}.

Definition users_db : Database :=
  {| tables := [("User", [system_user "Administrator";
                          system_user "a@example.com";
                          system_user "b@example.com";
                          system_user "c@example.com"])];
     singles := []; defaults := []; passwords := [] |}.

(** A site on a plan of three users, with three users besides
    Administrator. *)
Definition three_users_site : Site :=
  {| cache := [("saas_plan_limits", PDict [("max_users", PInt 3)])];
     conf := [];
     site_config := Json (PDict []);
     site_config_writable := true;
     db := users_db;
     committed := users_db;
     flags := [];
     stdout := [];
     error_log := [];
     calls := [] |}.

Definition fourth_user : Document :=
  {| doc_name := "d@example.com";
     doc_fields := [("user_type", PStr "System User"); ("enabled", PInt 1)];
     doc_islocal := true |}.

Definition website_user : Document :=
  {| doc_name := "visitor@example.com";
     doc_fields := [("user_type", PStr "Website User"); ("enabled", PInt 1)];
     doc_islocal := true |}.

Definition invoices_db : Database :=
  {| tables := [("Sales Invoice",
                 [{| row_name := "INV-0001";
                     row_fields := [("docstatus", PInt 1);
                                    ("posting_date", PDate 2024 2 10)] |}])];
     singles := []; defaults := []; passwords := [] |}.

(** A site on a plan of one invoice a month, with one invoice submitted
    this month. *)
Definition one_invoice_site : Site :=
  {| cache := [("saas_plan_limits", PDict [("max_invoices_per_month", PInt 1)])];
     conf := [];
     site_config := Json (PDict []);
     site_config_writable := true;
     db := invoices_db;
     committed := invoices_db;
     flags := [];
     stdout := [];
     error_log := [];
     calls := [] |}.

Definition draft_invoice : Document :=
  {| doc_name := "INV-0002";
     doc_fields := [("docstatus", PInt 0); ("posting_date", PDate 2024 2 15)];
     doc_islocal := true |}.

(** A site without limits. *)
Definition unlimited_site : Site :=
  {| cache := [("saas_plan_limits", PDict [("max_storage_gb", PInt 5)])];
     conf := [];
     site_config := Json (PDict []);
     site_config_writable := true;
     db := users_db;
     committed := users_db;
     flags := [];
     stdout := [];
     error_log := [];
     calls := [] |}.

(** A site whose configuration file holds older limits and cannot be
    written. *)
Definition read_only_site : Site :=
  {| cache := [];
     conf := [];
     site_config := Json (PDict [("saas_plan_limits", PDict [("max_users", PInt 1)])]);
     site_config_writable := false;
     db := empty_db;
     committed := empty_db;
     flags := [];
     stdout := [];
     error_log := [];
     calls := [] |}.

Definition acme_db : Database :=
  {| tables := [("Company", [{| row_name := "Acme"; row_fields := [] |}])];
     singles := []; defaults := []; passwords := [] |}.

(** A site on which the company Acme already exists. *)
Definition acme_site : Site :=
  {| cache := [];
     conf := [];
     site_config := Json (PDict []);
     site_config_writable := true;
     db := acme_db;
     committed := acme_db;
     flags := [];
     stdout := [];
     error_log := [];
     calls := [] |}.

(** A site whose cache is empty and whose [frappe.conf] holds the
    limits of a plan of two customers. *)
Definition conf_limits_site : Site :=
  {| cache := [];
     conf := [("saas_plan_limits", PDict [("max_customers", PInt 2)])];
     site_config := Json (PDict [("saas_plan_limits", PDict [("max_customers", PInt 2)])]);
     site_config_writable := true;
     db := empty_db;
     committed := empty_db;
     flags := [];
     stdout := [];
     error_log := [];
     calls := [] |}.

Definition customers_db : Database :=
  {| tables := [("Customer", [{| row_name := "C1"; row_fields := [] |};
                              {| row_name := "C2"; row_fields := [] |}])];
     singles := []; defaults := []; passwords := [] |}.

(** A site with two customers whose cached limits are [limits]. *)
Definition customers_site (limits : dict) : Site :=
  {| cache := [("saas_plan_limits", PDict limits)];
     conf := [];
     site_config := Json (PDict []);
     site_config_writable := true;
     db := customers_db;
     committed := customers_db;
     flags := [];
     stdout := [];
     error_log := [];
     calls := [] |}.

(** The customer C1, saved again. *)
Definition existing_customer : Document :=
  {| doc_name := "C1"; doc_fields := []; doc_islocal := false |}.

(** A customer that is being created. *)
Definition new_customer : Document :=
  {| doc_name := "C3"; doc_fields := []; doc_islocal := true |}.

Definition ann_db : Database :=
  {| tables := [("User", [system_user "Administrator";
                          system_user "ann@example.com"])];
     singles := []; defaults := [];
     passwords := [("Administrator", PStr "root"); ("ann@example.com", PStr "old")] |}.

(** A site on which the user ann@example.com already exists. *)
Definition ann_site : Site :=
  {| cache := [];
     conf := [];
     site_config := Json (PDict []);
     site_config_writable := true;
     db := ann_db;
     committed := ann_db;
     flags := [];
     stdout := [];
     error_log := [];
     calls := [] |}.

Definition ann_bob_db : Database :=
  {| tables := [("User", [system_user "Administrator";
                          system_user "ann@example.com";
                          system_user "bob@example.com"])];
     singles := []; defaults := [];
     passwords := [("Administrator", PStr "root");
                   ("ann@example.com", PStr "old");
                   ("bob@example.com", PStr "hunter2")] |}.

(** A site on which Ann and Bob exist, each with a stored password. *)
Definition ann_bob_site : Site :=
  {| cache := [];
     conf := [];
     site_config := Json (PDict []);
     site_config_writable := true;
     db := ann_bob_db;
     committed := ann_bob_db;
     flags := [];
     stdout := [];
     error_log := [];
     calls := [] |}.

(** Limits that hold a date, which [json.dump] cannot write. *)
Definition dated_limits : pyval :=
  PDict [("max_users", PInt 3); ("valid_until", PDate 2025 12 31)].

End Scenario.

(** * Vocabulary of the properties *)

(** The users that count against [max_users] when [doc] is saved:
    enabled System Users other than Administrator, Guest and [doc]. *)
Definition qualifying_user (doc : Document) (r : Row) : bool :=
  negb (String.eqb (row_name r) "Administrator")
  && negb (String.eqb (row_name r) "Guest")
  && negb (String.eqb (row_name r) (doc_name doc))
  && sql_eqb (column r "enabled") (PInt 1)
  && sql_eqb (column r "user_type") (PStr "System User").

(** The records of a doctype other than the document being saved. *)
Definition other_record (doc : Document) (r : Row) : bool :=
  negb (String.eqb (row_name r) (doc_name doc)).

(** A date of the month [today] lies in. *)
Definition in_current_month (h : Host) (v : pyval) : bool :=
  match v, today h with
  | PDate y m d, PDate ty tm _ =>
      (y =? ty) && (m =? tm) && (1 <=? d) && (d <=? days_in_month ty tm)
  | _, _ => false
  end.

(** The invoices that count against [max_invoices_per_month]: submitted,
    posted in the current month, other than [doc]. *)
Definition qualifying_invoice (h : Host) (doc : Document) (r : Row) : bool :=
  negb (String.eqb (row_name r) (doc_name doc))
  && sql_eqb (column r "docstatus") (PInt 1)
  && in_current_month h (column r "posting_date").

(** The number of rows of a doctype that satisfy [p]. *)
Definition count_where (p : Row -> bool) (s : Site) (doctype : string) : Z :=
  Z.of_nat (length (filter p (table (db s) doctype))).

(** [keeps R m]: whatever [m] returns or raises, the state it leaves is
    related by [R] to the state it started from. *)
Definition keeps {A : Type} (R : Site -> Site -> Prop) (m : M A) : Prop :=
  forall s r s', m s = (r, s') -> R s s'.

(** [yields P m]: every value [m] returns satisfies [P]. *)
Definition yields {A : Type} (P : A -> Prop) (m : M A) : Prop :=
  forall s a s', m s = (Ok a, s') -> P a.

(** A program whose handlers return never lets an exception out. *)
Definition never_raises {A : Type} (m : M A) : Prop :=
  forall s, exists a s', m s = (Ok a, s').

(** What reading the limits, and the calls it is made of, leave alone. *)
Definition same_data (s s' : Site) : Prop :=
  db s' = db s /\ committed s' = committed s
  /\ site_config s' = site_config s /\ conf s' = conf s.

(** What [frappe.throw(msg)] raises. *)
Definition validation_error (msg : string) : exn :=
  Exn "frappe.exceptions.ValidationError" msg.

(** The hook stops the save: it raises, and the exception is the
    framework's validation error with [msg] unless the count query itself
    failed. *)
Definition blocks_save (h : Host) (hook : M unit) (s : Site) (msg : string) : Prop :=
  exists e s',
    hook s = (Raise e, s')
    /\ ((forall n dt, fault h n (DbCount dt) = None) -> e = validation_error msg).

(** The limit under [key] is the integer [L]. *)
Definition limit_is (d : dict) (key : string) (L : Z) : Prop :=
  dict_get d key = Some (PInt L).

(** The limit under [key] is missing or 0. *)
Definition unlimited (d : dict) (key : string) : Prop :=
  dict_get d key = None \/ dict_get d key = Some (PInt 0).

(** The value under a key of [site_config.json], when the file holds a
    JSON object. *)
Definition file_key (f : file_content) (k : string) : option pyval :=
  match f with
  | Json (PDict d) => dict_get d k
  | _ => None
  end.

(** The file is as it was, or it held a JSON object and now holds the
    same object with [key] set. *)
Definition file_frame (key : string) (s s' : Site) : Prop :=
  site_config s' = site_config s
  \/ exists d v,
       site_config s = Json (PDict d)
       /\ site_config s' = Json (PDict (dict_set d key v)).

(** What the file holds is something [json.load] returns, which
    [json.dump] can write back: every file read from disk is so. *)
Definition file_is_json (s : Site) : Prop :=
  forall v, site_config s = Json v -> json_serialisable v = true.

(** What a rewrite of [key] to [v] can make of the file: nothing, the
    same JSON object with [key] set to [v], or, when that object cannot
    be written as JSON, a file cut off in the middle of the dump. *)
Definition file_written (key : string) (v : pyval) (s s' : Site) : Prop :=
  site_config s' = site_config s
  \/ (exists d,
         site_config s = Json (PDict d)
         /\ site_config s' = Json (PDict (dict_set d key v)))
  \/ (exists d,
         site_config s = Json (PDict d)
         /\ json_serialisable (PDict (dict_set d key v)) = false
         /\ site_config s' = NotJson).

(** The limits [sync_plan_limits] builds from its arguments. *)
Definition coerced_limits (h : Host) (s : Site)
    (a1 a2 a3 a4 a5 a6 : pyval) (L : pyval) : Prop :=
  exists z1 z2 z3 z4 z5 v6,
    int_or_zero h a1 s = (Ok (PInt z1), s)
    /\ int_or_zero h a2 s = (Ok (PInt z2), s)
    /\ int_or_zero h a3 s = (Ok (PInt z3), s)
    /\ int_or_zero h a4 s = (Ok (PInt z4), s)
    /\ int_or_zero h a5 s = (Ok (PInt z5), s)
    /\ float_or_zero h a6 s = (Ok v6, s)
    /\ (v6 = PInt 0 \/ exists q, v6 = PFloat q)
    /\ L = PDict [("max_users", PInt z1);
                  ("max_customers", PInt z2);
                  ("max_suppliers", PInt z3);
                  ("max_companies", PInt z4);
                  ("max_invoices_per_month", PInt z5);
                  ("max_storage_gb", v6)].

(** [ensures Q m]: whenever [m] returns, the value and the state it
    leaves satisfy [Q]. *)
Definition ensures {A : Type} (Q : A -> Site -> Prop) (m : M A) : Prop :=
  forall s a s', m s = (Ok a, s') -> Q a s'.

(** The shape [{"success": bool, "message": str}]. *)
Definition result_shape (v : pyval) : Prop :=
  exists b msg, v = PDict [("success", PBool b); ("message", PStr msg)].


(** A Company record of that name is in the database. *)
Definition company_exists (s : Site) (name : pyval) : bool :=
  has_row (db s) "Company" [("name", Eq name)].

(** The result is a dict whose [success] is [True]. *)
Definition reports_success (res : pyval) : Prop :=
  match res with
  | PDict d => dict_get d "success" = Some (PBool true)
  | _ => False
  end.


(** The records the customer, supplier and company hooks count: all of
    them for a new document, the others for a document being updated. *)
Definition counted (doc : Document) (r : Row) : bool :=
  is_new doc || other_record doc r.

(** The values [>=] compares with an integer. *)
Definition is_number (v : pyval) : bool :=
  match v with
  | PBool _ | PInt _ | PFloat _ => true
  | _ => false
  end.

(** What [n >= v] raises when [v] is not a number. *)
Definition comparison_error (v : pyval) : exn :=
  Exn "TypeError"
    ("'>=' not supported between instances of 'int' and '" ++ py_type_name v ++ "'").

(** A row of that name is in the table of the doctype. *)
Definition has_name (s : Site) (doctype name : string) : bool :=
  existsb (fun r => String.eqb (row_name r) name) (table (db s) doctype).

(** The keys [setup_company] and [create_user] read with [config[key]],
    in the order they are read. *)
Definition required_company_keys : list string :=
  ["company_name"; "company_abbr"; "country"; "currency";
   "fy_name"; "fy_start_date"; "fy_end_date"].

Definition required_user_keys : list string := ["email"; "password"].

(** The first of [keys] that [d] lacks. *)
Definition first_missing (d : dict) (keys : list string) : option string :=
  find (fun k => match dict_get d k with None => true | Some _ => false end) keys.

(** The site after the handler of [setup_company] or [create_user] has
    reported [e]: two more lines on the output, nothing else changed. *)
Definition reported (label : string) (e : exn) (s : Site) : Site :=
  with_stdout
    ((stdout s ++ [(label ++ exn_str e)%string])
       ++ [("Traceback (most recent call last): " ++ exn_class e ++ ": "
              ++ exn_str e)%string])
    s.

(** The value under [key] of the decoded configuration. *)
Definition config_value (h : Host) (config_b64 : string) (key : string) : option pyval :=
  match decode_config h config_b64 with
  | Ok (PDict d) => dict_get d key
  | _ => None
  end.

(** [d] has every entry of [expected]. *)
Definition holds (expected d : dict) : Prop :=
  forall k v, dict_get expected k = Some v -> dict_get d k = Some v.

(** [hoare P m Q]: started in a state satisfying [P], whenever [m]
    returns, the value and the state it leaves satisfy [Q]. *)
Definition hoare {A : Type} (P : Site -> Prop) (m : M A) (Q : A -> Site -> Prop) : Prop :=
  forall s a s', P s -> m s = (Ok a, s') -> Q a s'.

(** [kept P]: the relation between states that carries [P] over. *)
Definition kept (P : Site -> Prop) (s s' : Site) : Prop := P s -> P s'.

(** [site_config.json] says that the site is set up. *)
Definition file_marked (s : Site) : Prop :=
  file_key (site_config s) "setup_complete" = Some (PInt 1).

(** The System Settings, and the defaults, of a database have the
    expected entries. *)
Definition settings_hold (expected : dict) (d : Database) : Prop :=
  holds expected (single d "System Settings").

Definition defaults_hold (expected : dict) (d : Database) : Prop :=
  holds expected (defaults d).

(** What is known of a site while [setup_company] runs: entries of the
    System Settings and of the defaults as this connection sees them
    ([sd], [dd]) and as committed ([sc], [dc]), and entries of
    [frappe.flags] ([fl]). *)
Definition tracks (sd dd sc dc fl : dict) (s : Site) : Prop :=
  settings_hold sd (db s) /\ defaults_hold dd (db s)
  /\ settings_hold sc (committed s) /\ defaults_hold dc (committed s)
  /\ holds fl (flags s).

(** What a run of [setup_company] that reaches its end has made of the
    site, for the values of its configuration. *)
Definition set_up (h : Host) (config_b64 : string) (s : Site) : Prop :=
  exists company_name country currency fy_name,
    config_value h config_b64 "company_name" = Some company_name
    /\ config_value h config_b64 "country" = Some country
    /\ config_value h config_b64 "currency" = Some currency
    /\ config_value h config_b64 "fy_name" = Some fy_name
    /\ tracks
         [("setup_complete", PInt 1); ("enable_onboarding", PInt 0);
          ("country", country); ("language", PStr "en");
          ("time_zone", PStr "Asia/Kolkata")]
         [("desktop:home_page", PStr "home"); ("company", company_name);
          ("country", country); ("currency", currency);
          ("fiscal_year", fy_name)]
         [("setup_complete", PInt 1); ("enable_onboarding", PInt 0);
          ("country", country); ("language", PStr "en");
          ("time_zone", PStr "Asia/Kolkata")]
         [("desktop:home_page", PStr "home"); ("company", company_name);
          ("country", country); ("currency", currency);
          ("fiscal_year", fy_name)]
         [("ignore_permissions", PBool true); ("in_setup_wizard", PBool false)]
         s.

(** The password of [user] is [p], for this connection and as
    committed. *)
Definition password_stored (user : string) (p : pyval) (s : Site) : Prop :=
  dict_get (passwords (db s)) user = Some p
  /\ dict_get (passwords (committed s)) user = Some p.

(** What is known of the passwords while [create_user] runs: entries as
    this connection sees them ([pd]) and as committed ([pc]). *)
Definition pw_tracks (pd pc : dict) (s : Site) : Prop :=
  holds pd (passwords (db s)) /\ holds pc (passwords (committed s)).

(** The password of [user] is the same in both states. *)
Definition same_password (user : string) (s s' : Site) : Prop :=
  dict_get (passwords (db s')) user = dict_get (passwords (db s)) user.

(** Every record name of [s] is a record name of [s']. *)
Definition rows_kept (s s' : Site) : Prop :=
  forall doctype name,
    has_name s doctype name = true -> has_name s' doctype name = true.

(** [r] is the User record of [email]: it is named [email] (a user that
    existed) or was inserted with that [email]. *)
Definition user_record_of (email : pyval) (r : Row) : Prop :=
  row_matches (named email) r = true
  \/ dict_get (row_fields r) "email" = Some email.

(** An enabled user that has the System Manager role. *)
Definition is_manager (r : Row) : Prop :=
  column r "enabled" = PInt 1
  /\ existsb (fun x => py_eq_str x "System Manager") (roles_of r) = true.

(** The database holds the User record of [email], enabled and with the
    System Manager role. *)
Definition manager_saved (email : pyval) (d : Database) : Prop :=
  exists r, In r (table d "User") /\ user_record_of email r /\ is_manager r.

(** The Administrator password is [a0] and the user [email] exists. *)
Definition admin_password_with_user (a0 : option pyval) (email : pyval) (s : Site)
  : Prop :=
  dict_get (passwords (db s)) "Administrator" = a0
  /\ has_row (db s) "User" (named email) = true.

(** Every name of [rows] is a name of [rows']. *)
Definition names_kept (rows rows' : list Row) : Prop :=
  forall name,
    existsb (fun r => String.eqb (row_name r) name) rows = true ->
    existsb (fun r => String.eqb (row_name r) name) rows' = true.

(** What the quota endpoints never write: the database, [frappe.conf],
    the flags and the output. *)
Definition limits_only (s s' : Site) : Prop :=
  db s' = db s /\ committed s' = committed s /\ conf s' = conf s
  /\ flags s' = flags s /\ stdout s' = stdout s.

(** [site_config.json] cannot be rewritten: it may not be written, or
    what it holds is not a JSON object. *)
Definition unwritable_file (s : Site) : Prop :=
  site_config_writable s = false \/ forall c, site_config s <> Json (PDict c).

(** Since [s0], no framework call has been made and neither the
    database nor the file has changed. *)
Definition untouched_since (s0 s : Site) : Prop :=
  db s = db s0 /\ committed s = committed s0 /\ site_config s = site_config s0
  /\ site_config_writable s = site_config_writable s0 /\ calls s = calls s0.

(** The table of [doctype] is [t0]. *)
Definition table_is (doctype : string) (t0 : list Row) (s : Site) : Prop :=
  table (db s) doctype = t0.

(** What reading the limits can change: nothing but the cache, and
    there nothing but the entry [saas_plan_limits], set to the limits
    that [frappe.conf] holds. *)
Definition only_warms_cache (s s' : Site) : Prop :=
  same_data s s'
  /\ site_config_writable s' = site_config_writable s
  /\ flags s' = flags s /\ stdout s' = stdout s /\ error_log s' = error_log s
  /\ (cache s' = cache s
      \/ exists v,
           dict_get (conf s) "saas_plan_limits" = Some v
           /\ cache s' = dict_set (cache s) "saas_plan_limits" v).

(** * Properties of usage_limits.py *)

(** ** Helper lemmas *)

Lemma filter_length_ext {A : Type} (p q : A -> bool) (l : list A) :
  (forall x, p x = q x) -> length (filter p l) = length (filter q l).
Proof.
  intros E. induction l as [|x l IH]; simpl; [reflexivity|].
  rewrite E. destruct (q x); simpl; congruence.
Qed.

Lemma filter_length_mono {A : Type} (p q : A -> bool) (l : list A) :
  (forall x, p x = true -> q x = true) ->
  (length (filter p l) <= length (filter q l))%nat.
Proof.
  intros I. induction l as [|x l IH]; simpl; [lia|].
  destruct (p x) eqn:P.
  - rewrite (I x P). simpl. lia.
  - destruct (q x); simpl; lia.
Qed.

Lemma user_filter_is_qualifying (doc : Document) (r : Row) :
  row_matches
    [("enabled", Eq (PInt 1));
     ("user_type", Eq (PStr "System User"));
     ("name", NotIn [PStr "Administrator"; PStr "Guest"; PStr (doc_name doc)])] r
  = qualifying_user doc r.
Proof.
  unfold row_matches, qualifying_user. cbn [forallb fst snd eval_cond existsb].
  change (column r "name") with (PStr (row_name r)).
  cbn [sql_eqb].
  destruct (sql_eqb (column r "enabled") (PInt 1));
    destruct (sql_eqb (column r "user_type") (PStr "System User"));
    destruct (String.eqb (row_name r) "Administrator");
    destruct (String.eqb (row_name r) "Guest");
    destruct (String.eqb (row_name r) (doc_name doc)); reflexivity.
Qed.

Lemma between_month_bounds (y m d ty tm : Z) :
  date_leb (PDate ty tm 1) (PDate y m d)
  && date_leb (PDate y m d) (PDate ty tm (days_in_month ty tm))
  = (y =? ty) && (m =? tm) && (1 <=? d) && (d <=? days_in_month ty tm).
Proof.
  unfold date_leb.
  destruct (Z.ltb_spec ty y), (Z.eqb_spec ty y), (Z.ltb_spec y ty),
    (Z.eqb_spec y ty), (Z.ltb_spec tm m), (Z.eqb_spec tm m),
    (Z.ltb_spec m tm), (Z.eqb_spec m tm); try lia; subst; simpl;
    try reflexivity;
    destruct (1 <=? d), (d <=? days_in_month ty tm); reflexivity.
Qed.

Lemma invoice_filter_is_qualifying (h : Host) (doc : Document) (r : Row) :
  row_matches
    [("docstatus", Eq (PInt 1));
     ("posting_date", Between (get_first_day (today h)) (get_last_day (today h)));
     ("name", Ne (PStr (doc_name doc)))] r
  = qualifying_invoice h doc r.
Proof.
  unfold row_matches, qualifying_invoice, in_current_month.
  cbn [forallb fst snd eval_cond].
  change (column r "name") with (PStr (row_name r)).
  cbn [sql_eqb].
  unfold today. destruct (today_ymd h) as [[ty tm] td].
  cbn [get_first_day get_last_day].
  destruct (column r "posting_date") as [| | | | |y m d| |];
    try (cbn [date_leb]; rewrite ?andb_false_r;
         destruct (sql_eqb (column r "docstatus") (PInt 1)),
           (String.eqb (row_name r) (doc_name doc)); reflexivity).
  rewrite between_month_bounds.
  destruct (sql_eqb (column r "docstatus") (PInt 1)),
    (String.eqb (row_name r) (doc_name doc)),
    ((y =? ty) && (m =? tm) && (1 <=? d) && (d <=? days_in_month ty tm));
    reflexivity.
Qed.

Lemma other_than_covers (doc : Document) (r : Row) :
  other_record doc r = true -> row_matches (other_than doc) r = true.
Proof.
  unfold other_than, other_record, row_matches. intros O.
  destruct (is_new doc); simpl; [reflexivity|].
  change (column r "name") with (PStr (row_name r)). simpl.
  rewrite O. reflexivity.
Qed.

Lemma count_user_filter (doc : Document) (s : Site) :
  count_rows (db s) "User"
    [("enabled", Eq (PInt 1));
     ("user_type", Eq (PStr "System User"));
     ("name", NotIn [PStr "Administrator"; PStr "Guest"; PStr (doc_name doc)])]
  = count_where (qualifying_user doc) s "User".
Proof.
  unfold count_rows, count_where. f_equal.
  apply filter_length_ext. intros r. apply user_filter_is_qualifying.
Qed.

Lemma count_invoice_filter (h : Host) (doc : Document) (s : Site) :
  count_rows (db s) "Sales Invoice"
    [("docstatus", Eq (PInt 1));
     ("posting_date", Between (get_first_day (today h)) (get_last_day (today h)));
     ("name", Ne (PStr (doc_name doc)))]
  = count_where (qualifying_invoice h doc) s "Sales Invoice".
Proof.
  unfold count_rows, count_where. f_equal.
  apply filter_length_ext. intros r. apply invoice_filter_is_qualifying.
Qed.

Lemma count_other_than (doc : Document) (s : Site) (doctype : string) :
  count_where (other_record doc) s doctype
  <= count_rows (db s) doctype (other_than doc).
Proof.
  unfold count_rows, count_where. apply inj_le.
  apply filter_length_mono. intros r. apply other_than_covers.
Qed.

Lemma py_eq_str_true (v : pyval) (x : string) :
  py_eq_str v x = true <-> v = PStr x.
Proof.
  destruct v; simpl; split; intros E; try discriminate.
  - apply String.eqb_eq in E. congruence.
  - inversion E. apply String.eqb_refl.
Qed.

(** ** Reasoning about programs *)

Section Keeps.

Variable R : Site -> Site -> Prop.
Hypothesis R_refl : forall s, R s s.
Hypothesis R_trans : forall s1 s2 s3, R s1 s2 -> R s2 s3 -> R s1 s3.

Lemma keeps_ret {A : Type} (a : A) : keeps R (ret a).
Proof. intros s r s' E. inversion E. apply R_refl. Qed.

Lemma keeps_raise {A : Type} (e : exn) : keeps R (@raise A e).
Proof. intros s r s' E. inversion E. apply R_refl. Qed.

Lemma keeps_get_site : keeps R get_site.
Proof. intros s r s' E. inversion E. apply R_refl. Qed.

Lemma keeps_lift_outcome {A : Type} (o : outcome A) : keeps R (lift_outcome o).
Proof. intros s r s' E. inversion E. apply R_refl. Qed.

Lemma keeps_bind {A B : Type} (m : M A) (k : A -> M B) :
  keeps R m -> (forall a, keeps R (k a)) -> keeps R (bind m k).
Proof.
  intros Km Kk s r s' E. unfold bind in E.
  destruct (m s) as [[a|e] s1] eqn:Em.
  - eapply R_trans; [eapply Km; exact Em | eapply Kk; exact E].
  - inversion E; subst. eapply Km; exact Em.
Qed.

Lemma keeps_try_except {A : Type} (body : M A) (handler : exn -> M A) :
  keeps R body -> (forall e, keeps R (handler e)) -> keeps R (try_except body handler).
Proof.
  intros Kb Kh s r s' E. unfold try_except in E.
  destruct (body s) as [[a|e] s1] eqn:Eb.
  - inversion E; subst. eapply Kb; exact Eb.
  - eapply R_trans; [eapply Kb; exact Eb | eapply Kh; exact E].
Qed.

Lemma keeps_for_each {A : Type} (xs : list A) (body : A -> M unit) :
  (forall x, keeps R (body x)) -> keeps R (for_each xs body).
Proof.
  intros Kb. induction xs as [|x xs IH]; simpl.
  - apply keeps_ret.
  - apply keeps_bind; [apply Kb | intros _; exact IH].
Qed.

Lemma keeps_modify (f : Site -> Site) :
  (forall s, R s (f s)) -> keeps R (modify f).
Proof. intros Kf s r s' E. inversion E. apply Kf. Qed.

End Keeps.

Lemma yields_ret {A : Type} (P : A -> Prop) (a : A) : P a -> yields P (ret a).
Proof. intros Pa s b s' E. inversion E. subst. exact Pa. Qed.

Lemma yields_raise {A : Type} (P : A -> Prop) (e : exn) : yields P (raise e).
Proof. intros s b s' E. inversion E. Qed.

Lemma yields_bind {A B : Type} (P : B -> Prop) (m : M A) (k : A -> M B) :
  (forall a, yields P (k a)) -> yields P (bind m k).
Proof.
  intros Yk s b s' E. unfold bind in E.
  destruct (m s) as [[a|e] s1]; [eapply Yk; exact E | inversion E].
Qed.

Lemma yields_try_except {A : Type} (P : A -> Prop) (body : M A) (handler : exn -> M A) :
  yields P body -> (forall e, yields P (handler e)) -> yields P (try_except body handler).
Proof.
  intros Yb Yh s b s' E. unfold try_except in E.
  destruct (body s) as [[a|e] s1] eqn:Eb.
  - inversion E; subst. eapply Yb; exact Eb.
  - eapply Yh; exact E.
Qed.

Lemma try_except_never_raises {A : Type} (body : M A) (handler : exn -> M A) :
  (forall e, never_raises (handler e)) -> never_raises (try_except body handler).
Proof.
  intros Nh s. unfold try_except.
  destruct (body s) as [[a|e] s1]; [eauto | apply Nh].
Qed.

Ltac unfold_monad :=
  unfold cache_get_value, cache_set_value, cache_call, conf_get, db_count,
    db_call, log_error, print, frappe_throw, py_get, py_ge, try_except,
    bind, ret, raise, get_site, modify in *.

Lemma same_data_refl (s : Site) : same_data s s.
Proof. repeat split. Qed.

Lemma same_data_trans (s1 s2 s3 : Site) :
  same_data s1 s2 -> same_data s2 s3 -> same_data s1 s3.
Proof. unfold same_data. intuition congruence. Qed.

Lemma cache_call_same_data (h : Host) (op : Op) : keeps same_data (cache_call h op).
Proof.
  intros s r s' E. unfold cache_call in E.
  destruct (cache_error h); inversion E; repeat split.
Qed.

(** Walks through a program, leaving the goals for its primitive calls
    to [prim]. *)
Ltac keeps_walk Rr Rt prim :=
  repeat first
    [ prim
    | apply (keeps_bind _ Rt); [| intros ?]
    | apply (keeps_try_except _ Rt); [| intros ?]
    | apply (keeps_for_each _ Rr Rt); intros ?
    | apply (keeps_ret _ Rr)
    | apply (keeps_raise _ Rr)
    | apply (keeps_get_site _ Rr)
    | apply (keeps_lift_outcome _ Rr)
    | match goal with
      | |- keeps _ (if ?b then _ else _) => destruct b
      | |- keeps _ (match ?x with _ => _ end) => destruct x
      end ].

Lemma get_plan_limits_same_data (h : Host) : keeps same_data (get_plan_limits h).
Proof.
  unfold get_plan_limits, cache_get_value, cache_set_value, conf_get.
  keeps_walk same_data_refl same_data_trans
    ltac:(first [ apply cache_call_same_data
                | apply keeps_modify; intros; repeat split ]).
Qed.

Lemma limit_reached_blocks (h : Host) (s1 : Site) (doctype : string) (f : filters)
    (L : Z) (msg title : string) :
  L <= count_rows (db s1) doctype f ->
  exists e s',
    (current <- db_count h doctype f ;;
     reached <- py_ge current (PInt L) ;;
     if reached then frappe_throw msg title else ret tt) s1 = (Raise e, s')
    /\ ((forall n dt, fault h n (DbCount dt) = None) -> e = validation_error msg).
Proof.
  intros C. unfold_monad.
  destruct (fault h (length (calls s1)) (DbCount doctype)) as [e|] eqn:F.
  - exists e, (record_call (DbCount doctype) s1). split; [reflexivity|].
    intros NF. rewrite NF in F. discriminate.
  - simpl.
    replace (L <=? count_rows (db s1) doctype f) with true
      by (symmetry; apply Z.leb_le; exact C).
    eexists _, _. split; [reflexivity|]. reflexivity.
Qed.

Lemma positive_is_truthy (L : Z) : 0 < L -> py_truthy (PInt L) = true.
Proof. intros P. simpl. destruct (Z.eqb_spec L 0); [lia|reflexivity]. Qed.


Lemma run_limit_check (h : Host) (s s1 : Site) (d : dict) (key : string) (L : Z)
    (rest : pyval -> M unit) :
  get_plan_limits h s = (Ok (PDict d), s1) ->
  limit_is d key L -> 0 < L ->
  (limits <- get_plan_limits h ;;
   m <- py_get limits key (PInt 0) ;;
   if negb (py_truthy m) then ret tt else rest m) s
  = rest (PInt L) s1.
Proof.
  intros G D P. unfold bind at 1. rewrite G.
  unfold py_get, dict_get_default, bind, ret. rewrite D.
  rewrite positive_is_truthy by exact P. reflexivity.
Qed.

Lemma skip_limit_check (h : Host) (s s1 : Site) (d : dict) (key : string)
    (rest : pyval -> M unit) :
  get_plan_limits h s = (Ok (PDict d), s1) ->
  unlimited d key ->
  (limits <- get_plan_limits h ;;
   m <- py_get limits key (PInt 0) ;;
   if negb (py_truthy m) then ret tt else rest m) s
  = (Ok tt, s1).
Proof.
  intros G U. unfold bind at 1. rewrite G.
  unfold py_get, dict_get_default, bind, ret.
  destruct U as [U|U]; rewrite U; reflexivity.
Qed.

(** ** The hooks *)

(** C9.  [validate_user_limit] does nothing for an exempt document: when
    the document is not a System User, or is named Administrator or
    Guest, the hook returns without raising and leaves the site exactly
    as it was, the record of framework calls included, so neither the
    limits were read nor the users counted, whatever the host and the
    limits are. *)
Theorem validate_user_limit_exempt_noop (h : Host) (doc : Document) (s : Site) :
  doc_attr doc "user_type" <> PStr "System User"
  \/ doc_name doc = "Administrator" \/ doc_name doc = "Guest" ->
  validate_user_limit h doc s = (Ok tt, s).
Proof.
  intros X. unfold validate_user_limit.
  destruct (py_eq_str (doc_attr doc "user_type") "System User") eqn:T; simpl;
    [|reflexivity].
  apply py_eq_str_true in T.
  destruct X as [X|[X|X]]; [contradiction| |]; rewrite X; reflexivity.
Qed.

(** C8.  Zero or absent means unlimited: when the limits read for the
    site are a dict in which the key of a hook is 0 or missing, that hook
    returns without raising, whatever the document and however many
    records exist. *)
Theorem zero_or_absent_is_unlimited (h : Host) (doc : Document) (s s1 : Site) (d : dict) :
  get_plan_limits h s = (Ok (PDict d), s1) ->
  (unlimited d "max_users" ->
   exists s', validate_user_limit h doc s = (Ok tt, s'))
  /\ (unlimited d "max_customers" ->
      exists s', validate_customer_limit h doc s = (Ok tt, s'))
  /\ (unlimited d "max_suppliers" ->
      exists s', validate_supplier_limit h doc s = (Ok tt, s'))
  /\ (unlimited d "max_companies" ->
      exists s', validate_company_limit h doc s = (Ok tt, s'))
  /\ (unlimited d "max_invoices_per_month" ->
      exists s', validate_invoice_limit h doc s = (Ok tt, s')).
Proof.
  intros G. repeat split; intros U.
  - unfold validate_user_limit.
    destruct (negb (py_eq_str (doc_attr doc "user_type") "System User"));
      [eexists; reflexivity|].
    destruct (existsb (String.eqb (doc_name doc)) ["Administrator"; "Guest"]);
      [eexists; reflexivity|].
    exists s1. apply (skip_limit_check h s s1 d "max_users" _ G U).
  - exists s1. apply (skip_limit_check h s s1 d "max_customers" _ G U).
  - exists s1. apply (skip_limit_check h s s1 d "max_suppliers" _ G U).
  - exists s1. apply (skip_limit_check h s s1 d "max_companies" _ G U).
  - unfold validate_invoice_limit.
    destruct (negb (py_eq_int (doc_attr doc "docstatus") 1));
      [eexists; reflexivity|].
    exists s1. apply (skip_limit_check h s s1 d "max_invoices_per_month" _ G U).
Qed.

(** C1, as amended.  For each of the five quotas: when the limit read for
    the site is an integer [L > 0] and the count of existing qualifying
    records, the document being saved left out, is at least [L], the hook
    raises, and what it raises is the framework's user-facing validation
    error unless the count query itself failed.  For users this is for a
    document that is a System User other than Administrator and Guest;
    for invoices it is for a document being submitted ([docstatus] 1).
    A user document of another user type, or named Administrator or
    Guest, and an invoice whose [docstatus] is not 1 are let through on
    that same site without any check: the hook returns and the site is
    exactly as it was, the record of framework calls included. *)
Theorem quota_reached_blocks_save (h : Host) (doc : Document) (s s1 : Site)
    (d : dict) (L : Z) :
  get_plan_limits h s = (Ok (PDict d), s1) ->
  0 < L ->
  (limit_is d "max_users" L ->
   doc_attr doc "user_type" = PStr "System User" ->
   doc_name doc <> "Administrator" -> doc_name doc <> "Guest" ->
   L <= count_where (qualifying_user doc) s "User" ->
   blocks_save h (validate_user_limit h doc) s (user_limit_message h (PInt L)))
  /\ (limit_is d "max_customers" L ->
      L <= count_where (other_record doc) s "Customer" ->
      blocks_save h (validate_customer_limit h doc) s (customer_limit_message h (PInt L)))
  /\ (limit_is d "max_suppliers" L ->
      L <= count_where (other_record doc) s "Supplier" ->
      blocks_save h (validate_supplier_limit h doc) s (supplier_limit_message h (PInt L)))
  /\ (limit_is d "max_companies" L ->
      L <= count_where (other_record doc) s "Company" ->
      blocks_save h (validate_company_limit h doc) s (company_limit_message h (PInt L)))
  /\ (limit_is d "max_invoices_per_month" L ->
      doc_attr doc "docstatus" = PInt 1 ->
      L <= count_where (qualifying_invoice h doc) s "Sales Invoice" ->
      blocks_save h (validate_invoice_limit h doc) s (invoice_limit_message h (PInt L)))
  /\ (doc_attr doc "user_type" <> PStr "System User"
      \/ doc_name doc = "Administrator" \/ doc_name doc = "Guest" ->
      validate_user_limit h doc s = (Ok tt, s))
  /\ (py_eq_int (doc_attr doc "docstatus") 1 = false ->
      validate_invoice_limit h doc s = (Ok tt, s)).
Proof.
  intros G P.
  assert (Edb : db s1 = db s) by (apply (get_plan_limits_same_data h s _ s1 G)).
  assert (Ew : forall p dt, count_where p s1 dt = count_where p s dt)
    by (intros; unfold count_where; rewrite Edb; reflexivity).
  unfold blocks_save.
  split; [|split; [|split; [|split; [|split; [|split]]]]].
  - intros D T NA NG C. unfold validate_user_limit.
    replace (py_eq_str (doc_attr doc "user_type") "System User") with true
      by (symmetry; apply py_eq_str_true; exact T).
    cbn [negb].
    replace (existsb (String.eqb (doc_name doc)) ["Administrator"; "Guest"]) with false.
    2:{ simpl. apply String.eqb_neq in NA, NG. rewrite NA, NG. reflexivity. }
    cbv iota.
    rewrite (run_limit_check h s s1 d "max_users" L _ G D P).
    apply limit_reached_blocks. rewrite count_user_filter, Ew. exact C.
  - intros D C. unfold validate_customer_limit.
    rewrite (run_limit_check h s s1 d "max_customers" L _ G D P).
    apply limit_reached_blocks.
    eapply Z.le_trans; [exact C|]. rewrite <- (Ew _ "Customer"). apply count_other_than.
  - intros D C. unfold validate_supplier_limit.
    rewrite (run_limit_check h s s1 d "max_suppliers" L _ G D P).
    apply limit_reached_blocks.
    eapply Z.le_trans; [exact C|]. rewrite <- (Ew _ "Supplier"). apply count_other_than.
  - intros D C. unfold validate_company_limit.
    rewrite (run_limit_check h s s1 d "max_companies" L _ G D P).
    apply limit_reached_blocks.
    eapply Z.le_trans; [exact C|]. rewrite <- (Ew _ "Company"). apply count_other_than.
  - intros D T C. unfold validate_invoice_limit.
    rewrite T. change (py_eq_int (PInt 1) 1) with true. cbn [negb]. cbv iota.
    rewrite (run_limit_check h s s1 d "max_invoices_per_month" L _ G D P).
    apply limit_reached_blocks. rewrite count_invoice_filter, Ew. exact C.
  - intros X. unfold validate_user_limit.
    destruct (py_eq_str (doc_attr doc "user_type") "System User") eqn:T; simpl;
      [|reflexivity].
    apply py_eq_str_true in T.
    destruct X as [X|[X|X]]; [contradiction| |]; rewrite X; reflexivity.
  - intros X. unfold validate_invoice_limit. rewrite X. reflexivity.
Qed.

(** * Properties of the stores: cache and site_config.json *)

(** ** Dictionaries *)

Lemma assoc_get_set_same {V : Type} (d : list (string * V)) (k : string) (v : V) :
  assoc_get (assoc_set d k v) k = Some v.
Proof.
  induction d as [|[k0 v0] d IH]; simpl.
  - rewrite String.eqb_refl. reflexivity.
  - destruct (String.eqb k0 k) eqn:E; simpl; rewrite E; [reflexivity | exact IH].
Qed.

Lemma assoc_get_set_other {V : Type} (d : list (string * V)) (k k' : string) (v : V) :
  k' <> k -> assoc_get (assoc_set d k v) k' = assoc_get d k'.
Proof.
  intros N. induction d as [|[k0 v0] d IH]; simpl.
  - destruct (String.eqb_spec k k'); [congruence | reflexivity].
  - destruct (String.eqb_spec k0 k) as [E|E]; simpl.
    + subst k0. destruct (String.eqb_spec k k'); [congruence | reflexivity].
    + destruct (String.eqb k0 k'); [reflexivity | exact IH].
Qed.

Lemma assoc_set_set {V : Type} (d : list (string * V)) (k : string) (v v' : V) :
  assoc_set (assoc_set d k v) k v' = assoc_set d k v'.
Proof.
  induction d as [|[k0 v0] d IH]; simpl.
  - rewrite String.eqb_refl. reflexivity.
  - destruct (String.eqb k0 k) eqn:E; simpl; rewrite E; [reflexivity|].
    rewrite IH. reflexivity.
Qed.

(** ** The configuration file *)

Lemma file_frame_refl (key : string) (s : Site) : file_frame key s s.
Proof. left. reflexivity. Qed.

Lemma file_frame_trans (key : string) (s1 s2 s3 : Site) :
  file_frame key s1 s2 -> file_frame key s2 s3 -> file_frame key s1 s3.
Proof.
  intros [E12|[d [v [A B]]]] [E23|[d' [v' [A' B']]]].
  - left. congruence.
  - right. exists d', v'. split; congruence.
  - right. exists d, v. split; congruence.
  - right. exists d, v'. split; [exact A|].
    rewrite B' . rewrite B in A'. inversion A'. subst d'.
    unfold dict_set. rewrite assoc_set_set. reflexivity.
Qed.

Lemma file_frame_other_keys (key : string) (s s' : Site) (k : string) :
  file_frame key s s' -> k <> key ->
  file_key (site_config s') k = file_key (site_config s) k.
Proof.
  intros [E|[d [v [A B]]]] N.
  - rewrite E. reflexivity.
  - rewrite A, B. simpl. apply assoc_get_set_other. exact N.
Qed.

Lemma file_frame_same_file (key : string) (s s' : Site) :
  site_config s' = site_config s -> file_frame key s s'.
Proof. intros E. left. exact E. Qed.

Lemma file_written_refl (key : string) (v : pyval) (s : Site) :
  file_written key v s s.
Proof. left. reflexivity. Qed.

Lemma file_written_trans (key : string) (v : pyval) (s1 s2 s3 : Site) :
  file_written key v s1 s2 -> file_written key v s2 s3 -> file_written key v s1 s3.
Proof.
  intros [E12|[[d [A B]]|[d [A [N B]]]]] [E23|[[d' [A' B']]|[d' [A' [N' B']]]]].
  - left. congruence.
  - right. left. exists d'. split; congruence.
  - right. right. exists d'. repeat split; congruence.
  - right. left. exists d. split; congruence.
  - right. left. exists d. split; [exact A|].
    rewrite B'. rewrite B in A'. inversion A'. subst d'.
    unfold dict_set. rewrite assoc_set_set. reflexivity.
  - right. right. exists d. split; [exact A|]. split; [|exact B'].
    rewrite B in A'. inversion A'. subst d'.
    unfold dict_set in *. rewrite assoc_set_set in N'. exact N'.
  - right. right. exists d. repeat split; congruence.
  - congruence.
  - congruence.
Qed.

Lemma file_written_same_file (key : string) (v : pyval) (s s' : Site) :
  site_config s' = site_config s -> file_written key v s s'.
Proof. intros E. left. exact E. Qed.

Lemma rewrite_site_config_written (key : string) (v : pyval) :
  keeps (file_written key v) (rewrite_site_config key v).
Proof.
  intros s r s' E.
  unfold rewrite_site_config, read_site_config, py_setitem, write_site_config,
    bind, ret, raise in E.
  destruct (site_config s) as [| |c] eqn:F;
    try (inversion E; subst; left; reflexivity).
  destruct c; try (inversion E; subst; left; reflexivity).
  destruct (site_config_writable s).
  - destruct (json_serialisable (PDict (dict_set d key v))) eqn:J;
      inversion E; subst.
    + right. left. exists d. split; [exact F | reflexivity].
    + right. right. exists d. repeat split; [exact F | exact J].
  - inversion E; subst. left. reflexivity.
Qed.

Lemma json_serialisable_set (d : dict) (key : string) (v : pyval) :
  json_serialisable (PDict d) = true -> json_serialisable v = true ->
  json_serialisable (PDict (dict_set d key v)) = true.
Proof.
  intros D V. unfold dict_set. induction d as [|[k0 v0] d IH]; simpl in *.
  - rewrite V. reflexivity.
  - apply andb_prop in D. destruct D as [D0 D1].
    destruct (String.eqb k0 key); simpl.
    + rewrite V. exact D1.
    + rewrite D0. exact (IH D1).
Qed.

(** On a file that holds JSON, writing a value that is JSON leaves the
    file as it was or sets the key. *)
Lemma file_written_frame (key : string) (v : pyval) (s s' : Site) :
  file_is_json s -> json_serialisable v = true ->
  file_written key v s s' -> file_frame key s s'.
Proof.
  intros J V [E|[[d [A B]]|[d [A [N _]]]]].
  - left. exact E.
  - right. exists d, v. split; [exact A | exact B].
  - rewrite (json_serialisable_set d key v (J _ A) V) in N. discriminate N.
Qed.

Section FileOnly.

(** Relations that only look at the configuration file are kept by
    everything that does not write it. *)
Variable R : Site -> Site -> Prop.
Hypothesis R_file : forall s s', site_config s' = site_config s -> R s s'.

Lemma keeps_db_call (h : Host) (op : Op) : keeps R (db_call h op).
Proof.
  intros s r s' E. unfold db_call in E.
  destruct (fault h (length (calls s)) op); inversion E; apply R_file; reflexivity.
Qed.

Lemma keeps_cache_call (h : Host) (op : Op) : keeps R (cache_call h op).
Proof.
  intros s r s' E. unfold cache_call in E.
  destruct (cache_error h); inversion E; apply R_file; reflexivity.
Qed.

End FileOnly.

Ltac unfold_calls :=
  unfold add_roles, print_exc;
  unfold db_set_single_value, db_commit, db_exists, db_set_value, db_set_default,
    doc_insert, get_doc, doc_save, get_single, single_save, clear_cache,
    update_password, set_flag, print, log_error, cache_get_value,
    cache_set_value, conf_get, db_count, py_getitem, py_get, py_setitem.

Ltac file_prims key v :=
  first
    [ apply rewrite_site_config_written
    | apply (keeps_db_call _ (file_written_same_file key v))
    | apply (keeps_cache_call _ (file_written_same_file key v))
    | apply keeps_modify; intros; left; reflexivity ].

Lemma setup_company_file_written (h : Host) (config_b64 : string) :
  keeps (file_written "setup_complete" (PInt 1)) (setup_company h config_b64).
Proof.
  unfold setup_company, setup_company_body. unfold_calls.
  keeps_walk (file_written_refl "setup_complete" (PInt 1))
    (file_written_trans "setup_complete" (PInt 1))
    ltac:(file_prims "setup_complete" (PInt 1)).
Qed.

Lemma set_plan_limits_file_written (h : Host) (limits : pyval) :
  keeps (file_written "saas_plan_limits" limits) (set_plan_limits h limits).
Proof.
  unfold set_plan_limits. unfold_calls.
  keeps_walk (file_written_refl "saas_plan_limits" limits)
    (file_written_trans "saas_plan_limits" limits)
    ltac:(file_prims "saas_plan_limits" limits).
Qed.

(** C10, as amended.  Frame property on [site_config.json], which holds
    JSON: [setup_company] changes at most the key [setup_complete], and
    [set_plan_limits], for limits that can be written as JSON, at most
    the key [saas_plan_limits]; after either call the file is untouched
    or is the same JSON object with that key set, so every other key has
    the value it had before. *)
Theorem site_config_other_keys_preserved (h : Host) :
  (forall config_b64 s r s1 k,
      file_is_json s ->
      setup_company h config_b64 s = (r, s1) ->
      k <> "setup_complete" ->
      file_frame "setup_complete" s s1
      /\ file_key (site_config s1) k = file_key (site_config s) k)
  /\ (forall limits s r s1 k,
         file_is_json s ->
         json_serialisable limits = true ->
         set_plan_limits h limits s = (r, s1) ->
         k <> "saas_plan_limits" ->
         file_frame "saas_plan_limits" s s1
         /\ file_key (site_config s1) k = file_key (site_config s) k).
Proof.
  split.
  - intros cfg s r s1 k J E N.
    pose proof (file_written_frame "setup_complete" (PInt 1) s s1 J eq_refl
                  (setup_company_file_written h cfg s r s1 E)) as F.
    split; [exact F | exact (file_frame_other_keys _ _ _ _ F N)].
  - intros limits s r s1 k J V E N.
    pose proof (file_written_frame _ _ s s1 J V
                  (set_plan_limits_file_written h limits s r s1 E)) as F.
    split; [exact F | exact (file_frame_other_keys _ _ _ _ F N)].
Qed.

(** ** Writing the limits *)

Lemma rewrite_site_config_cases (key : string) (v : pyval) (s s' : Site)
    (r : outcome unit) :
  rewrite_site_config key v s = (r, s') ->
  (exists d,
      site_config s = Json (PDict d) /\ site_config_writable s = true
      /\ json_serialisable (PDict (dict_set d key v)) = true
      /\ r = Ok tt /\ s' = with_site_config (Json (PDict (dict_set d key v))) s)
  \/ (((forall d, site_config s <> Json (PDict d))
        \/ site_config_writable s = false)
       /\ (exists e, r = Raise e) /\ s' = s)
  \/ (exists d,
         site_config s = Json (PDict d) /\ site_config_writable s = true
         /\ json_serialisable (PDict (dict_set d key v)) = false
         /\ (exists e, r = Raise e) /\ s' = with_site_config NotJson s).
Proof.
  unfold rewrite_site_config, read_site_config, py_setitem, write_site_config,
    bind, ret, raise.
  intros E.
  destruct (site_config s) as [| |c] eqn:F;
    try (right; left; inversion E; subst;
         split; [left; intros d; discriminate | split; [eexists|]; reflexivity]).
  destruct c;
    try (right; left; inversion E; subst;
         split; [left; intros d0; discriminate | split; [eexists|]; reflexivity]).
  destruct (site_config_writable s) eqn:W.
  - destruct (json_serialisable (PDict (dict_set d key v))) eqn:J;
      inversion E; subst.
    + left. exists d.
      split; [reflexivity|]. split; [reflexivity|]. split; [exact J|].
      split; reflexivity.
    + right. right. exists d.
      split; [reflexivity|]. split; [reflexivity|]. split; [exact J|].
      split; [eexists|]; reflexivity.
  - right. left. inversion E; subst.
    split; [right; reflexivity | split; [eexists|]; reflexivity].
Qed.

Lemma set_plan_limits_cases (h : Host) (limits : pyval) (s s1 : Site)
    (r : outcome unit) :
  set_plan_limits h limits s = (r, s1) ->
  (exists e, cache_error h = Some e /\ r = Raise e)
  \/ (cache_error h = None /\ r = Ok tt
      /\ dict_get (cache s1) LIMITS_CACHE_KEY = Some limits
      /\ ((exists d,
              site_config s = Json (PDict d)
              /\ site_config_writable s = true
              /\ json_serialisable (PDict (dict_set d "saas_plan_limits" limits)) = true
              /\ site_config s1 = Json (PDict (dict_set d "saas_plan_limits" limits))
              /\ error_log s1 = error_log s)
          \/ (((forall d, site_config s <> Json (PDict d))
               \/ site_config_writable s = false)
              /\ site_config s1 = site_config s
              /\ exists msg, error_log s1 = error_log s ++ [msg])
          \/ (exists d,
                 site_config s = Json (PDict d)
                 /\ site_config_writable s = true
                 /\ json_serialisable (PDict (dict_set d "saas_plan_limits" limits))
                    = false
                 /\ site_config s1 = NotJson
                 /\ exists msg, error_log s1 = error_log s ++ [msg]))).
Proof.
  unfold set_plan_limits, cache_set_value, cache_call, try_except, log_error,
    bind, modify.
  intros E. destruct (cache_error h) as [e|].
  - left. exists e. inversion E. auto.
  - right. split; [reflexivity|].
    match type of E with
    | context [rewrite_site_config ?k ?v ?st] =>
        destruct (rewrite_site_config k v st) as [o s2] eqn:R;
        destruct (rewrite_site_config_cases _ _ _ _ _ R)
          as [[d [F [W [J [Eo Es]]]]]|[[B [[e Eo] Es]]|[d [F [W [J [[e Eo] Es]]]]]]]
    end; subst o s2; inversion E; subst r s1;
      cbn [cache site_config site_config_writable error_log with_cache
           with_site_config with_error_log record_call with_calls] in *;
      (split; [reflexivity|]);
      (split; [unfold dict_get, dict_set; apply assoc_get_set_same|]).
    + left. exists d. repeat split; assumption.
    + right. left. split; [exact B|]. split; [reflexivity|]. eexists. reflexivity.
    + right. right. exists d. repeat split; try assumption. eexists. reflexivity.
Qed.

(** C5, as amended.  When [set_plan_limits limits] returns, the cache
    entry [saas_plan_limits] is [limits].  The key [saas_plan_limits] of
    [site_config.json] is [limits] too when the file holds a JSON object,
    can be opened for writing and [limits] can be written as JSON; when
    the file does not hold a JSON object or cannot be opened for
    writing, the failure is logged and the file is left as it was. *)
Theorem set_plan_limits_stores (h : Host) (limits : pyval) (s s1 : Site) :
  set_plan_limits h limits s = (Ok tt, s1) ->
  dict_get (cache s1) "saas_plan_limits" = Some limits
  /\ (forall d,
         site_config s = Json (PDict d) -> site_config_writable s = true ->
         file_is_json s -> json_serialisable limits = true ->
         file_key (site_config s1) "saas_plan_limits" = Some limits
         /\ error_log s1 = error_log s)
  /\ ((forall d, site_config s <> Json (PDict d)) \/ site_config_writable s = false ->
      site_config s1 = site_config s
      /\ exists msg, error_log s1 = error_log s ++ [msg]).
Proof.
  intros E. destruct (set_plan_limits_cases h limits s s1 _ E)
    as [[e [_ X]]|[_ [_ [C [[d [F [W [J [F1 L]]]]]|[[B [F1 L]]|[d [F [W [J _]]]]]]]]]];
    [discriminate| | |].
  - split; [exact C|]. split.
    + intros d' F' _ _ _. rewrite F1. split; [|exact L].
      simpl. apply assoc_get_set_same.
    + intros [N|N]; [exfalso; exact (N d F) | congruence].
  - split; [exact C|]. split.
    + intros d F W. destruct B as [N|N]; [exfalso; exact (N d F) | congruence].
    + intros _. split; [exact F1 | exact L].
  - split; [exact C|]. split.
    + intros d' F' _ FJ V. rewrite F in F'. inversion F'. subst d'.
      rewrite (json_serialisable_set d _ limits (FJ _ F) V) in J. discriminate J.
    + intros [N|N]; [exfalso; exact (N d F) | congruence].
Qed.

(** ** The file stays JSON *)

(** A file that holds JSON holds JSON after every call: a rewrite
    stores what [json.dump] could write or leaves no JSON at all. *)
Lemma kept_file_is_json (s s' : Site) :
  site_config s' = site_config s -> kept file_is_json s s'.
Proof. intros E J v X. apply J. rewrite <- E. exact X. Qed.

Lemma rewrite_site_config_keeps_json (key : string) (v : pyval) :
  keeps (kept file_is_json) (rewrite_site_config key v).
Proof.
  intros s r s' E J.
  destruct (rewrite_site_config_cases _ _ _ _ _ E)
    as [[d [_ [_ [S [_ ->]]]]]|[[_ [_ ->]]|[d [_ [_ [_ [_ ->]]]]]]].
  - intros x X. cbn in X. inversion X. subst x. exact S.
  - exact J.
  - intros x X. cbn in X. discriminate X.
Qed.

Ltac json_prims :=
  first
    [ apply rewrite_site_config_keeps_json
    | apply (keeps_db_call _ kept_file_is_json)
    | apply (keeps_cache_call _ kept_file_is_json)
    | apply keeps_modify; intros; apply kept_file_is_json; reflexivity ].

Ltac json_walk :=
  unfold_calls;
  keeps_walk (fun s (J : file_is_json s) => J)
    (fun s1 s2 s3 (A : kept file_is_json s1 s2) (B : kept file_is_json s2 s3)
         (J : file_is_json s1) => B (A J))
    json_prims.

Lemma entry_points_keep_json (h : Host) :
  (forall config_b64, keeps (kept file_is_json) (setup_company h config_b64))
  /\ (forall limits, keeps (kept file_is_json) (set_plan_limits h limits)).
Proof.
  split; intros x.
  - unfold setup_company, setup_company_body. json_walk.
  - unfold set_plan_limits. json_walk.
Qed.

(** ** The endpoints *)

Lemma int_or_zero_pure (h : Host) (x : pyval) :
  exists o : outcome pyval,
    (forall s, int_or_zero h x s = (o, s))
    /\ (forall v, o = Ok v -> exists z, v = PInt z).
Proof.
  unfold int_or_zero, py_int, bind, ret, raise.
  destruct (py_truthy x); [|eexists; split; [reflexivity | intros v E; inversion E; eauto]].
  destruct x; try destruct (parse_int h s);
    (eexists; split; [reflexivity | intros v E; inversion E; eauto]).
Qed.

Lemma float_or_zero_pure (h : Host) (x : pyval) :
  exists o : outcome pyval,
    (forall s, float_or_zero h x s = (o, s))
    /\ (forall v, o = Ok v -> v = PInt 0 \/ exists q, v = PFloat q).
Proof.
  unfold float_or_zero, py_float, bind, ret, raise.
  destruct (py_truthy x); [|eexists; split; [reflexivity | intros v E; inversion E; eauto]].
  destruct x; try destruct (parse_float h s);
    (eexists; split; [reflexivity | intros v E; inversion E; eauto]).
Qed.

Lemma sync_plan_limits_body_ok (h : Host) (a1 a2 a3 a4 a5 a6 : pyval)
    (s s1 : Site) (v : pyval) :
  sync_plan_limits_body h a1 a2 a3 a4 a5 a6 s = (Ok v, s1) ->
  exists L,
    coerced_limits h s a1 a2 a3 a4 a5 a6 L
    /\ set_plan_limits h L s = (Ok tt, s1)
    /\ v = PDict [("success", PBool true);
                  ("message", PStr "Plan limits updated");
                  ("limits", L)].
Proof.
  destruct (int_or_zero_pure h a1) as [o1 [E1 T1]].
  destruct (int_or_zero_pure h a2) as [o2 [E2 T2]].
  destruct (int_or_zero_pure h a3) as [o3 [E3 T3]].
  destruct (int_or_zero_pure h a4) as [o4 [E4 T4]].
  destruct (int_or_zero_pure h a5) as [o5 [E5 T5]].
  destruct (float_or_zero_pure h a6) as [o6 [E6 T6]].
  unfold sync_plan_limits_body, bind.
  rewrite E1. destruct o1 as [v1|]; [|discriminate].
  rewrite E2. destruct o2 as [v2|]; [|discriminate].
  rewrite E3. destruct o3 as [v3|]; [|discriminate].
  rewrite E4. destruct o4 as [v4|]; [|discriminate].
  rewrite E5. destruct o5 as [v5|]; [|discriminate].
  rewrite E6. destruct o6 as [v6|]; [|discriminate].
  destruct (T1 _ eq_refl) as [z1 ->]. destruct (T2 _ eq_refl) as [z2 ->].
  destruct (T3 _ eq_refl) as [z3 ->]. destruct (T4 _ eq_refl) as [z4 ->].
  destruct (T5 _ eq_refl) as [z5 ->].
  match goal with
  | |- context [set_plan_limits h ?L s] =>
      destruct (set_plan_limits h L s) as [[[]|e] s'] eqn:SP
  end; unfold ret; intros E; inversion E; subst.
  eexists. split; [|split; [exact SP | reflexivity]].
  exists z1, z2, z3, z4, z5, v6. repeat split; auto.
Qed.

(** C4.  Round trip of the quota endpoints: when [sync_plan_limits]
    reports success, the limits it reports are the coerced arguments
    (integers, and a float or 0 for [max_storage_gb]), they are what the
    cache holds, and [get_current_limits] called next returns success
    with exactly these limits. *)
Theorem sync_then_get_current_limits (h : Host) (a1 a2 a3 a4 a5 a6 : pyval)
    (s s1 : Site) (res : dict) :
  sync_plan_limits h a1 a2 a3 a4 a5 a6 s = (Ok (PDict res), s1) ->
  dict_get res "success" = Some (PBool true) ->
  exists L s2,
    dict_get res "limits" = Some L
    /\ coerced_limits h s a1 a2 a3 a4 a5 a6 L
    /\ dict_get (cache s1) "saas_plan_limits" = Some L
    /\ get_current_limits h s1
       = (Ok (PDict [("success", PBool true); ("limits", L)]), s2).
Proof.
  unfold sync_plan_limits, try_except. intros E S.
  destruct (sync_plan_limits_body h a1 a2 a3 a4 a5 a6 s) as [[v|e] s'] eqn:B.
  - inversion E; subst.
    destruct (sync_plan_limits_body_ok h _ _ _ _ _ _ _ _ _ B) as [L [CO [SP V]]].
    inversion V; subst res.
    destruct (set_plan_limits_cases h L s s1 _ SP)
      as [[e [_ X]]|[CE [_ [C _]]]]; [discriminate|].
    exists L. eexists. split; [reflexivity|]. split; [exact CO|]. split; [exact C|].
    unfold get_current_limits, get_plan_limits, cache_get_value, cache_call,
      bind, ret, get_site.
    rewrite CE. cbn [record_call with_calls cache].
    unfold dict_get_default. rewrite C.
    destruct CO as [z1 [z2 [z3 [z4 [z5 [v6 [_ [_ [_ [_ [_ [_ [_ ->]]]]]]]]]]]]].
    reflexivity.
  - unfold log_error, bind, modify, ret in E. inversion E; subst res.
    discriminate S.
Qed.

(** C3, as amended.  [setup_company], [create_user] and
    [sync_plan_limits] wrap their body in a catch-all handler: they never
    let an exception out, and when the body raises [e] they report it
    (on the output for the first two, in the error log for the third)
    and return a failure dict holding [str(e)].  [get_current_limits]
    has no handler: an exception raised while the limits are read goes to
    the caller. *)
Theorem entry_points_exceptions (h : Host) :
  (forall config_b64, never_raises (setup_company h config_b64))
  /\ (forall config_b64, never_raises (create_user h config_b64))
  /\ (forall a1 a2 a3 a4 a5 a6, never_raises (sync_plan_limits h a1 a2 a3 a4 a5 a6))
  /\ (forall config_b64 s e s1,
         setup_company_body h config_b64 s = (Raise e, s1) ->
         exists s',
           setup_company h config_b64 s
           = (Ok (PDict [("success", PBool false); ("message", PStr (exn_str e))]), s')
           /\ exists trace,
                stdout s' = stdout s1 ++ [("SETUP_FAILED: " ++ exn_str e)%string; trace])
  /\ (forall config_b64 s e s1,
         create_user_body h config_b64 s = (Raise e, s1) ->
         exists s',
           create_user h config_b64 s
           = (Ok (PDict [("success", PBool false); ("message", PStr (exn_str e))]), s')
           /\ exists trace,
                stdout s' = stdout s1 ++ [("USER_FAILED: " ++ exn_str e)%string; trace])
  /\ (forall a1 a2 a3 a4 a5 a6 s e s1,
         sync_plan_limits_body h a1 a2 a3 a4 a5 a6 s = (Raise e, s1) ->
         exists s',
           sync_plan_limits h a1 a2 a3 a4 a5 a6 s
           = (Ok (PDict [("success", PBool false); ("error", PStr (exn_str e))]), s')
           /\ error_log s'
              = error_log s1 ++ [("Failed to sync plan limits: " ++ exn_str e)%string])
  /\ (forall s e s1,
         get_plan_limits h s = (Raise e, s1) ->
         get_current_limits h s = (Raise e, s1)).
Proof.
  repeat split.
  - intros cfg. apply try_except_never_raises. intros e s. eexists _, _. reflexivity.
  - intros cfg. apply try_except_never_raises. intros e s. eexists _, _. reflexivity.
  - intros a1 a2 a3 a4 a5 a6. apply try_except_never_raises.
    intros e s. eexists _, _. reflexivity.
  - intros cfg s e s1 B. unfold setup_company, try_except. rewrite B.
    eexists. split; [reflexivity|]. cbn. rewrite <- app_assoc. eexists. reflexivity.
  - intros cfg s e s1 B. unfold create_user, try_except. rewrite B.
    eexists. split; [reflexivity|]. cbn. rewrite <- app_assoc. eexists. reflexivity.
  - intros a1 a2 a3 a4 a5 a6 s e s1 B. unfold sync_plan_limits, try_except. rewrite B.
    eexists. split; reflexivity.
  - intros s e s1 G. unfold get_current_limits, bind. rewrite G. reflexivity.
Qed.

(** * Properties of setup.py *)

Lemma ensures_bind {A B : Type} (Q : B -> Site -> Prop) (m : M A) (k : A -> M B) :
  (forall a, ensures Q (k a)) -> ensures Q (bind m k).
Proof.
  intros Ek s b s' E. unfold bind in E.
  destruct (m s) as [[a|e] s1]; [eapply Ek; exact E | inversion E].
Qed.

Lemma ensures_bind_from {A B : Type} (Q : B -> Site -> Prop) (m : M A) (k : A -> M B) :
  (forall a, (exists s s', m s = (Ok a, s')) -> ensures Q (k a)) ->
  ensures Q (bind m k).
Proof.
  intros Ek s b s' E. unfold bind in E.
  destruct (m s) as [[a|e] s1] eqn:Em; [|inversion E].
  eapply Ek; [exists s, s1; exact Em | exact E].
Qed.

Ltac yields_walk :=
  repeat first
    [ apply yields_ret; eexists _, _; reflexivity
    | apply yields_raise
    | apply yields_bind; intros ?
    | match goal with
      | |- yields _ (if ?b then _ else _) => destruct b
      | |- yields _ (match ?x with _ => _ end) => destruct x
      end ].

Lemma setup_company_body_shape (h : Host) (config_b64 : string) :
  yields result_shape (setup_company_body h config_b64).
Proof. unfold setup_company_body. yields_walk. Qed.

Lemma create_user_body_shape (h : Host) (config_b64 : string) :
  yields result_shape (create_user_body h config_b64).
Proof. unfold create_user_body. yields_walk. Qed.

Lemma failure_handler_shape (label : string) (e : exn) :
  yields result_shape (print (label ++ exn_str e) ;; print_exc e ;; ret (failure e)).
Proof. unfold failure. yields_walk. Qed.

Lemma failure_handler_returns (label : string) (e : exn) :
  never_raises (print (label ++ exn_str e) ;; print_exc e ;; ret (failure e)).
Proof. intros s. eexists _, _. reflexivity. Qed.

(** C2.  For every input, every host and every site, [setup_company]
    and [create_user] each return a dict of the exact shape
    [{"success": bool, "message": str}]; no other result is possible. *)
Theorem setup_company_create_user_result_shape (h : Host) (config_b64 : string)
    (s : Site) :
  (exists b msg s',
      setup_company h config_b64 s
      = (Ok (PDict [("success", PBool b); ("message", PStr msg)]), s'))
  /\ (exists b msg s',
         create_user h config_b64 s
         = (Ok (PDict [("success", PBool b); ("message", PStr msg)]), s')).
Proof.
  split.
  - destruct (try_except_never_raises (setup_company_body h config_b64) _
                (failure_handler_returns "SETUP_FAILED: ") s) as [v [s' E]].
    assert (S : result_shape v).
    { eapply (yields_try_except result_shape); [apply setup_company_body_shape | |exact E].
      intros e. apply failure_handler_shape. }
    destruct S as [b [msg ->]]. exists b, msg, s'. exact E.
  - destruct (try_except_never_raises (create_user_body h config_b64) _
                (failure_handler_returns "USER_FAILED: ") s) as [v [s' E]].
    assert (S : result_shape v).
    { eapply (yields_try_except result_shape); [apply create_user_body_shape | |exact E].
      intros e. apply failure_handler_shape. }
    destruct S as [b [msg ->]]. exists b, msg, s'. exact E.
Qed.

(** ** What success means *)

Lemma py_getitem_returns (obj : pyval) (key : string) (v : pyval) :
  (exists s s', py_getitem obj key s = (Ok v, s')) ->
  exists d, obj = PDict d /\ dict_get d key = Some v.
Proof.
  intros [s [s' E]]. unfold py_getitem, ret, raise in E.
  destruct obj; try discriminate.
  exists d. split; [reflexivity|].
  destruct (dict_get d key); inversion E. reflexivity.
Qed.



(** C7.  [setup_company] is not atomic: there is a run in which an
    exception is raised partway through the steps, [setup_company]
    returns a failure dict, and what the earlier steps did stays:
    [setup_complete] is 1 in [site_config.json] and in the committed
    System Settings, the home page default and the warehouse types are
    committed, while no Company was created. *)
Theorem setup_company_not_atomic :
  exists (h : Host) (config_b64 : string) (s s1 s2 : Site) (e : exn),
    setup_company_body h config_b64 s = (Raise e, s1)
    /\ setup_company h config_b64 s
       = (Ok (PDict [("success", PBool false); ("message", PStr (exn_str e))]), s2)
    /\ file_key (site_config s) "setup_complete" = None
    /\ file_key (site_config s2) "setup_complete" = Some (PInt 1)
    /\ dict_get (single (committed s) "System Settings") "setup_complete" = None
    /\ dict_get (single (committed s2) "System Settings") "setup_complete"
       = Some (PInt 1)
    /\ dict_get (defaults (committed s2)) "desktop:home_page" = Some (PStr "home")
    /\ length (table (committed s2) "Warehouse Type") = 4%nat
    /\ table (db s2) "Company" = [].
Proof.
  exists Scenario.host_company_refused, Scenario.acme_config_b64, Scenario.fresh_site.
  eexists _, _, _.
  split; [vm_compute; reflexivity|].
  split; [vm_compute; reflexivity|].
  repeat split.
Qed.

(** * The properties on concrete sites *)

Import Scenario.

(** Given [max_users = 3] and three existing users, saving a fourth
    System User raises the validation error. *)
Lemma quota_reached_blocks_save_witness :
  blocks_save host (validate_user_limit host fourth_user) three_users_site
    (user_limit_message host (PInt 3)).
Proof.
  refine (proj1 (quota_reached_blocks_save host fourth_user three_users_site
                   (record_call (CacheGet "saas_plan_limits") three_users_site)
                   [("max_users", PInt 3)] 3 _ _) _ _ _ _ _).
  - vm_compute. reflexivity.
  - lia.
  - reflexivity.
  - reflexivity.
  - discriminate.
  - discriminate.
  - vm_compute. discriminate.
Defined.

(** A draft invoice is saved although the monthly limit of one invoice is
    reached: the limit is 1, one other invoice was submitted this month,
    and the hook returns without raising. *)
Lemma draft_invoice_passes_reached_limit :
  fst (get_plan_limits host one_invoice_site)
    = Ok (PDict [("max_invoices_per_month", PInt 1)])
  /\ 0 < 1 <= count_where (qualifying_invoice host draft_invoice) one_invoice_site
                "Sales Invoice"
  /\ validate_invoice_limit host draft_invoice one_invoice_site
     = (Ok tt, one_invoice_site).
Proof.
  split; [vm_compute; reflexivity|].
  split; [vm_compute; split; [reflexivity | discriminate]|].
  vm_compute. reflexivity.
Qed.

(** On a site whose limits hold none of the five keys, every hook
    returns. *)
Lemma zero_or_absent_is_unlimited_witness :
  (exists s', validate_user_limit host fourth_user unlimited_site = (Ok tt, s'))
  /\ (exists s', validate_customer_limit host fourth_user unlimited_site = (Ok tt, s'))
  /\ (exists s', validate_supplier_limit host fourth_user unlimited_site = (Ok tt, s'))
  /\ (exists s', validate_company_limit host fourth_user unlimited_site = (Ok tt, s'))
  /\ (exists s', validate_invoice_limit host fourth_user unlimited_site = (Ok tt, s')).
Proof.
  assert (G : get_plan_limits host unlimited_site
              = (Ok (PDict [("max_storage_gb", PInt 5)]),
                 record_call (CacheGet "saas_plan_limits") unlimited_site))
    by (vm_compute; reflexivity).
  destruct (zero_or_absent_is_unlimited host fourth_user unlimited_site _ _ G)
    as [U [C [S [K I]]]].
  repeat split.
  - apply U. left. reflexivity.
  - apply C. left. reflexivity.
  - apply S. left. reflexivity.
  - apply K. left. reflexivity.
  - apply I. left. reflexivity.
Defined.

(** A Website User is saved on a site whose user limit is reached, and
    the site is left as it was. *)
Lemma validate_user_limit_exempt_noop_witness :
  validate_user_limit host website_user three_users_site = (Ok tt, three_users_site).
Proof.
  apply validate_user_limit_exempt_noop. left. discriminate.
Defined.

(** Limits synchronised on a new site are what [get_current_limits]
    returns next. *)
Lemma sync_then_get_current_limits_witness :
  exists L s2,
    L = PDict [("max_users", PInt 3);
               ("max_customers", PInt 0);
               ("max_suppliers", PInt 0);
               ("max_companies", PInt 0);
               ("max_invoices_per_month", PInt 0);
               ("max_storage_gb", PFloat (5 # 2))]
    /\ get_current_limits host
         (snd (sync_plan_limits host (PInt 3) (PInt 0) (PInt 0) (PInt 0) (PInt 0)
                 (PFloat (5 # 2)) fresh_site))
       = (Ok (PDict [("success", PBool true); ("limits", L)]), s2).
Proof.
  destruct (sync_then_get_current_limits host
              (PInt 3) (PInt 0) (PInt 0) (PInt 0) (PInt 0) (PFloat (5 # 2))
              fresh_site
              (snd (sync_plan_limits host (PInt 3) (PInt 0) (PInt 0) (PInt 0) (PInt 0)
                      (PFloat (5 # 2)) fresh_site))
              [("success", PBool true);
               ("message", PStr "Plan limits updated");
               ("limits", PDict [("max_users", PInt 3);
                                 ("max_customers", PInt 0);
                                 ("max_suppliers", PInt 0);
                                 ("max_companies", PInt 0);
                                 ("max_invoices_per_month", PInt 0);
                                 ("max_storage_gb", PFloat (5 # 2))])])
    as [L [s2 [R [_ [_ G]]]]].
  - vm_compute. reflexivity.
  - reflexivity.
  - exists L, s2. split; [|exact G].
    simpl in R. inversion R. reflexivity.
Defined.

(** On a new site the limits reach both stores. *)
Lemma set_plan_limits_stores_witness :
  dict_get (cache (snd (set_plan_limits host (PDict [("max_users", PInt 3)]) fresh_site)))
    "saas_plan_limits" = Some (PDict [("max_users", PInt 3)])
  /\ file_key (site_config
                 (snd (set_plan_limits host (PDict [("max_users", PInt 3)]) fresh_site)))
       "saas_plan_limits" = Some (PDict [("max_users", PInt 3)]).
Proof.
  destruct (set_plan_limits_stores host (PDict [("max_users", PInt 3)]) fresh_site
              (snd (set_plan_limits host (PDict [("max_users", PInt 3)]) fresh_site)))
    as [C [F _]].
  - vm_compute. reflexivity.
  - split; [exact C|].
    apply (F [("db_name", PStr "tenant1")]);
      [reflexivity | reflexivity | intros v E; inversion E; reflexivity | reflexivity].
Defined.

(** On a site whose configuration file cannot be written,
    [set_plan_limits] returns, the cache holds the new limits and the
    file still holds the old ones. *)
Lemma set_plan_limits_stores_disagree :
  let s1 := snd (set_plan_limits host (PDict [("max_users", PInt 3)]) read_only_site) in
  fst (set_plan_limits host (PDict [("max_users", PInt 3)]) read_only_site) = Ok tt
  /\ dict_get (cache s1) "saas_plan_limits" = Some (PDict [("max_users", PInt 3)])
  /\ file_key (site_config s1) "saas_plan_limits" = Some (PDict [("max_users", PInt 1)])
  /\ dict_get (cache s1) "saas_plan_limits" <> file_key (site_config s1) "saas_plan_limits".
Proof.
  vm_compute. repeat split. discriminate.
Qed.

(** A configuration that cannot be decoded: the three wrapped entry
    points return a failure dict. *)
Lemma entry_points_exceptions_witness :
  (exists s',
      setup_company host "not base64" fresh_site
      = (Ok (PDict [("success", PBool false); ("message", PStr "Incorrect padding")]), s'))
  /\ (exists s',
         create_user host "not base64" fresh_site
         = (Ok (PDict [("success", PBool false); ("message", PStr "Incorrect padding")]), s'))
  /\ (exists s',
         sync_plan_limits host (PStr "many") (PInt 0) (PInt 0) (PInt 0) (PInt 0) (PInt 0)
           fresh_site
         = (Ok (PDict [("success", PBool false);
                       ("error", PStr "invalid literal for int() with base 10: 'many'")]),
            s'))
  /\ get_current_limits host_cache_down fresh_site
     = (Raise (Exn "redis.exceptions.TimeoutError" "Timeout reading from socket"),
        record_call (CacheGet "saas_plan_limits") fresh_site).
Proof.
  destruct (entry_points_exceptions host) as [_ [_ [_ [S [U [Y _]]]]]].
  destruct (entry_points_exceptions host_cache_down) as [_ [_ [_ [_ [_ [_ G]]]]]].
  split; [|split; [|split]].
  - destruct (S "not base64" fresh_site (Exn "binascii.Error" "Incorrect padding")
                fresh_site) as [s' [E _]]; [vm_compute; reflexivity|].
    exists s'. exact E.
  - destruct (U "not base64" fresh_site (Exn "binascii.Error" "Incorrect padding")
                fresh_site) as [s' [E _]]; [vm_compute; reflexivity|].
    exists s'. exact E.
  - destruct (Y (PStr "many") (PInt 0) (PInt 0) (PInt 0) (PInt 0) (PInt 0) fresh_site
                (Exn "ValueError" "invalid literal for int() with base 10: 'many'")
                fresh_site) as [s' [E _]]; [vm_compute; reflexivity|].
    exists s'. exact E.
  - apply G. vm_compute. reflexivity.
Defined.

(** With the cache backend unreachable, [get_current_limits] lets the
    exception out: it returns no failure dict. *)
Lemma get_current_limits_lets_exception_out :
  fst (get_current_limits host_cache_down fresh_site)
    = Raise (Exn "redis.exceptions.TimeoutError" "Timeout reading from socket")
  /\ ~ never_raises (get_current_limits host_cache_down).
Proof.
  split; [vm_compute; reflexivity|].
  intros N. destruct (N fresh_site) as [a [s' E]].
  vm_compute in E. discriminate E.
Qed.



(** A run that completes every step and finds no Company under the
    requested name: the name given to the record has lost its leading
    blank, and the run reports failure without any exception. *)
Example setup_company_record_absent :
  fst (setup_company_body host spaced_config_b64 fresh_site)
    = Ok (PDict [("success", PBool false);
                 ("message", PStr "Company ' Acme' not found after creation")])
  /\ company_exists (snd (setup_company host spaced_config_b64 fresh_site)) (PStr " Acme")
     = false.
Proof.
  vm_compute. split; reflexivity.
Qed.

(** A run of [setup_company] and a call of [set_plan_limits] on a new
    site leave the key [db_name] of the file as it was. *)
Lemma site_config_other_keys_preserved_witness :
  file_key (site_config (snd (setup_company host acme_config_b64 fresh_site))) "db_name"
    = Some (PStr "tenant1")
  /\ file_key (site_config
                 (snd (set_plan_limits host (PDict [("max_users", PInt 3)]) fresh_site)))
       "db_name" = Some (PStr "tenant1").
Proof.
  destruct (site_config_other_keys_preserved host) as [S P].
  split.
  - destruct (S acme_config_b64 fresh_site
                (fst (setup_company host acme_config_b64 fresh_site))
                (snd (setup_company host acme_config_b64 fresh_site))
                "db_name") as [_ K].
    + intros v E. inversion E. reflexivity.
    + apply surjective_pairing.
    + discriminate.
    + rewrite K. reflexivity.
  - destruct (P (PDict [("max_users", PInt 3)]) fresh_site
                (fst (set_plan_limits host (PDict [("max_users", PInt 3)]) fresh_site))
                (snd (set_plan_limits host (PDict [("max_users", PInt 3)]) fresh_site))
                "db_name") as [_ K].
    + intros v E. inversion E. reflexivity.
    + reflexivity.
    + apply surjective_pairing.
    + discriminate.
    + rewrite K. reflexivity.
Defined.

(** Limits that hold a date, stored on a new site: [set_plan_limits]
    returns, and the file, opened for writing before the dump failed,
    no longer parses: the key [db_name], which it held, is gone. *)
Lemma set_plan_limits_cuts_file_off :
  let run := set_plan_limits host dated_limits fresh_site in
  fst run = Ok tt
  /\ file_key (site_config fresh_site) "db_name" = Some (PStr "tenant1")
  /\ site_config (snd run) = NotJson
  /\ file_key (site_config (snd run)) "db_name" = None
  /\ file_key (site_config (snd run)) "db_name"
     <> file_key (site_config fresh_site) "db_name".
Proof.
  vm_compute. repeat split. discriminate.
Qed.

(** * Further properties of usage_limits.py *)

(** ** Reading the limits *)

(** What [get_plan_limits] does when the cache can be reached. *)
Lemma get_plan_limits_run (h : Host) (s : Site) :
  cache_error h = None ->
  get_plan_limits h s
  = (if py_truthy (dict_get_default (cache s) LIMITS_CACHE_KEY PNone)
     then (Ok (dict_get_default (cache s) LIMITS_CACHE_KEY PNone),
           record_call (CacheGet LIMITS_CACHE_KEY) s)
     else if py_truthy (dict_get_default (conf s) "saas_plan_limits" (PDict []))
          then (Ok (dict_get_default (conf s) "saas_plan_limits" (PDict [])),
                with_cache
                  (dict_set (cache s) LIMITS_CACHE_KEY
                     (dict_get_default (conf s) "saas_plan_limits" (PDict [])))
                  (record_call (CacheSet LIMITS_CACHE_KEY)
                     (record_call (CacheGet LIMITS_CACHE_KEY) s)))
          else (Ok (PDict []), record_call (CacheGet LIMITS_CACHE_KEY) s)).
Proof.
  intros CE.
  unfold get_plan_limits, cache_get_value, cache_set_value, cache_call, conf_get,
    bind, ret, get_site, modify.
  rewrite CE. cbn [record_call with_calls cache conf].
  destruct (py_truthy (dict_get_default (cache s) LIMITS_CACHE_KEY PNone)) eqn:T.
  - cbn [negb]. rewrite T. reflexivity.
  - cbn [negb].
    change (conf (record_call (CacheGet LIMITS_CACHE_KEY) s)) with (conf s).
    destruct (py_truthy (dict_get_default (conf s) "saas_plan_limits" (PDict []))) eqn:C.
    + cbn. rewrite C. reflexivity.
    + cbn. rewrite C. reflexivity.
Qed.

Lemma dict_get_default_set_same (d : dict) (k : string) (v default : pyval) :
  dict_get_default (dict_set d k v) k default = v.
Proof.
  unfold dict_get_default, dict_get, dict_set. rewrite assoc_get_set_same. reflexivity.
Qed.

Lemma get_plan_limits_ok_cache_up (h : Host) (s s1 : Site) (v : pyval) :
  get_plan_limits h s = (Ok v, s1) -> cache_error h = None.
Proof.
  unfold get_plan_limits, cache_get_value, cache_call, bind.
  destruct (cache_error h); [discriminate | reflexivity].
Qed.

(** X1.  A cache miss falls back to the site configuration and warms
    the cache: when the cache can be reached, holds no (or an empty)
    entry, and [frappe.conf] holds non-empty limits [v], then
    [get_plan_limits] returns [v] and the cache entry is [v] afterwards;
    the database, the file and [frappe.conf] are as before. *)
Theorem get_plan_limits_falls_back_to_conf (h : Host) (s : Site) (v : pyval) :
  cache_error h = None ->
  py_truthy (dict_get_default (cache s) "saas_plan_limits" PNone) = false ->
  dict_get (conf s) "saas_plan_limits" = Some v ->
  py_truthy v = true ->
  exists s1,
    get_plan_limits h s = (Ok v, s1)
    /\ dict_get (cache s1) "saas_plan_limits" = Some v
    /\ same_data s s1.
Proof.
  intros CE T C V.
  assert (D : dict_get_default (conf s) "saas_plan_limits" (PDict []) = v)
    by (unfold dict_get_default; rewrite C; reflexivity).
  eexists. rewrite (get_plan_limits_run h s CE).
  change LIMITS_CACHE_KEY with "saas_plan_limits". rewrite T, D, V.
  split; [reflexivity|]. split.
  - cbn. apply assoc_get_set_same.
  - repeat split.
Qed.

(** X2.  Two reads agree: when [get_plan_limits] returns [v], calling it
    again at once returns [v] again, whether [v] came from the cache,
    from [frappe.conf] or is the empty default. *)
Theorem get_plan_limits_twice_agree (h : Host) (s s1 : Site) (v : pyval) :
  get_plan_limits h s = (Ok v, s1) ->
  exists s2, get_plan_limits h s1 = (Ok v, s2).
Proof.
  intros G. pose proof (get_plan_limits_ok_cache_up h s s1 v G) as CE.
  rewrite (get_plan_limits_run h s CE) in G.
  rewrite (get_plan_limits_run h s1 CE).
  destruct (py_truthy (dict_get_default (cache s) LIMITS_CACHE_KEY PNone)) eqn:T.
  - inversion G; subst. cbn [record_call with_calls cache]. rewrite T.
    eexists. reflexivity.
  - destruct (py_truthy (dict_get_default (conf s) "saas_plan_limits" (PDict []))) eqn:C.
    + inversion G; subst. cbn [record_call with_calls with_cache cache].
      rewrite !dict_get_default_set_same. rewrite C. eexists. reflexivity.
    + inversion G; subst. cbn [record_call with_calls cache conf].
      rewrite T, C. eexists. reflexivity.
Qed.

(** X3.  Insert then look up: after [set_plan_limits limits] has
    returned for non-empty [limits], [get_plan_limits] returns exactly
    [limits], whether or not the configuration file could be written. *)
Theorem set_then_get_plan_limits (h : Host) (limits : pyval) (s s1 : Site) :
  set_plan_limits h limits s = (Ok tt, s1) ->
  py_truthy limits = true ->
  get_plan_limits h s1 = (Ok limits, record_call (CacheGet "saas_plan_limits") s1).
Proof.
  intros E T.
  destruct (set_plan_limits_cases h limits s s1 _ E)
    as [[e [_ X]]|[CE [_ [C _]]]]; [discriminate|].
  rewrite (get_plan_limits_run h s1 CE).
  unfold dict_get_default. rewrite C, T. reflexivity.
Qed.

(** ** The hooks around the limit *)

Lemma run_limit_check_value (h : Host) (s s1 : Site) (d : dict) (key : string)
    (v : pyval) (rest : pyval -> M unit) :
  get_plan_limits h s = (Ok (PDict d), s1) ->
  dict_get d key = Some v -> py_truthy v = true ->
  (limits <- get_plan_limits h ;;
   m <- py_get limits key (PInt 0) ;;
   if negb (py_truthy m) then ret tt else rest m) s
  = rest v s1.
Proof.
  intros G D T. unfold bind at 1. rewrite G.
  unfold py_get, dict_get_default, bind, ret. rewrite D, T. reflexivity.
Qed.

Lemma other_than_is_counted (doc : Document) (r : Row) :
  row_matches (other_than doc) r = counted doc r.
Proof.
  unfold other_than, counted, other_record, row_matches.
  destruct (is_new doc); simpl; [reflexivity|].
  change (column r "name") with (PStr (row_name r)). simpl.
  rewrite andb_true_r. reflexivity.
Qed.

Lemma count_other_than_counted (doc : Document) (s : Site) (doctype : string) :
  count_rows (db s) doctype (other_than doc) = count_where (counted doc) s doctype.
Proof.
  unfold count_rows, count_where. f_equal.
  apply filter_length_ext. intros r. apply other_than_is_counted.
Qed.

Lemma limit_not_reached_passes (h : Host) (s1 : Site) (doctype : string) (f : filters)
    (L : Z) (msg title : string) :
  (forall n dt, fault h n (DbCount dt) = None) ->
  count_rows (db s1) doctype f < L ->
  (current <- db_count h doctype f ;;
   reached <- py_ge current (PInt L) ;;
   if reached then frappe_throw msg title else ret tt) s1
  = (Ok tt, record_call (DbCount doctype) s1).
Proof.
  intros NF C. unfold_monad. rewrite NF. cbn [record_call with_calls db].
  replace (L <=? count_rows (db s1) doctype f) with false
    by (symmetry; apply Z.leb_gt; exact C).
  reflexivity.
Qed.

Lemma limit_value_not_number (h : Host) (s1 : Site) (doctype : string) (f : filters)
    (v : pyval) (msg title : string) :
  (forall n dt, fault h n (DbCount dt) = None) ->
  is_number v = false ->
  (current <- db_count h doctype f ;;
   reached <- py_ge current v ;;
   if reached then frappe_throw msg title else ret tt) s1
  = (Raise (comparison_error v), record_call (DbCount doctype) s1).
Proof.
  intros NF N. unfold_monad. rewrite NF. cbn [record_call with_calls db].
  destruct v; try discriminate N; reflexivity.
Qed.

Lemma count_where_same_db (p : Row -> bool) (s s1 : Site) (doctype : string) :
  db s1 = db s -> count_where p s1 doctype = count_where p s doctype.
Proof. intros E. unfold count_where. rewrite E. reflexivity. Qed.

Lemma count_rows_nonneg (d : Database) (doctype : string) (f : filters) :
  0 <= count_rows d doctype f.
Proof. unfold count_rows. lia. Qed.

Lemma nonzero_is_truthy (L : Z) : L <> 0 -> py_truthy (PInt L) = true.
Proof. intros N. simpl. destruct (Z.eqb_spec L 0); [contradiction | reflexivity]. Qed.

Ltac user_guards T NA NG :=
  unfold validate_user_limit;
  replace (py_eq_str (doc_attr _ "user_type") "System User") with true
    by (symmetry; apply py_eq_str_true; exact T);
  cbn [negb];
  match goal with
  | |- context [existsb ?f ?l] =>
      replace (existsb f l) with false
        by (simpl; apply String.eqb_neq in NA, NG; rewrite NA, NG; reflexivity)
  end;
  cbv iota.

Ltac invoice_guard T :=
  unfold validate_invoice_limit;
  rewrite T; change (py_eq_int (PInt 1) 1) with true; cbn [negb]; cbv iota.

(** X4.  Under the limit a save passes: for each of the five hooks, when
    the limit read for the site is an integer [L], the count query works
    and fewer than [L] records count against the limit (for customers,
    suppliers and companies: all records when the document is new, the
    other records when it is being updated), the hook returns without
    raising. *)
Theorem below_limit_save_passes (h : Host) (doc : Document) (s s1 : Site)
    (d : dict) (L : Z) :
  get_plan_limits h s = (Ok (PDict d), s1) ->
  (forall n dt, fault h n (DbCount dt) = None) ->
  (limit_is d "max_users" L ->
   count_where (qualifying_user doc) s "User" < L ->
   exists s', validate_user_limit h doc s = (Ok tt, s'))
  /\ (limit_is d "max_customers" L ->
      count_where (counted doc) s "Customer" < L ->
      exists s', validate_customer_limit h doc s = (Ok tt, s'))
  /\ (limit_is d "max_suppliers" L ->
      count_where (counted doc) s "Supplier" < L ->
      exists s', validate_supplier_limit h doc s = (Ok tt, s'))
  /\ (limit_is d "max_companies" L ->
      count_where (counted doc) s "Company" < L ->
      exists s', validate_company_limit h doc s = (Ok tt, s'))
  /\ (limit_is d "max_invoices_per_month" L ->
      count_where (qualifying_invoice h doc) s "Sales Invoice" < L ->
      exists s', validate_invoice_limit h doc s = (Ok tt, s')).
Proof.
  intros G NF.
  assert (Edb : db s1 = db s) by (apply (get_plan_limits_same_data h s _ s1 G)).
  assert (NZ : forall p dt, count_where p s dt < L -> L <> 0)
    by (intros p dt C; unfold count_where in C; lia).
  repeat split.
  - intros D C. unfold validate_user_limit.
    destruct (negb (py_eq_str (doc_attr doc "user_type") "System User"));
      [eexists; reflexivity|].
    destruct (existsb (String.eqb (doc_name doc)) ["Administrator"; "Guest"]);
      [eexists; reflexivity|].
    rewrite (run_limit_check_value h s s1 d "max_users" (PInt L) _ G D
               (nonzero_is_truthy L (NZ _ _ C))).
    eexists. apply limit_not_reached_passes; [exact NF|].
    rewrite count_user_filter, (count_where_same_db _ s s1 _ Edb). exact C.
  - intros D C. unfold validate_customer_limit.
    rewrite (run_limit_check_value h s s1 d "max_customers" (PInt L) _ G D
               (nonzero_is_truthy L (NZ _ _ C))).
    eexists. apply limit_not_reached_passes; [exact NF|].
    rewrite count_other_than_counted, (count_where_same_db _ s s1 _ Edb). exact C.
  - intros D C. unfold validate_supplier_limit.
    rewrite (run_limit_check_value h s s1 d "max_suppliers" (PInt L) _ G D
               (nonzero_is_truthy L (NZ _ _ C))).
    eexists. apply limit_not_reached_passes; [exact NF|].
    rewrite count_other_than_counted, (count_where_same_db _ s s1 _ Edb). exact C.
  - intros D C. unfold validate_company_limit.
    rewrite (run_limit_check_value h s s1 d "max_companies" (PInt L) _ G D
               (nonzero_is_truthy L (NZ _ _ C))).
    eexists. apply limit_not_reached_passes; [exact NF|].
    rewrite count_other_than_counted, (count_where_same_db _ s s1 _ Edb). exact C.
  - intros D C. unfold validate_invoice_limit.
    destruct (negb (py_eq_int (doc_attr doc "docstatus") 1));
      [eexists; reflexivity|].
    rewrite (run_limit_check_value h s s1 d "max_invoices_per_month" (PInt L) _ G D
               (nonzero_is_truthy L (NZ _ _ C))).
    eexists. apply limit_not_reached_passes; [exact NF|].
    rewrite count_invoice_filter, (count_where_same_db _ s s1 _ Edb). exact C.
Qed.

Lemma others_fewer_than_all (name : string) (rows : list Row) :
  existsb (fun r => String.eqb (row_name r) name) rows = true ->
  (length (filter (fun r => negb (String.eqb (row_name r) name)) rows) < length rows)%nat.
Proof.
  induction rows as [|r rows IH]; simpl; [discriminate|].
  destruct (String.eqb (row_name r) name) eqn:E; simpl.
  - intros _.
    pose proof (filter_length_mono
                  (fun r => negb (String.eqb (row_name r) name)) (fun _ => true) rows
                  (fun _ _ => eq_refl)) as M.
    assert (F : length (filter (fun _ : Row => true) rows) = length rows).
    { clear. induction rows; simpl; congruence. }
    lia.
  - intros X. specialize (IH X). lia.
Qed.

(** X5.  A full plan still lets existing records be edited: when a
    customer, supplier or company that is already in the database is
    saved again and the number of records of its doctype does not exceed
    the limit [L], the hook returns without raising, because the record
    itself is left out of the count. *)
Theorem full_plan_update_passes (h : Host) (doc : Document) (s s1 : Site)
    (d : dict) (L : Z) :
  get_plan_limits h s = (Ok (PDict d), s1) ->
  (forall n dt, fault h n (DbCount dt) = None) ->
  is_new doc = false ->
  (limit_is d "max_customers" L ->
   has_name s "Customer" (doc_name doc) = true ->
   Z.of_nat (length (table (db s) "Customer")) <= L ->
   exists s', validate_customer_limit h doc s = (Ok tt, s'))
  /\ (limit_is d "max_suppliers" L ->
      has_name s "Supplier" (doc_name doc) = true ->
      Z.of_nat (length (table (db s) "Supplier")) <= L ->
      exists s', validate_supplier_limit h doc s = (Ok tt, s'))
  /\ (limit_is d "max_companies" L ->
      has_name s "Company" (doc_name doc) = true ->
      Z.of_nat (length (table (db s) "Company")) <= L ->
      exists s', validate_company_limit h doc s = (Ok tt, s')).
Proof.
  intros G NF N.
  assert (Edb : db s1 = db s) by (apply (get_plan_limits_same_data h s _ s1 G)).
  assert (C : forall dt,
             has_name s dt (doc_name doc) = true ->
             Z.of_nat (length (table (db s) dt)) <= L ->
             count_rows (db s1) dt (other_than doc) < L /\ L <> 0).
  { intros dt X T. rewrite count_other_than_counted, (count_where_same_db _ s s1 _ Edb).
    unfold count_where, counted, other_record. rewrite N. cbn [orb].
    pose proof (others_fewer_than_all (doc_name doc) (table (db s) dt) X). lia. }
  repeat split; intros D X T; destruct (C _ X T) as [Lt NZ].
  - unfold validate_customer_limit.
    rewrite (run_limit_check_value h s s1 d "max_customers" (PInt L) _ G D
               (nonzero_is_truthy L NZ)).
    eexists. apply limit_not_reached_passes; assumption.
  - unfold validate_supplier_limit.
    rewrite (run_limit_check_value h s s1 d "max_suppliers" (PInt L) _ G D
               (nonzero_is_truthy L NZ)).
    eexists. apply limit_not_reached_passes; assumption.
  - unfold validate_company_limit.
    rewrite (run_limit_check_value h s s1 d "max_companies" (PInt L) _ G D
               (nonzero_is_truthy L NZ)).
    eexists. apply limit_not_reached_passes; assumption.
Qed.

(** X6.  A negative limit is not "unlimited": it is truthy and every
    count is at least as large, so the hook raises whatever the database
    holds (for users: for a System User other than Administrator and
    Guest; for invoices: for a document being submitted). *)
Theorem negative_limit_blocks_every_save (h : Host) (doc : Document) (s s1 : Site)
    (d : dict) (L : Z) :
  get_plan_limits h s = (Ok (PDict d), s1) ->
  L < 0 ->
  (limit_is d "max_users" L ->
   doc_attr doc "user_type" = PStr "System User" ->
   doc_name doc <> "Administrator" -> doc_name doc <> "Guest" ->
   blocks_save h (validate_user_limit h doc) s (user_limit_message h (PInt L)))
  /\ (limit_is d "max_customers" L ->
      blocks_save h (validate_customer_limit h doc) s (customer_limit_message h (PInt L)))
  /\ (limit_is d "max_suppliers" L ->
      blocks_save h (validate_supplier_limit h doc) s (supplier_limit_message h (PInt L)))
  /\ (limit_is d "max_companies" L ->
      blocks_save h (validate_company_limit h doc) s (company_limit_message h (PInt L)))
  /\ (limit_is d "max_invoices_per_month" L ->
      doc_attr doc "docstatus" = PInt 1 ->
      blocks_save h (validate_invoice_limit h doc) s (invoice_limit_message h (PInt L))).
Proof.
  intros G N.
  assert (T : py_truthy (PInt L) = true) by (apply nonzero_is_truthy; lia).
  assert (C : forall dt f, L <= count_rows (db s1) dt f)
    by (intros dt f; pose proof (count_rows_nonneg (db s1) dt f); lia).
  unfold blocks_save. repeat split.
  - intros D U NA NG. user_guards U NA NG.
    rewrite (run_limit_check_value h s s1 d "max_users" (PInt L) _ G D T).
    apply limit_reached_blocks. apply C.
  - intros D. unfold validate_customer_limit.
    rewrite (run_limit_check_value h s s1 d "max_customers" (PInt L) _ G D T).
    apply limit_reached_blocks. apply C.
  - intros D. unfold validate_supplier_limit.
    rewrite (run_limit_check_value h s s1 d "max_suppliers" (PInt L) _ G D T).
    apply limit_reached_blocks. apply C.
  - intros D. unfold validate_company_limit.
    rewrite (run_limit_check_value h s s1 d "max_companies" (PInt L) _ G D T).
    apply limit_reached_blocks. apply C.
  - intros D U. invoice_guard U.
    rewrite (run_limit_check_value h s s1 d "max_invoices_per_month" (PInt L) _ G D T).
    apply limit_reached_blocks. apply C.
Qed.

(** X7.  A limit that is not a number stops every save with a
    [TypeError]: when the value under the hook's key is truthy but
    neither an integer, a float nor a boolean (a string such as ["3"]
    written by hand into the configuration), the comparison with the
    count raises, whatever the count is, and no validation error is
    produced. *)
Theorem non_numeric_limit_raises_type_error (h : Host) (doc : Document) (s s1 : Site)
    (d : dict) (v : pyval) :
  get_plan_limits h s = (Ok (PDict d), s1) ->
  (forall n dt, fault h n (DbCount dt) = None) ->
  py_truthy v = true -> is_number v = false ->
  (dict_get d "max_users" = Some v ->
   doc_attr doc "user_type" = PStr "System User" ->
   doc_name doc <> "Administrator" -> doc_name doc <> "Guest" ->
   validate_user_limit h doc s
   = (Raise (comparison_error v), record_call (DbCount "User") s1))
  /\ (dict_get d "max_customers" = Some v ->
      validate_customer_limit h doc s
      = (Raise (comparison_error v), record_call (DbCount "Customer") s1))
  /\ (dict_get d "max_suppliers" = Some v ->
      validate_supplier_limit h doc s
      = (Raise (comparison_error v), record_call (DbCount "Supplier") s1))
  /\ (dict_get d "max_companies" = Some v ->
      validate_company_limit h doc s
      = (Raise (comparison_error v), record_call (DbCount "Company") s1))
  /\ (dict_get d "max_invoices_per_month" = Some v ->
      doc_attr doc "docstatus" = PInt 1 ->
      validate_invoice_limit h doc s
      = (Raise (comparison_error v), record_call (DbCount "Sales Invoice") s1)).
Proof.
  intros G NF T N. repeat split.
  - intros D U NA NG. user_guards U NA NG.
    rewrite (run_limit_check_value h s s1 d "max_users" v _ G D T).
    apply limit_value_not_number; assumption.
  - intros D. unfold validate_customer_limit.
    rewrite (run_limit_check_value h s s1 d "max_customers" v _ G D T).
    apply limit_value_not_number; assumption.
  - intros D. unfold validate_supplier_limit.
    rewrite (run_limit_check_value h s s1 d "max_suppliers" v _ G D T).
    apply limit_value_not_number; assumption.
  - intros D. unfold validate_company_limit.
    rewrite (run_limit_check_value h s s1 d "max_companies" v _ G D T).
    apply limit_value_not_number; assumption.
  - intros D U. invoice_guard U.
    rewrite (run_limit_check_value h s s1 d "max_invoices_per_month" v _ G D T).
    apply limit_value_not_number; assumption.
Qed.

(** ** The synchronisation endpoint *)

Lemma set_plan_limits_raise (h : Host) (limits : pyval) (s s1 : Site) (e : exn) :
  set_plan_limits h limits s = (Raise e, s1) ->
  s1 = record_call (CacheSet LIMITS_CACHE_KEY) s.
Proof.
  intros E. destruct (set_plan_limits_cases h limits s s1 _ E)
    as [[e0 [CE _]]|[_ [X _]]]; [|discriminate].
  unfold set_plan_limits, cache_set_value, cache_call, bind in E.
  rewrite CE in E. inversion E. reflexivity.
Qed.

Lemma set_plan_limits_returns (h : Host) (limits : pyval) (s : Site) :
  cache_error h = None -> exists s1, set_plan_limits h limits s = (Ok tt, s1).
Proof.
  intros CE. destruct (set_plan_limits h limits s) as [r s1] eqn:E.
  destruct (set_plan_limits_cases h limits s s1 _ E)
    as [[e0 [X _]]|[_ [-> _]]]; [congruence|].
  exists s1. reflexivity.
Qed.

Lemma sync_plan_limits_body_raise (h : Host) (a1 a2 a3 a4 a5 a6 : pyval)
    (s s1 : Site) (e : exn) :
  sync_plan_limits_body h a1 a2 a3 a4 a5 a6 s = (Raise e, s1) ->
  cache s1 = cache s /\ site_config s1 = site_config s /\ db s1 = db s
  /\ error_log s1 = error_log s.
Proof.
  destruct (int_or_zero_pure h a1) as [o1 [E1 _]].
  destruct (int_or_zero_pure h a2) as [o2 [E2 _]].
  destruct (int_or_zero_pure h a3) as [o3 [E3 _]].
  destruct (int_or_zero_pure h a4) as [o4 [E4 _]].
  destruct (int_or_zero_pure h a5) as [o5 [E5 _]].
  destruct (float_or_zero_pure h a6) as [o6 [E6 _]].
  unfold sync_plan_limits_body, bind.
  rewrite E1. destruct o1; [|intros X; inversion X; auto].
  rewrite E2. destruct o2; [|intros X; inversion X; auto].
  rewrite E3. destruct o3; [|intros X; inversion X; auto].
  rewrite E4. destruct o4; [|intros X; inversion X; auto].
  rewrite E5. destruct o5; [|intros X; inversion X; auto].
  rewrite E6. destruct o6; [|intros X; inversion X; auto].
  match goal with
  | |- context [set_plan_limits h ?L s] =>
      destruct (set_plan_limits h L s) as [[[]|e'] s'] eqn:SP
  end; unfold ret; intros X; inversion X; subst.
  rewrite (set_plan_limits_raise h _ s s1 e SP). repeat split.
Qed.

(** X8.  A failed synchronisation stores nothing: whenever
    [sync_plan_limits] returns a failure dict, the cache, the
    configuration file and the database are as they were before the
    call, and the error log has one more entry. *)
Theorem sync_failure_stores_nothing (h : Host) (a1 a2 a3 a4 a5 a6 : pyval)
    (s s1 : Site) (res : dict) :
  sync_plan_limits h a1 a2 a3 a4 a5 a6 s = (Ok (PDict res), s1) ->
  dict_get res "success" = Some (PBool false) ->
  cache s1 = cache s /\ site_config s1 = site_config s /\ db s1 = db s
  /\ exists msg, error_log s1 = error_log s ++ [msg].
Proof.
  unfold sync_plan_limits, try_except. intros E S.
  destruct (sync_plan_limits_body h a1 a2 a3 a4 a5 a6 s) as [[v|e] s'] eqn:B.
  - inversion E; subst.
    destruct (sync_plan_limits_body_ok h _ _ _ _ _ _ _ _ _ B) as [L [_ [_ V]]].
    inversion V; subst res. discriminate S.
  - destruct (sync_plan_limits_body_raise h _ _ _ _ _ _ _ _ _ B) as [C [F [D G]]].
    unfold log_error, bind, modify, ret in E. inversion E; subst. cbn.
    repeat split; try assumption. rewrite G. eexists. reflexivity.
Qed.

(** X9.  When synchronisation succeeds: [sync_plan_limits] reports
    success exactly when all six arguments can be coerced and the cache
    can be reached; whether [site_config.json] could be written plays no
    part. *)
Theorem sync_plan_limits_success_iff (h : Host) (a1 a2 a3 a4 a5 a6 : pyval) (s : Site) :
  (exists res s1,
      sync_plan_limits h a1 a2 a3 a4 a5 a6 s = (Ok (PDict res), s1)
      /\ dict_get res "success" = Some (PBool true))
  <-> (cache_error h = None /\ exists L, coerced_limits h s a1 a2 a3 a4 a5 a6 L).
Proof.
  split.
  - intros [res [s1 [E S]]]. unfold sync_plan_limits, try_except in E.
    destruct (sync_plan_limits_body h a1 a2 a3 a4 a5 a6 s) as [[v|e] s'] eqn:B.
    + destruct (sync_plan_limits_body_ok h _ _ _ _ _ _ _ _ _ B) as [L [CO [SP _]]].
      destruct (set_plan_limits_cases h L s s' _ SP)
        as [[e [_ X]]|[CE _]]; [discriminate|].
      split; [exact CE | exists L; exact CO].
    + unfold log_error, bind, modify, ret in E. inversion E; subst res.
      discriminate S.
  - intros [CE [L CO]].
    destruct CO as [z1 [z2 [z3 [z4 [z5 [v6 [E1 [E2 [E3 [E4 [E5 [E6 [_ ->]]]]]]]]]]]]].
    destruct (set_plan_limits_returns h
                (PDict [("max_users", PInt z1); ("max_customers", PInt z2);
                        ("max_suppliers", PInt z3); ("max_companies", PInt z4);
                        ("max_invoices_per_month", PInt z5);
                        ("max_storage_gb", v6)]) s CE) as [s1 SP].
    eexists _, s1. split.
    + unfold sync_plan_limits, try_except, sync_plan_limits_body, bind.
      rewrite E1, E2, E3, E4, E5, E6, SP. reflexivity.
    + reflexivity.
Qed.

Lemma int_or_zero_falsy (h : Host) (x : pyval) (s : Site) (z : Z) :
  py_truthy x = false -> int_or_zero h x s = (Ok (PInt z), s) -> z = 0.
Proof.
  intros T E. unfold int_or_zero in E. rewrite T in E. inversion E. reflexivity.
Qed.

(** X10.  Synchronising a zero lifts the quota: after a successful
    [sync_plan_limits] in which the argument of a quota is 0, empty or
    omitted, the hook of that quota returns without raising for every
    document, however many records exist. *)
Theorem sync_zero_lifts_quota (h : Host) (a1 a2 a3 a4 a5 a6 : pyval)
    (s s1 : Site) (res : dict) (doc : Document) :
  sync_plan_limits h a1 a2 a3 a4 a5 a6 s = (Ok (PDict res), s1) ->
  dict_get res "success" = Some (PBool true) ->
  (py_truthy a1 = false ->
   exists s', validate_user_limit h doc s1 = (Ok tt, s'))
  /\ (py_truthy a2 = false ->
      exists s', validate_customer_limit h doc s1 = (Ok tt, s'))
  /\ (py_truthy a3 = false ->
      exists s', validate_supplier_limit h doc s1 = (Ok tt, s'))
  /\ (py_truthy a4 = false ->
      exists s', validate_company_limit h doc s1 = (Ok tt, s'))
  /\ (py_truthy a5 = false ->
      exists s', validate_invoice_limit h doc s1 = (Ok tt, s')).
Proof.
  unfold sync_plan_limits, try_except. intros E S.
  destruct (sync_plan_limits_body h a1 a2 a3 a4 a5 a6 s) as [[v|e] s'] eqn:B.
  2:{ unfold log_error, bind, modify, ret in E. inversion E; subst res. discriminate S. }
  inversion E; subst. clear E.
  destruct (sync_plan_limits_body_ok h _ _ _ _ _ _ _ _ _ B) as [L [CO [SP _]]].
  destruct (set_plan_limits_cases h L s s1 _ SP)
    as [[e [_ X]]|[CE [_ [C _]]]]; [discriminate|].
  destruct CO as [z1 [z2 [z3 [z4 [z5 [v6 [E1 [E2 [E3 [E4 [E5 [_ [_ ->]]]]]]]]]]]]].
  match type of C with
  | _ = Some (PDict ?d) =>
      assert (G : get_plan_limits h s1
                  = (Ok (PDict d), record_call (CacheGet LIMITS_CACHE_KEY) s1))
        by (rewrite (get_plan_limits_run h s1 CE); unfold dict_get_default;
            rewrite C; reflexivity)
  end.
  repeat split; intros T.
  - rewrite (int_or_zero_falsy h a1 s z1 T E1) in G.
    unfold validate_user_limit.
    destruct (negb (py_eq_str (doc_attr doc "user_type") "System User"));
      [eexists; reflexivity|].
    destruct (existsb (String.eqb (doc_name doc)) ["Administrator"; "Guest"]);
      [eexists; reflexivity|].
    eexists. apply (skip_limit_check h s1 _ _ "max_users" _ G). right. reflexivity.
  - rewrite (int_or_zero_falsy h a2 s z2 T E2) in G.
    eexists. apply (skip_limit_check h s1 _ _ "max_customers" _ G). right. reflexivity.
  - rewrite (int_or_zero_falsy h a3 s z3 T E3) in G.
    eexists. apply (skip_limit_check h s1 _ _ "max_suppliers" _ G). right. reflexivity.
  - rewrite (int_or_zero_falsy h a4 s z4 T E4) in G.
    eexists. apply (skip_limit_check h s1 _ _ "max_companies" _ G). right. reflexivity.
  - rewrite (int_or_zero_falsy h a5 s z5 T E5) in G.
    unfold validate_invoice_limit.
    destruct (negb (py_eq_int (doc_attr doc "docstatus") 1));
      [eexists; reflexivity|].
    eexists. apply (skip_limit_check h s1 _ _ "max_invoices_per_month" _ G).
    right. reflexivity.
Qed.

(** * Further properties of setup.py *)

(** ** Configurations that are rejected *)

Lemma failure_handler_run (label : string) (e : exn) (s : Site) :
  (print (label ++ exn_str e) ;; print_exc e ;; ret (failure e)) s
  = (Ok (failure e), reported label e s).
Proof. reflexivity. Qed.

Lemma py_getitem_not_dict (v : pyval) (key : string) (s : Site) :
  (forall d, v <> PDict d) ->
  exists e, py_getitem v key s = (Raise e, s) /\ exn_class e = "TypeError".
Proof.
  intros N. destruct v; try (eexists; split; reflexivity).
  exfalso. exact (N d eq_refl).
Qed.

Lemma bind_ok {A B : Type} (m : M A) (k : A -> M B) (s s' : Site) (a : A) :
  m s = (Ok a, s') -> bind m k s = k a s'.
Proof. intros E. unfold bind. rewrite E. reflexivity. Qed.

Lemma bind_raise {A B : Type} (m : M A) (k : A -> M B) (s s' : Site) (e : exn) :
  m s = (Raise e, s') -> bind m k s = (Raise e, s').
Proof. intros E. unfold bind. rewrite E. reflexivity. Qed.

Lemma py_getitem_present (d : dict) (key : string) (v : pyval) (s : Site) :
  dict_get d key = Some v -> py_getitem (PDict d) key s = (Ok v, s).
Proof. intros K. unfold py_getitem. rewrite K. reflexivity. Qed.

Lemma py_getitem_missing (d : dict) (key : string) (s : Site) :
  dict_get d key = None ->
  py_getitem (PDict d) key s = (Raise (Exn "KeyError" ("'" ++ key ++ "'")), s).
Proof. intros K. unfold py_getitem. rewrite K. reflexivity. Qed.

(** One [config[key]] of the prefix: the key is missing and is the
    first missing one, or the run goes on with its value. *)
Ltac read_key d key :=
  let K := fresh "K" in
  destruct (dict_get d key) eqn:K;
  [ rewrite (bind_ok _ _ _ _ _ (py_getitem_present d key _ _ K)); cbv beta
  | intros X; inversion X; apply bind_raise; apply py_getitem_missing; exact K ].

Lemma setup_company_body_rejects (h : Host) (config_b64 : string) (s : Site) :
  (forall e, decode_config h config_b64 = Raise e ->
             setup_company_body h config_b64 s = (Raise e, s))
  /\ (forall v, decode_config h config_b64 = Ok v -> (forall d, v <> PDict d) ->
                exists e, setup_company_body h config_b64 s = (Raise e, s)
                          /\ exn_class e = "TypeError")
  /\ (forall d k, decode_config h config_b64 = Ok (PDict d) ->
                  first_missing d required_company_keys = Some k ->
                  setup_company_body h config_b64 s
                  = (Raise (Exn "KeyError" ("'" ++ k ++ "'")), s)).
Proof.
  unfold setup_company_body. split; [|split].
  - intros e D. apply bind_raise. unfold lift_outcome. rewrite D. reflexivity.
  - intros v D N.
    destruct (py_getitem_not_dict v "company_name" s N) as [e [G C]].
    exists e. split; [|exact C].
    rewrite (bind_ok _ _ s s v) by (unfold lift_outcome; rewrite D; reflexivity).
    cbv beta. apply bind_raise. exact G.
  - intros d k D.
    rewrite (bind_ok _ _ s s (PDict d)) by (unfold lift_outcome; rewrite D; reflexivity).
    cbv beta. unfold first_missing, required_company_keys. cbn [find].
    read_key d "company_name".
    read_key d "company_abbr".
    read_key d "country".
    read_key d "currency".
    rewrite (bind_ok _ _ s s _ (eq_refl : py_get (PDict d) "chart_of_accounts"
                                             (PStr "Standard") s = (Ok _, s))).
    cbv beta.
    read_key d "fy_name".
    read_key d "fy_start_date".
    read_key d "fy_end_date".
    intros X. discriminate X.
Qed.

(** X11.  A configuration that cannot be used is rejected before
    anything is touched: when [config_b64] cannot be decoded, does not
    decode to an object, or lacks one of the seven required keys,
    [setup_company] returns the failure dict of that error (for a
    missing key, the [KeyError] of the first one missing in reading
    order) and the site is left as it was but for the two lines printed:
    no framework call is made and neither the file nor the database is
    written. *)
Theorem setup_company_rejects_bad_config (h : Host) (config_b64 : string) (s : Site) :
  (forall e, decode_config h config_b64 = Raise e ->
             setup_company h config_b64 s
             = (Ok (failure e), reported "SETUP_FAILED: " e s))
  /\ (forall v, decode_config h config_b64 = Ok v -> (forall d, v <> PDict d) ->
                exists e, setup_company h config_b64 s
                          = (Ok (failure e), reported "SETUP_FAILED: " e s)
                          /\ exn_class e = "TypeError")
  /\ (forall d k, decode_config h config_b64 = Ok (PDict d) ->
                  first_missing d required_company_keys = Some k ->
                  setup_company h config_b64 s
                  = (Ok (failure (Exn "KeyError" ("'" ++ k ++ "'"))),
                     reported "SETUP_FAILED: " (Exn "KeyError" ("'" ++ k ++ "'")) s)).
Proof.
  destruct (setup_company_body_rejects h config_b64 s) as [A [B C]].
  unfold setup_company, try_except. repeat split.
  - intros e D. rewrite (A e D). apply failure_handler_run.
  - intros v D N. destruct (B v D N) as [e [E X]]. exists e.
    rewrite E. split; [apply failure_handler_run | exact X].
  - intros d k D K. rewrite (C d k D K). apply failure_handler_run.
Qed.

Lemma create_user_body_rejects (h : Host) (config_b64 : string) (s : Site) :
  (forall e, decode_config h config_b64 = Raise e ->
             create_user_body h config_b64 s = (Raise e, s))
  /\ (forall v, decode_config h config_b64 = Ok v -> (forall d, v <> PDict d) ->
                exists e, create_user_body h config_b64 s = (Raise e, s)
                          /\ exn_class e = "TypeError")
  /\ (forall d k, decode_config h config_b64 = Ok (PDict d) ->
                  first_missing d required_user_keys = Some k ->
                  create_user_body h config_b64 s
                  = (Raise (Exn "KeyError" ("'" ++ k ++ "'")), s)).
Proof.
  unfold create_user_body. split; [|split].
  - intros e D. apply bind_raise. unfold lift_outcome. rewrite D. reflexivity.
  - intros v D N.
    destruct (py_getitem_not_dict v "email" s N) as [e [G C]].
    exists e. split; [|exact C].
    rewrite (bind_ok _ _ s s v) by (unfold lift_outcome; rewrite D; reflexivity).
    cbv beta. apply bind_raise. exact G.
  - intros d k D.
    rewrite (bind_ok _ _ s s (PDict d)) by (unfold lift_outcome; rewrite D; reflexivity).
    cbv beta. unfold first_missing, required_user_keys. cbn [find].
    read_key d "email".
    rewrite (bind_ok _ _ s s _ (eq_refl : py_get (PDict d) "first_name"
                                             (PStr "User") s = (Ok _, s))).
    cbv beta.
    rewrite (bind_ok _ _ s s _ (eq_refl : py_get (PDict d) "last_name"
                                             (PStr EmptyString) s = (Ok _, s))).
    cbv beta.
    read_key d "password".
    intros X. discriminate X.
Qed.

(** X12.  The same for [create_user]: a configuration that cannot be
    decoded, is not an object, or lacks [email] or [password] gives the
    failure dict of that error, and the site is left as it was but for
    the two lines printed: no user is looked up, created or changed. *)
Theorem create_user_rejects_bad_config (h : Host) (config_b64 : string) (s : Site) :
  (forall e, decode_config h config_b64 = Raise e ->
             create_user h config_b64 s
             = (Ok (failure e), reported "USER_FAILED: " e s))
  /\ (forall v, decode_config h config_b64 = Ok v -> (forall d, v <> PDict d) ->
                exists e, create_user h config_b64 s
                          = (Ok (failure e), reported "USER_FAILED: " e s)
                          /\ exn_class e = "TypeError")
  /\ (forall d k, decode_config h config_b64 = Ok (PDict d) ->
                  first_missing d required_user_keys = Some k ->
                  create_user h config_b64 s
                  = (Ok (failure (Exn "KeyError" ("'" ++ k ++ "'"))),
                     reported "USER_FAILED: " (Exn "KeyError" ("'" ++ k ++ "'")) s)).
Proof.
  destruct (create_user_body_rejects h config_b64 s) as [A [B C]].
  unfold create_user, try_except. repeat split.
  - intros e D. rewrite (A e D). apply failure_handler_run.
  - intros v D N. destruct (B v D N) as [e [E X]]. exists e.
    rewrite E. split; [apply failure_handler_run | exact X].
  - intros d k D K. rewrite (C d k D K). apply failure_handler_run.
Qed.

(** ** What a successful set-up leaves *)

Lemma kept_refl (P : Site -> Prop) (s : Site) : kept P s s.
Proof. intros X. exact X. Qed.

Lemma kept_trans (P : Site -> Prop) (s1 s2 s3 : Site) :
  kept P s1 s2 -> kept P s2 s3 -> kept P s1 s3.
Proof. unfold kept. auto. Qed.

Lemma hoare_ret {A : Type} (P : Site -> Prop) (a : A) (Q : A -> Site -> Prop) :
  (forall s, P s -> Q a s) -> hoare P (ret a) Q.
Proof. intros I s b s' X E. inversion E; subst. apply I. exact X. Qed.

Lemma hoare_bind {A B : Type} (P P' : Site -> Prop) (m : M A) (k : A -> M B)
    (Q : B -> Site -> Prop) :
  hoare P m (fun _ => P') -> (forall a, hoare P' (k a) Q) -> hoare P (bind m k) Q.
Proof.
  intros Hm Hk s b s' X E. unfold bind in E.
  destruct (m s) as [[a|e] s1] eqn:Em; [|inversion E].
  eapply Hk; [eapply Hm; [exact X | exact Em] | exact E].
Qed.

Lemma hoare_if {A : Type} (P : Site -> Prop) (b : bool) (m1 m2 : M A)
    (Q : A -> Site -> Prop) :
  hoare P m1 Q -> hoare P m2 Q -> hoare P (if b then m1 else m2) Q.
Proof. intros H1 H2. destruct b; assumption. Qed.

Lemma hoare_keeps {A : Type} (P : Site -> Prop) (m : M A) :
  keeps (kept P) m -> hoare P m (fun _ => P).
Proof. intros K s a s' X E. exact (K s _ s' E X). Qed.

Lemma hoare_ensures {A : Type} (P : Site -> Prop) (m : M A) (Q : A -> Site -> Prop) :
  (forall s, P s) -> hoare P m Q -> ensures Q m.
Proof. intros T H s a s' E. exact (H s a s' (T s) E). Qed.

Lemma ensures_established {A B : Type} (I : Site -> Prop) (m : M A) (k : A -> M B) :
  (forall s a s', m s = (Ok a, s') -> I s') ->
  (forall a, keeps (kept I) (k a)) ->
  ensures (fun _ s' => I s') (bind m k).
Proof.
  intros Em Kk s b s' E. unfold bind in E.
  destruct (m s) as [[a|e] s1] eqn:X; [|inversion E].
  exact (Kk a s1 _ s' E (Em s a s1 X)).
Qed.

Section RecordOnly.

(** Relations that hold between a state and the same state with one
    more recorded call are kept by the calls themselves. *)
Variable R : Site -> Site -> Prop.
Hypothesis R_record : forall s op, R s (record_call op s).

Lemma keeps_db_call_record (h : Host) (op : Op) : keeps R (db_call h op).
Proof.
  intros s r s' E. unfold db_call in E.
  destruct (fault h (length (calls s)) op); inversion E; apply R_record.
Qed.

Lemma keeps_cache_call_record (h : Host) (op : Op) : keeps R (cache_call h op).
Proof.
  intros s r s' E. unfold cache_call in E.
  destruct (cache_error h); inversion E; apply R_record.
Qed.

End RecordOnly.

Lemma setup_company_success_is_body (h : Host) (config_b64 : string) (s s1 : Site)
    (res : pyval) :
  setup_company h config_b64 s = (Ok res, s1) ->
  reports_success res ->
  setup_company_body h config_b64 s = (Ok res, s1).
Proof.
  unfold setup_company, try_except. intros E S.
  destruct (setup_company_body h config_b64 s) as [[v|e] s'] eqn:B.
  - exact E.
  - unfold print, print_exc, print, bind, modify, ret in E. inversion E; subst.
    simpl in S. discriminate S.
Qed.

Lemma kept_file_marked (s s' : Site) :
  site_config s' = site_config s -> kept file_marked s s'.
Proof. intros E X. unfold file_marked in *. rewrite E. exact X. Qed.

Lemma rewrite_site_config_marks (s s' : Site) (a : unit) :
  rewrite_site_config "setup_complete" (PInt 1) s = (Ok a, s') -> file_marked s'.
Proof.
  intros E.
  destruct (rewrite_site_config_cases _ _ _ _ _ E)
    as [[d [_ [_ [_ [_ ->]]]]]|[[_ [[e X] _]]|[d [_ [_ [_ [[e X] _]]]]]]];
    try discriminate X.
  unfold file_marked. cbn. apply assoc_get_set_same.
Qed.

Ltac marked_prims :=
  first
    [ apply (keeps_db_call _ kept_file_marked)
    | apply (keeps_cache_call _ kept_file_marked)
    | apply keeps_modify; intros; apply kept_file_marked; reflexivity ].

Lemma setup_company_body_marks_file (h : Host) (config_b64 : string) :
  ensures (fun _ s' => file_marked s') (setup_company_body h config_b64).
Proof.
  unfold setup_company_body.
  repeat match goal with
    | |- ensures _ (bind ?m _) =>
        lazymatch m with
        | rewrite_site_config _ _ => fail
        | _ => apply ensures_bind; intros ?
        end
    end.
  apply ensures_established.
  - intros s0 u s0' E. exact (rewrite_site_config_marks s0 s0' u E).
  - intros _. unfold_calls.
    keeps_walk (kept_refl file_marked) (kept_trans file_marked) marked_prims.
Qed.

(** X13.  A reported success means the file is marked: whenever
    [setup_company] returns success, [site_config.json] holds
    [setup_complete = 1]. *)
Theorem setup_company_success_marks_file (h : Host) (config_b64 : string)
    (s s1 : Site) (res : pyval) :
  setup_company h config_b64 s = (Ok res, s1) ->
  reports_success res ->
  file_key (site_config s1) "setup_complete" = Some (PInt 1).
Proof.
  intros E S.
  exact (setup_company_body_marks_file h config_b64 s res s1
           (setup_company_success_is_body h config_b64 s s1 res E S)).
Qed.

Lemma holds_nil (d : dict) : holds [] d.
Proof. intros k v E. discriminate E. Qed.

Lemma holds_set (expected d : dict) (k : string) (v : pyval) :
  holds expected d -> holds (dict_set expected k v) (dict_set d k v).
Proof.
  intros H k' v'. unfold dict_get, dict_set.
  destruct (String.eqb_spec k' k) as [->|N].
  - rewrite !assoc_get_set_same. auto.
  - rewrite !assoc_get_set_other by exact N. apply H.
Qed.

Lemma single_of_set (d : Database) (doctype : string) (x : dict) :
  single (set_singles (assoc_set (singles d) doctype x) d) doctype = x.
Proof. unfold single. cbn. rewrite assoc_get_set_same. reflexivity. Qed.

Lemma single_of_other (d : Database) (doctype other : string) (x : dict) :
  other <> doctype ->
  single (set_singles (assoc_set (singles d) doctype x) d) other = single d other.
Proof.
  intros N. unfold single. cbn. rewrite assoc_get_set_other by exact N. reflexivity.
Qed.

Lemma tracks_start (s : Site) : tracks [] [] [] [] [] s.
Proof. repeat split; apply holds_nil. Qed.

Lemma step_set_single (h : Host) (sd dd sc dc fl : dict) (field : string) (v : pyval) :
  hoare (tracks sd dd sc dc fl)
    (db_set_single_value h "System Settings" field v)
    (fun _ => tracks (dict_set sd field v) dd sc dc fl).
Proof.
  intros s a s' [A [B [C [D F]]]] E.
  unfold db_set_single_value, db_call, bind, modify in E.
  destruct (fault h (length (calls s)) (DbSetSingle "System Settings" field));
    inversion E; subst.
  repeat split; try assumption.
  unfold settings_hold. cbn [db with_db record_call with_calls].
  rewrite single_of_set. apply holds_set. exact A.
Qed.

Lemma step_set_default (h : Host) (sd dd sc dc fl : dict) (key : string) (v : pyval) :
  hoare (tracks sd dd sc dc fl)
    (db_set_default h key v)
    (fun _ => tracks sd (dict_set dd key v) sc dc fl).
Proof.
  intros s a s' [A [B [C [D F]]]] E.
  unfold db_set_default, db_call, bind, modify in E.
  destruct (fault h (length (calls s)) (DbSetDefault key)); inversion E; subst.
  repeat split; try assumption.
  unfold defaults_hold. cbn. apply holds_set. exact B.
Qed.

Lemma step_commit (h : Host) (sd dd sc dc fl : dict) :
  hoare (tracks sd dd sc dc fl) (db_commit h) (fun _ => tracks sd dd sd dd fl).
Proof.
  intros s a s' [A [B [C [D F]]]] E.
  unfold db_commit, db_call, bind, modify in E.
  destruct (fault h (length (calls s)) DbCommit); inversion E; subst.
  repeat split; assumption.
Qed.

Lemma step_set_flag (sd dd sc dc fl : dict) (flag : string) (v : pyval) :
  hoare (tracks sd dd sc dc fl) (set_flag flag v)
    (fun _ => tracks sd dd sc dc (dict_set fl flag v)).
Proof.
  intros s a s' [A [B [C [D F]]]] E.
  unfold set_flag, modify in E. inversion E; subst.
  repeat split; try assumption. cbn. apply holds_set. exact F.
Qed.

Lemma keeps_rewrite_site_config (R : Site -> Site -> Prop) (key : string) (v : pyval) :
  (forall s, R s s) -> (forall s x, R s (with_site_config x s)) ->
  keeps R (rewrite_site_config key v).
Proof.
  intros Rr Rw s r s' E.
  destruct (rewrite_site_config_cases _ _ _ _ _ E)
    as [[d [_ [_ [_ [_ ->]]]]]|[[_ [_ ->]]|[d [_ [_ [_ [_ ->]]]]]]];
    [apply Rw | apply Rr | apply Rw].
Qed.

Lemma tracks_file (sd dd sc dc fl : dict) (s : Site) (x : file_content) :
  kept (tracks sd dd sc dc fl) s (with_site_config x s).
Proof. intros X. exact X. Qed.

Lemma tracks_record (sd dd sc dc fl : dict) (s : Site) (op : Op) :
  kept (tracks sd dd sc dc fl) s (record_call op s).
Proof. intros X. exact X. Qed.

(** The changes of state that leave what [tracks] follows alone. *)
Ltac tracks_modify :=
  let s0 := fresh "s" in
  let A := fresh "A" in let B := fresh "B" in let C := fresh "C" in
  let D := fresh "D" in let F := fresh "F" in
  intros s0 [A [B [C [D F]]]];
  unfold tracks, settings_hold, defaults_hold in *;
  cbn [db committed flags with_db with_committed with_cache with_flags with_stdout
       with_error_log with_site_config with_calls record_call
       defaults set_tables set_singles set_defaults set_passwords];
  rewrite ?single_of_other by discriminate;
  repeat split; first [assumption | unfold single in *; cbn; assumption].

Ltac tracks_prims :=
  first
    [ apply keeps_rewrite_site_config; intros; [apply kept_refl | apply tracks_file]
    | apply keeps_db_call_record; intros; apply tracks_record
    | apply keeps_cache_call_record; intros; apply tracks_record
    | apply keeps_modify; tracks_modify ].

Ltac tracks_keeps :=
  unfold_calls;
  match goal with
  | |- keeps (kept ?P) _ => keeps_walk (kept_refl P) (kept_trans P) tracks_prims
  end.

Ltac tracks_walk :=
  repeat
    match goal with
    | |- hoare _ (bind (db_set_single_value _ _ _ _) _) _ =>
        eapply hoare_bind; [apply step_set_single | intros ?]
    | |- hoare _ (bind (db_set_default _ _ _) _) _ =>
        eapply hoare_bind; [apply step_set_default | intros ?]
    | |- hoare _ (bind (db_commit _) _) _ =>
        eapply hoare_bind; [apply step_commit | intros ?]
    | |- hoare _ (bind (set_flag _ _) _) _ =>
        eapply hoare_bind; [apply step_set_flag | intros ?]
    | |- hoare _ (bind (if ?b then _ else _) _) _ =>
        eapply hoare_bind; [apply hoare_if | intros ?]
    | |- hoare _ (bind _ _) _ =>
        eapply hoare_bind; [apply hoare_keeps; solve [tracks_keeps] | intros ?]
    | |- hoare _ (if _ then _ else _) _ => apply hoare_if
    | |- hoare _ ?m _ =>
        lazymatch m with
        | bind _ _ => fail
        | _ => apply hoare_keeps; solve [tracks_keeps]
        end
    | |- hoare _ (ret _) _ => apply hoare_ret
    end.

Lemma config_value_of (h : Host) (config_b64 : string) (d : dict) (key : string)
    (v : pyval) :
  decode_config h config_b64 = Ok (PDict d) ->
  (exists s s', py_getitem (PDict d) key s = (Ok v, s')) ->
  config_value h config_b64 key = Some v.
Proof.
  intros D G. apply py_getitem_returns in G. destruct G as [d' [X G]].
  inversion X; subst d'. unfold config_value. rewrite D. exact G.
Qed.

Lemma setup_company_body_sets_up (h : Host) (config_b64 : string) :
  ensures (fun _ s' => set_up h config_b64 s') (setup_company_body h config_b64).
Proof.
  unfold setup_company_body.
  apply ensures_bind_from. intros config [s0 [s0' D]].
  unfold lift_outcome in D. inversion D as [[D1 D2]]. clear D D2.
  apply ensures_bind_from. intros company_name G1.
  destruct (py_getitem_returns _ _ _ G1) as [d [-> _]].
  pose proof (config_value_of h config_b64 d _ _ D1 G1) as V1.
  apply ensures_bind. intros company_abbr.
  apply ensures_bind_from. intros country G3.
  pose proof (config_value_of h config_b64 d _ _ D1 G3) as V3.
  apply ensures_bind_from. intros currency G4.
  pose proof (config_value_of h config_b64 d _ _ D1 G4) as V4.
  apply ensures_bind. intros chart_of_accounts.
  apply ensures_bind_from. intros fy_name G5.
  pose proof (config_value_of h config_b64 d _ _ D1 G5) as V5.
  apply ensures_bind. intros fy_start_date.
  apply ensures_bind. intros fy_end_date.
  apply (hoare_ensures (tracks [] [] [] [] [])); [apply tracks_start|].
  tracks_walk.
  all: lazymatch goal with |- hoare _ _ _ => fail | _ => idtac end.
  all: intros s T; cbv beta; unfold set_up;
    exists company_name, country, currency, fy_name;
    (split; [exact V1|]); (split; [exact V3|]); (split; [exact V4|]);
    (split; [exact V5|]); exact T.
Qed.

(** X14.  A reported success means the System Settings are written and
    committed: whenever [setup_company] returns a result whose [success]
    is [True], the System Settings, both as this connection sees them and
    as committed, say [setup_complete = 1], [enable_onboarding = 0],
    [language = "en"], [time_zone = "Asia/Kolkata"] and carry the
    [country] of the configuration. *)
Theorem setup_company_success_commits_settings (h : Host) (config_b64 : string)
    (s s1 : Site) (res : pyval) :
  setup_company h config_b64 s = (Ok res, s1) ->
  reports_success res ->
  exists country,
    config_value h config_b64 "country" = Some country
    /\ settings_hold
         [("setup_complete", PInt 1); ("enable_onboarding", PInt 0);
          ("country", country); ("language", PStr "en");
          ("time_zone", PStr "Asia/Kolkata")] (db s1)
    /\ settings_hold
         [("setup_complete", PInt 1); ("enable_onboarding", PInt 0);
          ("country", country); ("language", PStr "en");
          ("time_zone", PStr "Asia/Kolkata")] (committed s1).
Proof.
  intros E S.
  pose proof (setup_company_success_is_body h config_b64 s s1 res E S) as B.
  destruct (setup_company_body_sets_up h config_b64 s res s1 B)
    as [company_name [country [currency [fy_name [_ [V [_ [_ T]]]]]]]].
  destruct T as [A [_ [C _]]].
  exists country. split; [exact V|]. split; [exact A | exact C].
Qed.

(** X15.  A reported success means the defaults are written and
    committed: whenever [setup_company] returns a result whose [success]
    is [True], the defaults, both as this connection sees them and as
    committed, carry [desktop:home_page = "home"] and the [company_name],
    [country], [currency] and [fy_name] of the configuration under
    [company], [country], [currency] and [fiscal_year]. *)
Theorem setup_company_success_commits_defaults (h : Host) (config_b64 : string)
    (s s1 : Site) (res : pyval) :
  setup_company h config_b64 s = (Ok res, s1) ->
  reports_success res ->
  exists company_name country currency fy_name,
    config_value h config_b64 "company_name" = Some company_name
    /\ config_value h config_b64 "country" = Some country
    /\ config_value h config_b64 "currency" = Some currency
    /\ config_value h config_b64 "fy_name" = Some fy_name
    /\ defaults_hold
         [("desktop:home_page", PStr "home"); ("company", company_name);
          ("country", country); ("currency", currency);
          ("fiscal_year", fy_name)] (db s1)
    /\ defaults_hold
         [("desktop:home_page", PStr "home"); ("company", company_name);
          ("country", country); ("currency", currency);
          ("fiscal_year", fy_name)] (committed s1).
Proof.
  intros E S.
  pose proof (setup_company_success_is_body h config_b64 s s1 res E S) as B.
  destruct (setup_company_body_sets_up h config_b64 s res s1 B)
    as [company_name [country [currency [fy_name [V1 [V2 [V3 [V4 T]]]]]]]].
  destruct T as [_ [Bd [_ [D _]]]].
  exists company_name, country, currency, fy_name.
  repeat (split; [assumption|]). exact D.
Qed.

(** X16.  The flags a successful run leaves behind: whenever
    [setup_company] returns a result whose [success] is [True],
    [frappe.flags.ignore_permissions] is still [True] (it is set and never
    reset) and [frappe.flags.in_setup_wizard] is [False] again. *)
Theorem setup_company_success_leaves_flags (h : Host) (config_b64 : string)
    (s s1 : Site) (res : pyval) :
  setup_company h config_b64 s = (Ok res, s1) ->
  reports_success res ->
  dict_get (flags s1) "ignore_permissions" = Some (PBool true)
  /\ dict_get (flags s1) "in_setup_wizard" = Some (PBool false).
Proof.
  intros E S.
  pose proof (setup_company_success_is_body h config_b64 s s1 res E S) as B.
  destruct (setup_company_body_sets_up h config_b64 s res s1 B)
    as [company_name [country [currency [fy_name [_ [_ [_ [_ T]]]]]]]].
  destruct T as [_ [_ [_ [_ F]]]].
  split; apply F; reflexivity.
Qed.

(** * Further properties of [create_user] *)

Lemma create_user_success_is_body (h : Host) (config_b64 : string) (s s1 : Site)
    (res : pyval) :
  create_user h config_b64 s = (Ok res, s1) ->
  reports_success res ->
  create_user_body h config_b64 s = (Ok res, s1).
Proof.
  unfold create_user, try_except. intros E S.
  destruct (create_user_body h config_b64 s) as [[v|e] s'] eqn:B.
  - exact E.
  - unfold print, print_exc, print, bind, modify, ret in E. inversion E; subst.
    simpl in S. discriminate S.
Qed.

(** ** The password that is stored *)

Lemma holds_same_value (d : dict) (k u : string) (p : pyval) :
  holds [(k, p)] d -> holds [(k, p)] (dict_set d u p).
Proof.
  intros H k' v E. unfold dict_get in E. simpl in E.
  destruct (String.eqb_spec k k') as [->|N]; [|discriminate E].
  inversion E; subst v. unfold dict_get, dict_set.
  destruct (String.eqb_spec k' u) as [->|N].
  - apply assoc_get_set_same.
  - rewrite assoc_get_set_other by exact N. apply H.
    unfold dict_get. simpl. rewrite String.eqb_refl. reflexivity.
Qed.

Lemma step_update_password (h : Host) (pd pc : dict) (u p : pyval) :
  hoare (pw_tracks pd pc) (update_password h u p)
    (fun _ => pw_tracks (dict_set pd (py_str h u) p) pc).
Proof.
  intros s a s' [A B] E. unfold update_password, db_call, bind, modify in E.
  destruct (fault h (length (calls s)) (UpdatePassword (py_str h u)));
    inversion E; subst.
  split; [cbn; apply holds_set; exact A | exact B].
Qed.

Lemma step_commit_passwords (h : Host) (pd pc : dict) :
  hoare (pw_tracks pd pc) (db_commit h) (fun _ => pw_tracks pd pd).
Proof.
  intros s a s' [A B] E. unfold db_commit, db_call, bind, modify in E.
  destruct (fault h (length (calls s)) DbCommit); inversion E; subst.
  split; exact A.
Qed.

Lemma pw_tracks_record (pd pc : dict) (s : Site) (op : Op) :
  kept (pw_tracks pd pc) s (record_call op s).
Proof. intros X. exact X. Qed.

(** The calls that leave the passwords alone, and the second
    [update_password] of the same password. *)
Ltac pw_prims :=
  first
    [ apply keeps_db_call_record; intros; apply pw_tracks_record
    | apply keeps_modify;
      let s0 := fresh "s" in
      let A := fresh "A" in let B := fresh "B" in
      intros s0 [A B]; split; cbn;
      first [assumption | apply holds_same_value; assumption] ].

Ltac pw_keeps :=
  unfold_calls;
  match goal with
  | |- keeps (kept ?P) _ => keeps_walk (kept_refl P) (kept_trans P) pw_prims
  end.

(** Walks through a program with the rules [step] for the calls that
    change what is tracked and [keep] for those that do not. *)
Ltac hoare_walk step keep :=
  cbv zeta;
  repeat
    match goal with
    | |- hoare _ (bind (if _ then _ else _) _) _ =>
        eapply hoare_bind; [apply hoare_if | intros ?]
    | |- hoare _ (bind _ _) _ =>
        eapply hoare_bind;
        [first [step | apply hoare_keeps; solve [keep]] | intros ?]
    | |- hoare _ (if _ then _ else _) _ => apply hoare_if
    | |- hoare _ ?m _ =>
        lazymatch m with
        | bind _ _ => fail
        | _ => first [step | apply hoare_keeps; solve [keep]]
        end
    | |- hoare _ (ret _) _ => apply hoare_ret
    end.

Lemma create_user_body_stores_password (h : Host) (config_b64 : string) :
  ensures
    (fun _ s' =>
       exists email password,
         config_value h config_b64 "email" = Some email
         /\ config_value h config_b64 "password" = Some password
         /\ password_stored (py_str h email) password s')
    (create_user_body h config_b64).
Proof.
  unfold create_user_body.
  apply ensures_bind_from. intros config [s0 [s0' D]].
  unfold lift_outcome in D. inversion D as [[D1 D2]]. clear D D2.
  apply ensures_bind_from. intros email G1.
  destruct (py_getitem_returns _ _ _ G1) as [d [-> _]].
  pose proof (config_value_of h config_b64 d _ _ D1 G1) as V1.
  apply ensures_bind. intros first_name.
  apply ensures_bind. intros last_name.
  apply ensures_bind_from. intros password G2.
  pose proof (config_value_of h config_b64 d _ _ D1 G2) as V2.
  apply (hoare_ensures (pw_tracks [] [])); [intros; split; apply holds_nil|].
  hoare_walk
    ltac:(first [apply step_update_password | apply step_commit_passwords])
    ltac:(pw_keeps).
  all: intros s [A B]; exists email, password;
    (split; [exact V1|]); (split; [exact V2|]);
    split; [apply A | apply B]; unfold dict_get; simpl;
    rewrite String.eqb_refl; reflexivity.
Qed.

(** X17.  A reported success means the password is stored: whenever
    [create_user] returns a result whose [success] is [True], the
    password of the configuration is the stored password of the user
    named by its [email], for this connection and as committed, whether
    the user was created or already existed. *)
Theorem create_user_success_stores_password (h : Host) (config_b64 : string)
    (s s1 : Site) (res : pyval) :
  create_user h config_b64 s = (Ok res, s1) ->
  reports_success res ->
  exists email password,
    config_value h config_b64 "email" = Some email
    /\ config_value h config_b64 "password" = Some password
    /\ password_stored (py_str h email) password s1.
Proof.
  intros E S.
  exact (create_user_body_stores_password h config_b64 s res s1
           (create_user_success_is_body h config_b64 s s1 res E S)).
Qed.

(** ** The passwords that are left alone *)

Lemma keeps_bind_from {A B : Type} (R : Site -> Site -> Prop) (m : M A) (k : A -> M B) :
  (forall s1 s2 s3, R s1 s2 -> R s2 s3 -> R s1 s3) ->
  keeps R m ->
  (forall a, (exists s s', m s = (Ok a, s')) -> keeps R (k a)) ->
  keeps R (bind m k).
Proof.
  intros Rt Km Kk s r s' E. unfold bind in E.
  destruct (m s) as [[a|e] s1] eqn:Em.
  - eapply Rt; [eapply Km; exact Em | eapply Kk; [exists s, s1; exact Em | exact E]].
  - inversion E; subst. eapply Km; exact Em.
Qed.

Lemma same_password_refl (u : string) (s : Site) : same_password u s s.
Proof. reflexivity. Qed.

Lemma same_password_trans (u : string) (s1 s2 s3 : Site) :
  same_password u s1 s2 -> same_password u s2 s3 -> same_password u s1 s3.
Proof. unfold same_password. congruence. Qed.

Ltac state_cbn :=
  cbn [db committed flags cache conf stdout error_log site_config calls
       with_db with_committed with_cache with_flags with_stdout with_error_log
       with_site_config with_calls record_call
       tables singles defaults passwords
       set_tables set_singles set_defaults set_passwords py_str].

Ltac same_password_prims :=
  first
    [ apply keeps_db_call_record; intros; reflexivity
    | apply keeps_modify; intros; unfold same_password; state_cbn;
      first [ reflexivity
            | unfold dict_get, dict_set; apply assoc_get_set_other; assumption ] ].

Lemma create_user_keeps_other_passwords (h : Host) (config_b64 : string) (u : string) :
  u <> "Administrator" ->
  (forall email, config_value h config_b64 "email" = Some email -> u <> py_str h email) ->
  keeps (same_password u) (create_user h config_b64).
Proof.
  intros NA NE. unfold create_user.
  apply (keeps_try_except _ (same_password_trans u)).
  2:{ intros e. unfold print_exc, print.
      keeps_walk (same_password_refl u) (same_password_trans u) same_password_prims. }
  unfold create_user_body.
  apply (keeps_bind_from _ _ _ (same_password_trans u));
    [apply (keeps_lift_outcome _ (same_password_refl u))|].
  intros config [s0 [s0' D]].
  unfold lift_outcome in D. inversion D as [[D1 D2]]. clear D D2.
  apply (keeps_bind_from _ _ _ (same_password_trans u)).
  { unfold py_getitem.
    keeps_walk (same_password_refl u) (same_password_trans u) same_password_prims. }
  intros email G1.
  destruct (py_getitem_returns _ _ _ G1) as [d [-> _]].
  pose proof (NE email (config_value_of h config_b64 d _ _ D1 G1)) as N.
  unfold_calls.
  keeps_walk (same_password_refl u) (same_password_trans u) same_password_prims.
Qed.

(** X18.  No other password is touched: whatever [create_user] returns,
    the stored password of every user other than the user of the
    configuration and Administrator is what it was before the call. *)
Theorem create_user_other_passwords_untouched (h : Host) (config_b64 : string)
    (s s1 : Site) (r : outcome pyval) (u : string) :
  create_user h config_b64 s = (r, s1) ->
  u <> "Administrator" ->
  (forall email, config_value h config_b64 "email" = Some email -> u <> py_str h email) ->
  dict_get (passwords (db s1)) u = dict_get (passwords (db s)) u.
Proof.
  intros E NA NE.
  exact (create_user_keeps_other_passwords h config_b64 u NA NE s r s1 E).
Qed.

Lemma row_matches_named (name : pyval) (r : Row) :
  row_matches (named name) r = sql_eqb (PStr (row_name r)) name.
Proof. unfold row_matches, named. cbn. apply andb_true_r. Qed.

Lemma has_row_named_replace (d : Database) (name : pyval) (r : Row) :
  has_row d "User" (named name) = true ->
  has_row
    (set_tables
       (assoc_set (tables d) "User"
          (map (fun r' => if String.eqb (row_name r') (row_name r) then r else r')
             (table d "User")))
       d)
    "User" (named name) = true.
Proof.
  unfold has_row. intros H.
  unfold table at 1. cbn [tables set_tables]. rewrite assoc_get_set_same.
  apply existsb_exists in H. destruct H as [r' [I Mr]].
  apply existsb_exists.
  exists (if String.eqb (row_name r') (row_name r) then r else r').
  split; [apply in_map_iff; exists r'; split; [reflexivity | exact I]|].
  rewrite row_matches_named in *.
  destruct (String.eqb_spec (row_name r') (row_name r)) as [E|_];
    [rewrite <- E|]; exact Mr.
Qed.

Lemma keeps_db_exists_bind {B : Type} (I : Site -> Prop) (h : Host) (doctype : string)
    (f : filters) (k : bool -> M B) :
  (forall s op, I s -> I (record_call op s)) ->
  (forall s, I s -> has_row (db s) doctype f = true) ->
  keeps (kept I) (k true) ->
  keeps (kept I) (bind (db_exists h doctype f) k).
Proof.
  intros Ir Ih Kk s r s' E X.
  unfold bind at 1, db_exists, db_call, bind, get_site, ret in E.
  destruct (fault h (length (calls s)) (DbExists doctype f)).
  - inversion E; subst. apply Ir. exact X.
  - change (db (record_call (DbExists doctype f) s)) with (db s) in E.
    rewrite (Ih s X) in E.
    exact (Kk _ _ _ E (Ir s _ X)).
Qed.

Lemma admin_password_with_user_record (a0 : option pyval) (email : pyval) (s : Site)
    (op : Op) :
  admin_password_with_user a0 email s ->
  admin_password_with_user a0 email (record_call op s).
Proof. intros X. exact X. Qed.

Ltac admin_prims :=
  first
    [ apply keeps_db_exists_bind;
      [ apply admin_password_with_user_record
      | let X := fresh "X" in intros ? [_ X]; exact X
      | cbv beta iota ]
    | apply keeps_db_call_record; intros ? ?; unfold kept;
      apply admin_password_with_user_record
    | apply keeps_modify;
      let s0 := fresh "s" in
      let A := fresh "A" in let B := fresh "B" in
      intros s0 [A B]; split; state_cbn;
      first [ assumption
            | unfold dict_get, dict_set; rewrite assoc_get_set_other by assumption;
              exact A
            | apply has_row_named_replace; exact B ] ].

Lemma create_user_keeps_admin_password (h : Host) (config_b64 : string)
    (email : pyval) (a0 : option pyval) :
  config_value h config_b64 "email" = Some email ->
  py_str h email <> "Administrator" ->
  keeps (kept (admin_password_with_user a0 email)) (create_user h config_b64).
Proof.
  intros V N.
  assert (N' : "Administrator" <> py_str h email) by congruence.
  set (P := admin_password_with_user a0 email).
  unfold create_user.
  apply (keeps_try_except _ (kept_trans P)).
  2:{ intros e. unfold print_exc, print.
      keeps_walk (kept_refl P) (kept_trans P) admin_prims. }
  unfold create_user_body.
  apply (keeps_bind_from _ _ _ (kept_trans P));
    [apply (keeps_lift_outcome _ (kept_refl P))|].
  intros config [s0 [s0' D]].
  unfold lift_outcome in D. inversion D as [[D1 D2]]. clear D D2.
  apply (keeps_bind_from _ _ _ (kept_trans P)).
  { unfold py_getitem. keeps_walk (kept_refl P) (kept_trans P) admin_prims. }
  intros email' G1.
  destruct (py_getitem_returns _ _ _ G1) as [d [-> _]].
  pose proof (config_value_of h config_b64 d _ _ D1 G1) as V'.
  rewrite V in V'. inversion V'; subst email'. clear V'.
  unfold add_roles.
  unfold update_password, db_commit, get_doc, doc_save, set_flag, print,
    py_getitem, py_get.
  subst P.
  keeps_walk (kept_refl (admin_password_with_user a0 email))
    (kept_trans (admin_password_with_user a0 email)) admin_prims.
Qed.

(** X19.  Updating an existing user leaves the Administrator password
    alone: when the user named by [email] already exists (and is not
    Administrator), then whatever [create_user] returns, the stored
    Administrator password is what it was before the call. *)
Theorem create_user_update_keeps_admin_password (h : Host) (config_b64 : string)
    (s s1 : Site) (r : outcome pyval) (email : pyval) :
  create_user h config_b64 s = (r, s1) ->
  config_value h config_b64 "email" = Some email ->
  py_str h email <> "Administrator" ->
  has_row (db s) "User" (named email) = true ->
  dict_get (passwords (db s1)) "Administrator"
  = dict_get (passwords (db s)) "Administrator".
Proof.
  intros E V N H.
  apply (create_user_keeps_admin_password h config_b64 email
           (dict_get (passwords (db s)) "Administrator") V N s r s1 E).
  split; [reflexivity | exact H].
Qed.

(** * What the two files never do *)

(** ** No record is removed *)

Lemma rows_kept_refl (s : Site) : rows_kept s s.
Proof. intros dt n H. exact H. Qed.

Lemma rows_kept_trans (s1 s2 s3 : Site) :
  rows_kept s1 s2 -> rows_kept s2 s3 -> rows_kept s1 s3.
Proof. unfold rows_kept. auto. Qed.

Lemma names_kept_app (rows : list Row) (r : Row) : names_kept rows (rows ++ [r]).
Proof. intros n H. rewrite existsb_app, H. reflexivity. Qed.

Lemma names_kept_map (f : Row -> Row) (rows : list Row) :
  (forall r, row_name (f r) = row_name r) -> names_kept rows (map f rows).
Proof.
  intros F n H. apply existsb_exists in H. destruct H as [r [I E]].
  apply existsb_exists. exists (f r).
  split; [apply in_map; exact I | rewrite F; exact E].
Qed.

Lemma rows_kept_set_tables (s : Site) (doctype : string) (rows' : list Row) :
  names_kept (table (db s) doctype) rows' ->
  rows_kept s
    (with_db (set_tables (assoc_set (tables (db s)) doctype rows') (db s)) s).
Proof.
  intros K dt n H. unfold has_name in *. unfold table at 1.
  cbn [db with_db tables set_tables].
  destruct (String.eqb_spec dt doctype) as [->|N].
  - rewrite assoc_get_set_same. apply K. exact H.
  - rewrite assoc_get_set_other by exact N. exact H.
Qed.

Lemma rows_kept_same_tables (s s' : Site) :
  tables (db s') = tables (db s) -> rows_kept s s'.
Proof. intros E dt n H. unfold has_name, table in *. rewrite E. exact H. Qed.

Ltac rows_prims :=
  first
    [ apply keeps_rewrite_site_config; intros; apply rows_kept_same_tables; reflexivity
    | apply keeps_db_call_record; intros; apply rows_kept_same_tables; reflexivity
    | apply keeps_cache_call_record; intros; apply rows_kept_same_tables; reflexivity
    | apply keeps_modify; intros;
      first
        [ apply rows_kept_same_tables; reflexivity
        | apply rows_kept_set_tables;
          first
            [ apply names_kept_app
            | apply names_kept_map; intros r0;
              match goal with
              | |- context [if ?b then _ else _] => destruct b eqn:?
              end;
              first [ reflexivity | symmetry; apply String.eqb_eq; assumption ] ] ] ].

Lemma setup_company_keeps_rows (h : Host) (config_b64 : string) :
  keeps rows_kept (setup_company h config_b64).
Proof.
  unfold setup_company, setup_company_body. unfold_calls.
  keeps_walk rows_kept_refl rows_kept_trans rows_prims.
Qed.

Lemma create_user_keeps_rows (h : Host) (config_b64 : string) :
  keeps rows_kept (create_user h config_b64).
Proof.
  unfold create_user, create_user_body. unfold_calls.
  keeps_walk rows_kept_refl rows_kept_trans rows_prims.
Qed.

(** X20.  Nothing is deleted or renamed: whatever [setup_company] and
    [create_user] return, every record that was in the database before
    the call, of whatever doctype, is still there under its name
    afterwards. *)
Theorem bootstrap_removes_no_record (h : Host) (config_b64 : string) (s s1 : Site)
    (r : outcome pyval) (doctype name : string) :
  has_name s doctype name = true ->
  (setup_company h config_b64 s = (r, s1) -> has_name s1 doctype name = true)
  /\ (create_user h config_b64 s = (r, s1) -> has_name s1 doctype name = true).
Proof.
  intros H. split; intros E.
  - exact (setup_company_keeps_rows h config_b64 s r s1 E doctype name H).
  - exact (create_user_keeps_rows h config_b64 s r s1 E doctype name H).
Qed.

(** ** The quota module writes no data *)

Lemma only_warms_cache_refl (s : Site) : only_warms_cache s s.
Proof. unfold only_warms_cache, same_data. repeat split. left. reflexivity. Qed.

Lemma only_warms_cache_trans (s1 s2 s3 : Site) :
  only_warms_cache s1 s2 -> only_warms_cache s2 s3 -> only_warms_cache s1 s3.
Proof.
  intros [[A1 [A2 [A3 A4]]] [W [F [O [L C]]]]]
         [[B1 [B2 [B3 B4]]] [W' [F' [O' [L' C']]]]].
  split; [repeat split; congruence|].
  split; [congruence|]. split; [congruence|]. split; [congruence|].
  split; [congruence|].
  destruct C as [C|[v [V C]]], C' as [C'|[v' [V' C']]].
  - left. congruence.
  - right. exists v'. split; congruence.
  - right. exists v. split; congruence.
  - right. exists v'. split; [congruence|].
    rewrite C', C. unfold dict_set. apply assoc_set_set.
Qed.

Lemma only_warms_cache_record (s : Site) (op : Op) :
  only_warms_cache s (record_call op s).
Proof. unfold only_warms_cache, same_data. repeat split. left. reflexivity. Qed.

Lemma get_plan_limits_only_warms (h : Host) :
  keeps only_warms_cache (get_plan_limits h).
Proof.
  intros s r s' E. destruct (cache_error h) as [e|] eqn:CE.
  - unfold get_plan_limits, cache_get_value, cache_call, bind in E.
    rewrite CE in E. inversion E. apply only_warms_cache_record.
  - rewrite (get_plan_limits_run h s CE) in E.
    destruct (py_truthy (dict_get_default (cache s) LIMITS_CACHE_KEY PNone)).
    + inversion E. apply only_warms_cache_record.
    + destruct (py_truthy (dict_get_default (conf s) "saas_plan_limits" (PDict [])))
        eqn:T.
      * inversion E. unfold only_warms_cache, same_data. cbn.
        repeat split. right.
        unfold dict_get_default in *.
        destruct (dict_get (conf s) "saas_plan_limits") as [v|];
          [|discriminate T].
        exists v. split; reflexivity.
      * inversion E. apply only_warms_cache_record.
Qed.

Ltac read_only_prims h :=
  first
    [ apply (get_plan_limits_only_warms h)
    | apply keeps_db_call_record; exact only_warms_cache_record
    | apply keeps_cache_call_record; exact only_warms_cache_record ].

Ltac read_only_walk h :=
  unfold frappe_throw, db_count, py_get, py_ge;
  keeps_walk only_warms_cache_refl only_warms_cache_trans ltac:(read_only_prims h).

(** X21.  The hooks and [get_current_limits] only read: whatever they
    return or raise, the database (as seen and as committed), the
    configuration file, [frappe.conf], the flags, the output and the
    error log are as before the call, and the cache is as before or
    differs in the one entry [saas_plan_limits], which then holds the
    limits of [frappe.conf]. *)
Theorem quota_checks_write_nothing (h : Host) (doc : Document) (s s1 : Site) :
  (forall r, validate_user_limit h doc s = (r, s1) -> only_warms_cache s s1)
  /\ (forall r, validate_customer_limit h doc s = (r, s1) -> only_warms_cache s s1)
  /\ (forall r, validate_supplier_limit h doc s = (r, s1) -> only_warms_cache s s1)
  /\ (forall r, validate_company_limit h doc s = (r, s1) -> only_warms_cache s s1)
  /\ (forall r, validate_invoice_limit h doc s = (r, s1) -> only_warms_cache s s1)
  /\ (forall r, get_current_limits h s = (r, s1) -> only_warms_cache s s1).
Proof.
  assert (U : keeps only_warms_cache (validate_user_limit h doc))
    by (unfold validate_user_limit; read_only_walk h).
  assert (C : keeps only_warms_cache (validate_customer_limit h doc))
    by (unfold validate_customer_limit; read_only_walk h).
  assert (S : keeps only_warms_cache (validate_supplier_limit h doc))
    by (unfold validate_supplier_limit; read_only_walk h).
  assert (K : keeps only_warms_cache (validate_company_limit h doc))
    by (unfold validate_company_limit; read_only_walk h).
  assert (I : keeps only_warms_cache (validate_invoice_limit h doc))
    by (unfold validate_invoice_limit; read_only_walk h).
  assert (G : keeps only_warms_cache (get_current_limits h))
    by (unfold get_current_limits; read_only_walk h).
  split; [intros r E; apply (U s r s1 E)|].
  split; [intros r E; apply (C s r s1 E)|].
  split; [intros r E; apply (S s r s1 E)|].
  split; [intros r E; apply (K s r s1 E)|].
  split; [intros r E; apply (I s r s1 E)|].
  intros r E. apply (G s r s1 E).
Qed.

(** ** What storing the limits leaves alone *)

Lemma limits_only_refl (s : Site) : limits_only s s.
Proof. repeat split. Qed.

Lemma limits_only_trans (s1 s2 s3 : Site) :
  limits_only s1 s2 -> limits_only s2 s3 -> limits_only s1 s3.
Proof. unfold limits_only. intuition congruence. Qed.

Ltac limits_only_prims :=
  first
    [ apply keeps_rewrite_site_config; intros; repeat split
    | apply keeps_cache_call_record; intros; repeat split
    | apply keeps_modify; intros; repeat split ].

Ltac limits_only_walk :=
  unfold set_plan_limits, cache_set_value, log_error, int_or_zero, float_or_zero,
    py_int, py_float;
  keeps_walk limits_only_refl limits_only_trans limits_only_prims.

(** X22.  Storing the limits never updates [frappe.conf]: whatever
    [set_plan_limits] and [sync_plan_limits] return or raise,
    [frappe.conf], the database (as seen and as committed), the flags and
    the output are as before the call.  In particular [frappe.conf],
    which [get_plan_limits] falls back to, keeps the limits it held. *)
Theorem storing_limits_leaves_conf (h : Host) (limits a1 a2 a3 a4 a5 a6 : pyval)
    (s s1 : Site) :
  (forall r, set_plan_limits h limits s = (r, s1) -> limits_only s s1)
  /\ (forall r, sync_plan_limits h a1 a2 a3 a4 a5 a6 s = (r, s1) -> limits_only s s1).
Proof.
  assert (A : keeps limits_only (set_plan_limits h limits)) by limits_only_walk.
  assert (B : keeps limits_only (sync_plan_limits h a1 a2 a3 a4 a5 a6))
    by (unfold sync_plan_limits, sync_plan_limits_body; limits_only_walk).
  split; intros r E; [apply (A s r s1 E) | apply (B s r s1 E)].
Qed.

(** * The user that [create_user] saves *)

Lemma hoare_bind_dep {A B : Type} (P : Site -> Prop) (Q' : A -> Site -> Prop)
    (m : M A) (k : A -> M B) (Q : B -> Site -> Prop) :
  hoare P m Q' -> (forall a, hoare (Q' a) (k a) Q) -> hoare P (bind m k) Q.
Proof.
  intros Hm Hk s b s' X E. unfold bind in E.
  destruct (m s) as [[a|e] s1] eqn:Em; [|inversion E].
  eapply Hk; [eapply Hm; [exact X | exact Em] | exact E].
Qed.

Lemma hoare_conseq {A : Type} (P P' : Site -> Prop) (Q Q' : A -> Site -> Prop)
    (m : M A) :
  (forall s, P s -> P' s) -> (forall a s, Q' a s -> Q a s) ->
  hoare P' m Q' -> hoare P m Q.
Proof. intros HP HQ H s a s' X E. apply HQ. exact (H s a s' (HP s X) E). Qed.

Lemma hoare_any {A : Type} (P : Site -> Prop) (m : M A) :
  hoare P m (fun _ _ => True).
Proof. intros s a s' _ _. exact I. Qed.

Lemma hoare_pure {A : Type} (F : Prop) (P : Site -> Prop) (m : M A)
    (Q : A -> Site -> Prop) :
  (F -> hoare P m Q) -> hoare (fun s => F /\ P s) m Q.
Proof. intros H s a s' [X Y] E. exact (H X s a s' Y E). Qed.

Lemma column_set_same (field : string) (v : pyval) (r : Row) :
  String.eqb field "name" = false -> column (set_column field v r) field = v.
Proof.
  intros N. unfold column. rewrite N. cbn [set_column row_fields].
  apply dict_get_default_set_same.
Qed.

Lemma column_set_other (field other : string) (v : pyval) (r : Row) :
  other <> field -> column (set_column field v r) other = column r other.
Proof.
  intros N. unfold column. cbn [set_column row_fields row_name].
  unfold dict_get_default, dict_get, dict_set.
  rewrite assoc_get_set_other by exact N. reflexivity.
Qed.

Lemma with_role_is_manager (r : Row) (role : list pyval) :
  column r "enabled" = PInt 1 ->
  is_manager (set_column "roles" (PList (role ++ [PStr "System Manager"])) r).
Proof.
  intros E. split.
  - rewrite column_set_other by discriminate. exact E.
  - unfold roles_of. rewrite column_set_same by reflexivity.
    rewrite existsb_app. apply orb_true_r.
Qed.

Lemma in_table_has_name (s : Site) (doctype : string) (r : Row) :
  In r (table (db s) doctype) -> has_name s doctype (row_name r) = true.
Proof.
  intros I. unfold has_name. apply existsb_exists.
  exists r. split; [exact I | apply String.eqb_refl].
Qed.

Lemma get_doc_found (h : Host) (email : pyval) :
  hoare (fun _ => True) (get_doc h "User" email)
    (fun r s => row_matches (named email) r = true
                /\ has_name s "User" (row_name r) = true).
Proof.
  intros s r s' _ E. unfold get_doc, db_call, bind, get_site, ret, raise in E.
  destruct (fault h (length (calls s)) (DocLoad "User" (py_str h email)));
    [discriminate E|].
  cbn [db record_call with_calls] in E.
  destruct (find (row_matches (named email)) (table (db s) "User")) as [r0|] eqn:F;
    inversion E; subst.
  apply find_some in F. destruct F as [I Mr]. split; [exact Mr|].
  apply (in_table_has_name s "User" r I).
Qed.

Lemma doc_save_puts (h : Host) (u : Row) :
  hoare (fun s => has_name s "User" (row_name u) = true) (doc_save h "User" u)
    (fun _ s => In u (table (db s) "User")).
Proof.
  intros s a s' H E. unfold doc_save, db_call, bind, modify in E.
  destruct (fault h (length (calls s)) (DocSave "User" (row_name u)));
    inversion E; subst.
  unfold table at 1. cbn [db with_db record_call with_calls tables set_tables].
  rewrite assoc_get_set_same.
  unfold has_name in H. apply existsb_exists in H. destruct H as [r0 [I N]].
  apply in_map_iff. exists r0. split; [rewrite N; reflexivity | exact I].
Qed.

Lemma add_roles_puts (h : Host) (u : Row) (role : string) :
  hoare (fun s => has_name s "User" (row_name u) = true) (add_roles h u role)
    (fun u' s => u' = set_column "roles" (PList (roles_of u ++ [PStr role])) u
                 /\ In u' (table (db s) "User")).
Proof.
  unfold add_roles.
  eapply hoare_bind_dep;
    [exact (doc_save_puts h (set_column "roles" (PList (roles_of u ++ [PStr role])) u))|].
  intros a. apply hoare_ret. intros s X. split; [reflexivity | exact X].
Qed.

Lemma commit_copies_user (h : Host) (u : Row) :
  hoare (fun s => In u (table (db s) "User")) (db_commit h)
    (fun _ s => In u (table (db s) "User") /\ In u (table (committed s) "User")).
Proof.
  intros s a s' H E. unfold db_commit, db_call, bind, modify in E.
  destruct (fault h (length (calls s)) DbCommit); inversion E; subst.
  split; exact H.
Qed.

Lemma doc_insert_puts (h : Host) (doctype : string) (fields : dict) :
  hoare (fun _ => True) (doc_insert h doctype fields)
    (fun r s => row_fields r = fields /\ In r (table (db s) doctype)).
Proof.
  intros s r s' _ E.
  unfold doc_insert, db_call, bind, get_site, modify, ret, raise in E.
  destruct (fault h (length (calls s))
              (DocInsert doctype (autoname h doctype fields))); [discriminate E|].
  destruct (has_row (db (record_call (DocInsert doctype (autoname h doctype fields)) s))
              doctype (named (PStr (autoname h doctype fields)))); [discriminate E|].
  inversion E; subst. split; [reflexivity|].
  unfold table at 1. cbn [db with_db record_call with_calls tables set_tables].
  rewrite assoc_get_set_same. apply in_or_app. right. left. reflexivity.
Qed.

(** The calls that leave the User table alone. *)
Ltac user_prims :=
  first
    [ apply keeps_db_call_record; intros ? ?; unfold kept;
      let X := fresh "X" in intros X; exact X
    | apply keeps_modify;
      let s0 := fresh "s" in let X := fresh "X" in
      intros s0 X; unfold table in *; state_cbn;
      first [ exact X | destruct X; split; assumption ] ].

Ltac user_keeps :=
  unfold update_password, db_commit, print;
  match goal with
  | |- keeps (kept ?P) _ => keeps_walk (kept_refl P) (kept_trans P) user_prims
  end.

Ltac skip_step :=
  eapply hoare_bind; [apply hoare_keeps; solve [user_keeps] | intros ?].

Lemma create_user_body_saves_manager (h : Host) (config_b64 : string) :
  ensures
    (fun _ s' =>
       exists email,
         config_value h config_b64 "email" = Some email
         /\ manager_saved email (db s') /\ manager_saved email (committed s'))
    (create_user_body h config_b64).
Proof.
  unfold create_user_body.
  apply ensures_bind_from. intros config [s0 [s0' D]].
  unfold lift_outcome in D. inversion D as [[D1 D2]]. clear D D2.
  apply ensures_bind_from. intros email G1.
  destruct (py_getitem_returns _ _ _ G1) as [d [-> _]].
  pose proof (config_value_of h config_b64 d _ _ D1 G1) as V1.
  apply ensures_bind. intros first_name.
  apply ensures_bind. intros last_name.
  apply ensures_bind. intros password.
  apply (hoare_ensures (fun _ => True)); [trivial|].
  eapply hoare_bind; [apply hoare_any | intros ?].
  eapply hoare_bind; [apply hoare_any | intros ?].
  eapply hoare_bind; [apply hoare_any | intros found].
  apply hoare_if.
  - (* the user exists *)
    eapply hoare_bind; [apply hoare_any | intros ?].
    eapply hoare_bind; [apply hoare_any | intros ?].
    eapply hoare_bind_dep; [apply get_doc_found | intros r].
    cbv beta zeta. apply hoare_pure. intros Mr.
    apply (hoare_bind_dep _
             (fun u s => (user_record_of email u /\ is_manager u)
                         /\ has_name s "User" (row_name u) = true)).
    + destruct (existsb (fun r0 => py_eq_str r0 "System Manager")
                  (roles_of (set_column "enabled" (PInt 1) r))) eqn:X; cbn [negb].
      * apply hoare_ret. intros s H. split; [split|exact H].
        -- left. rewrite row_matches_named in *. exact Mr.
        -- split; [apply column_set_same; reflexivity | exact X].
      * eapply hoare_conseq;
          [ | | apply (add_roles_puts h (set_column "enabled" (PInt 1) r)
                         "System Manager")].
        -- intros s H. exact H.
        -- intros u' s [-> I]. split; [split|apply in_table_has_name; exact I].
           ++ left. rewrite row_matches_named in *. exact Mr.
           ++ apply with_role_is_manager. apply column_set_same. reflexivity.
    + intros u. cbv beta. apply hoare_pure. intros [UR IM].
      eapply hoare_bind; [apply doc_save_puts | intros ?].
      eapply hoare_bind; [apply commit_copies_user | intros ?].
      skip_step.
      apply hoare_ret. intros s [I1 I2]. exists email. split; [exact V1|].
      split; exists u; auto.
  - (* the user is created *)
    eapply hoare_bind_dep; [apply doc_insert_puts | intros r].
    cbv beta. apply hoare_pure. intros F.
    skip_step. skip_step.
    eapply hoare_bind.
    { eapply hoare_conseq; [ | | apply (add_roles_puts h r "System Manager")].
      - intros s I. apply in_table_has_name. exact I.
      - intros u' s [E I]. rewrite E in I. exact I. }
    intros ?.
    eapply hoare_bind; [apply commit_copies_user | intros ?].
    skip_step. skip_step.
    apply hoare_ret. intros s [I1 I2]. exists email. split; [exact V1|].
    assert (UM : user_record_of email
                   (set_column "roles"
                      (PList (roles_of r ++ [PStr "System Manager"])) r)
                 /\ is_manager
                      (set_column "roles"
                         (PList (roles_of r ++ [PStr "System Manager"])) r)).
    { split.
      - right. cbn [set_column row_fields]. rewrite F. reflexivity.
      - apply with_role_is_manager. unfold column. rewrite F. reflexivity. }
    destruct UM as [UR IM].
    split; eexists; (split; [eassumption | split; assumption]).
Qed.

(** X23.  A reported success means the user is there: whenever
    [create_user] returns a result whose [success] is [True], the User
    table holds, for this connection and as committed, the record of the
    configuration's [email] (the existing record of that name, or the one
    inserted with that email), enabled and with the System Manager role. *)
Theorem create_user_success_saves_manager (h : Host) (config_b64 : string)
    (s s1 : Site) (res : pyval) :
  create_user h config_b64 s = (Ok res, s1) ->
  reports_success res ->
  exists email,
    config_value h config_b64 "email" = Some email
    /\ manager_saved email (db s1) /\ manager_saved email (committed s1).
Proof.
  intros E S.
  exact (create_user_body_saves_manager h config_b64 s res s1
           (create_user_success_is_body h config_b64 s s1 res E S)).
Qed.

(** * A configuration file that cannot be rewritten *)

Lemma rewrite_site_config_unwritable (s : Site) (key : string) (v : pyval) :
  unwritable_file s -> exists e, rewrite_site_config key v s = (Raise e, s).
Proof.
  intros U. destruct (rewrite_site_config key v s) as [r s'] eqn:E.
  destruct (rewrite_site_config_cases _ _ _ _ _ E)
    as [[d [F [W _]]]|[[_ [[e ->] ->]]|[d [F [W _]]]]].
  - destruct U as [U|U]; [congruence | exfalso; exact (U _ F)].
  - exists e. reflexivity.
  - destruct U as [U|U]; [congruence | exfalso; exact (U _ F)].
Qed.

Lemma untouched_unwritable (s0 s : Site) :
  unwritable_file s0 -> untouched_since s0 s -> unwritable_file s.
Proof.
  intros U [_ [_ [F [W _]]]]. unfold unwritable_file. rewrite F, W. exact U.
Qed.

Lemma keeps_rewrite_fails_bind {B : Type} (s0 : Site) (key : string) (v : pyval)
    (k : unit -> M B) :
  unwritable_file s0 ->
  keeps (kept (untouched_since s0)) (bind (rewrite_site_config key v) k).
Proof.
  intros U s r s' E X.
  destruct (rewrite_site_config_unwritable s key v (untouched_unwritable s0 s U X))
    as [e Er].
  rewrite (bind_raise _ _ _ _ _ Er) in E. inversion E; subst. exact X.
Qed.

Lemma hoare_rewrite_fails_bind {B : Type} (s0 : Site) (key : string) (v : pyval)
    (k : unit -> M B) (Q : B -> Site -> Prop) :
  unwritable_file s0 ->
  hoare (untouched_since s0) (bind (rewrite_site_config key v) k) Q.
Proof.
  intros U s b s' X E.
  destruct (rewrite_site_config_unwritable s key v (untouched_unwritable s0 s U X))
    as [e Er].
  rewrite (bind_raise _ _ _ _ _ Er) in E. discriminate E.
Qed.

Ltac untouched_prims U :=
  first
    [ apply keeps_rewrite_fails_bind; exact U
    | apply keeps_modify;
      let s1 := fresh "s" in let X := fresh "X" in intros s1 X; exact X ].

Ltac untouched_keeps U :=
  unfold print_exc; unfold print, set_flag, py_getitem, py_get;
  match goal with
  | |- keeps (kept ?P) _ => keeps_walk (kept_refl P) (kept_trans P) ltac:(untouched_prims U)
  end.

Lemma setup_company_body_needs_file (h : Host) (config_b64 : string) (s0 : Site) :
  unwritable_file s0 ->
  hoare (untouched_since s0) (setup_company_body h config_b64) (fun _ _ => False).
Proof.
  intros U. unfold setup_company_body.
  do 11 (eapply hoare_bind; [apply hoare_keeps; solve [untouched_keeps U] | intros ?]).
  apply hoare_rewrite_fails_bind. exact U.
Qed.

Lemma setup_company_keeps_untouched (h : Host) (config_b64 : string) (s0 : Site) :
  unwritable_file s0 ->
  keeps (kept (untouched_since s0)) (setup_company h config_b64).
Proof.
  intros U. unfold setup_company, setup_company_body. untouched_keeps U.
Qed.

(** X24.  Without a rewritable [site_config.json] nothing is set up:
    when the file may not be written, is missing or does not hold a JSON
    object, [setup_company] returns a failure dict, whatever the
    configuration, and has made no framework call: the database, as seen
    and as committed, and the file are as before the call. *)
Theorem setup_company_needs_writable_file (h : Host) (config_b64 : string)
    (s s1 : Site) (r : outcome pyval) :
  unwritable_file s ->
  setup_company h config_b64 s = (r, s1) ->
  (exists e, r = Ok (failure e))
  /\ db s1 = db s /\ committed s1 = committed s
  /\ site_config s1 = site_config s /\ calls s1 = calls s.
Proof.
  intros U E.
  assert (X0 : untouched_since s s) by (repeat split).
  destruct (setup_company_keeps_untouched h config_b64 s U s r s1 E X0)
    as [A [B [C [_ D]]]].
  split; [|repeat split; assumption].
  unfold setup_company, try_except in E.
  destruct (setup_company_body h config_b64 s) as [[v|e] s'] eqn:Bd.
  - exfalso. exact (setup_company_body_needs_file h config_b64 s U s v s' X0 Bd).
  - exists e. unfold print_exc, print, bind, modify, ret in E. inversion E. reflexivity.
Qed.

(** * A cache that cannot be reached *)

Lemma get_plan_limits_cache_down (h : Host) (e : exn) (s : Site) :
  cache_error h = Some e ->
  get_plan_limits h s = (Raise e, record_call (CacheGet LIMITS_CACHE_KEY) s).
Proof.
  intros CE. unfold get_plan_limits.
  apply bind_raise. apply bind_raise. unfold cache_call. rewrite CE. reflexivity.
Qed.

(** X25.  A cache outage stops every checked save: when the cache cannot
    be reached, each hook raises the cache's error as soon as it asks for
    the limits, before any record is counted, whatever the limits and the
    database are.  For users this is for a System User other than
    Administrator and Guest, for invoices for a document being
    submitted; the documents the hooks exempt still pass. *)
Theorem cache_outage_blocks_saves (h : Host) (e : exn) (doc : Document) (s : Site) :
  cache_error h = Some e ->
  (doc_attr doc "user_type" = PStr "System User" ->
   doc_name doc <> "Administrator" -> doc_name doc <> "Guest" ->
   validate_user_limit h doc s
   = (Raise e, record_call (CacheGet LIMITS_CACHE_KEY) s))
  /\ validate_customer_limit h doc s
     = (Raise e, record_call (CacheGet LIMITS_CACHE_KEY) s)
  /\ validate_supplier_limit h doc s
     = (Raise e, record_call (CacheGet LIMITS_CACHE_KEY) s)
  /\ validate_company_limit h doc s
     = (Raise e, record_call (CacheGet LIMITS_CACHE_KEY) s)
  /\ (doc_attr doc "docstatus" = PInt 1 ->
      validate_invoice_limit h doc s
      = (Raise e, record_call (CacheGet LIMITS_CACHE_KEY) s)).
Proof.
  intros CE.
  pose proof (get_plan_limits_cache_down h e s CE) as G.
  split; [|split; [|split; [|split]]].
  - intros T NA NG. unfold validate_user_limit.
    replace (py_eq_str (doc_attr doc "user_type") "System User") with true
      by (symmetry; apply py_eq_str_true; exact T).
    cbn [negb].
    replace (existsb (String.eqb (doc_name doc)) ["Administrator"; "Guest"]) with false.
    2:{ simpl. apply String.eqb_neq in NA, NG. rewrite NA, NG. reflexivity. }
    cbv iota. apply bind_raise. exact G.
  - unfold validate_customer_limit. apply bind_raise. exact G.
  - unfold validate_supplier_limit. apply bind_raise. exact G.
  - unfold validate_company_limit. apply bind_raise. exact G.
  - intros T. unfold validate_invoice_limit.
    rewrite T. change (py_eq_int (PInt 1) 1) with true. cbn [negb]. cbv iota.
    apply bind_raise. exact G.
Qed.

(** * Running [setup_company] again *)

Lemma keeps_db_exists (R : Site -> Site -> Prop) (h : Host) (doctype : string)
    (f : filters) :
  (forall s op, R s (record_call op s)) -> keeps R (db_exists h doctype f).
Proof.
  intros Rr s r s' E. unfold db_exists, db_call, bind, get_site, ret in E.
  destruct (fault h (length (calls s)) (DbExists doctype f)); inversion E; apply Rr.
Qed.

Lemma table_is_record (doctype : string) (t0 : list Row) (s : Site) (op : Op) :
  table_is doctype t0 s -> table_is doctype t0 (record_call op s).
Proof. intros X. exact X. Qed.

Ltac table_prims H :=
  first
    [ apply keeps_db_exists_bind;
      [ apply table_is_record
      | let s1 := fresh "s" in let X := fresh "X" in
        intros s1 X; unfold has_row; rewrite X; exact H
      | cbv beta iota delta [negb] ]
    | apply keeps_db_exists; intros ? ?; unfold kept; apply table_is_record
    | apply keeps_rewrite_site_config; intros;
      let X := fresh "X" in intros X; exact X
    | apply keeps_db_call_record; intros ? ?; unfold kept; apply table_is_record
    | apply keeps_cache_call_record; intros ? ?; unfold kept; apply table_is_record
    | apply keeps_modify;
      let s1 := fresh "s" in let X := fresh "X" in
      intros s1 X; unfold table_is, table in *; state_cbn;
      first [ exact X | rewrite assoc_get_set_other by discriminate; exact X ] ].

Ltac table_walk H :=
  unfold print_exc;
  unfold db_set_single_value, db_commit, db_set_value, db_set_default, doc_insert,
    get_doc, doc_save, get_single, single_save, clear_cache, set_flag, print,
    py_getitem, py_get;
  match goal with
  | |- keeps (kept ?P) _ => keeps_walk (kept_refl P) (kept_trans P) ltac:(table_prims H)
  end.

Ltac read_config P :=
  apply (keeps_bind_from _ _ _ (kept_trans P));
  [ unfold py_getitem, py_get; keeps_walk (kept_refl P) (kept_trans P) fail |].

Lemma setup_company_keeps_company (h : Host) (config_b64 : string) (s0 : Site)
    (company_name : pyval) :
  config_value h config_b64 "company_name" = Some company_name ->
  has_row (db s0) "Company" (named company_name) = true ->
  keeps (kept (table_is "Company" (table (db s0) "Company")))
    (setup_company h config_b64).
Proof.
  intros V H.
  set (P := table_is "Company" (table (db s0) "Company")).
  unfold setup_company.
  apply (keeps_try_except _ (kept_trans P)).
  2:{ intros e. subst P. table_walk H. }
  unfold setup_company_body.
  apply (keeps_bind_from _ _ _ (kept_trans P));
    [apply (keeps_lift_outcome _ (kept_refl P))|].
  intros config [s1 [s1' D]].
  unfold lift_outcome in D. inversion D as [[D1 D2]]. clear D D2.
  read_config P. intros name G1.
  destruct (py_getitem_returns _ _ _ G1) as [d [-> _]].
  pose proof (config_value_of h config_b64 d _ _ D1 G1) as V'.
  rewrite V in V'. inversion V'; subst name. clear V'.
  subst P. table_walk H.
Qed.

Lemma setup_company_keeps_fiscal_year (h : Host) (config_b64 : string) (s0 : Site)
    (fy_name : pyval) :
  config_value h config_b64 "fy_name" = Some fy_name ->
  has_row (db s0) "Fiscal Year" (named fy_name) = true ->
  keeps (kept (table_is "Fiscal Year" (table (db s0) "Fiscal Year")))
    (setup_company h config_b64).
Proof.
  intros V H.
  set (P := table_is "Fiscal Year" (table (db s0) "Fiscal Year")).
  unfold setup_company.
  apply (keeps_try_except _ (kept_trans P)).
  2:{ intros e. subst P. table_walk H. }
  unfold setup_company_body.
  apply (keeps_bind_from _ _ _ (kept_trans P));
    [apply (keeps_lift_outcome _ (kept_refl P))|].
  intros config [s1 [s1' D]].
  unfold lift_outcome in D. inversion D as [[D1 D2]]. clear D D2.
  read_config P. intros company_name G1.
  destruct (py_getitem_returns _ _ _ G1) as [d [-> _]].
  read_config P. intros company_abbr _.
  read_config P. intros country _.
  read_config P. intros currency _.
  read_config P. intros chart_of_accounts _.
  read_config P. intros name G5.
  pose proof (config_value_of h config_b64 d _ _ D1 G5) as V'.
  rewrite V in V'. inversion V'; subst name. clear V'.
  subst P. table_walk H.
Qed.

(** X26.  Running [setup_company] again adds no second company: when a
    Company named by the configuration's [company_name] already exists,
    then whatever [setup_company] returns, the Company table is exactly
    what it was before the call; and likewise the Fiscal Year table when
    a Fiscal Year named by [fy_name] already exists. *)
Theorem setup_company_again_keeps_records (h : Host) (config_b64 : string)
    (s s1 : Site) (r : outcome pyval) :
  setup_company h config_b64 s = (r, s1) ->
  (forall company_name,
      config_value h config_b64 "company_name" = Some company_name ->
      has_row (db s) "Company" (named company_name) = true ->
      table (db s1) "Company" = table (db s) "Company")
  /\ (forall fy_name,
         config_value h config_b64 "fy_name" = Some fy_name ->
         has_row (db s) "Fiscal Year" (named fy_name) = true ->
         table (db s1) "Fiscal Year" = table (db s) "Fiscal Year").
Proof.
  intros E. split.
  - intros company_name V H.
    exact (setup_company_keeps_company h config_b64 s company_name V H s r s1 E
             eq_refl).
  - intros fy_name V H.
    exact (setup_company_keeps_fiscal_year h config_b64 s fy_name V H s r s1 E
             eq_refl).
Qed.

(** * The further properties on concrete sites *)

(** With an empty cache the limits of [frappe.conf] are returned and
    cached. *)
Lemma get_plan_limits_falls_back_to_conf_witness :
  exists s1,
    get_plan_limits host conf_limits_site
    = (Ok (PDict [("max_customers", PInt 2)]), s1)
    /\ dict_get (cache s1) "saas_plan_limits" = Some (PDict [("max_customers", PInt 2)])
    /\ same_data conf_limits_site s1.
Proof.
  apply (get_plan_limits_falls_back_to_conf host conf_limits_site
           (PDict [("max_customers", PInt 2)])); reflexivity.
Defined.

(** Read twice on the site of three users. *)
Lemma get_plan_limits_twice_agree_witness :
  exists s2,
    get_plan_limits host (snd (get_plan_limits host three_users_site))
    = (Ok (PDict [("max_users", PInt 3)]), s2).
Proof.
  apply (get_plan_limits_twice_agree host three_users_site
           (snd (get_plan_limits host three_users_site))
           (PDict [("max_users", PInt 3)])).
  vm_compute. reflexivity.
Defined.

(** Limits stored on a new site are the limits read back. *)
Lemma set_then_get_plan_limits_witness :
  fst (get_plan_limits host
         (snd (set_plan_limits host (PDict [("max_users", PInt 3)]) fresh_site)))
  = Ok (PDict [("max_users", PInt 3)]).
Proof.
  rewrite (set_then_get_plan_limits host (PDict [("max_users", PInt 3)]) fresh_site
             (snd (set_plan_limits host (PDict [("max_users", PInt 3)]) fresh_site))).
  - reflexivity.
  - vm_compute. reflexivity.
  - reflexivity.
Defined.

(** On a plan of two customers with C1 and C2, saving C1 again passes:
    one other customer counts. *)
Lemma below_limit_save_passes_witness :
  exists s',
    validate_customer_limit host existing_customer
      (customers_site [("max_customers", PInt 2)]) = (Ok tt, s').
Proof.
  refine (proj1 (proj2 (below_limit_save_passes host existing_customer
                          (customers_site [("max_customers", PInt 2)])
                          (record_call (CacheGet "saas_plan_limits")
                             (customers_site [("max_customers", PInt 2)]))
                          [("max_customers", PInt 2)] 2 _ _)) _ _).
  - vm_compute. reflexivity.
  - reflexivity.
  - reflexivity.
  - vm_compute. reflexivity.
Defined.

(** The same save by the rule for a full plan: two customers, a limit
    of two. *)
Lemma full_plan_update_passes_witness :
  exists s',
    validate_customer_limit host existing_customer
      (customers_site [("max_customers", PInt 2)]) = (Ok tt, s').
Proof.
  refine (proj1 (full_plan_update_passes host existing_customer
                   (customers_site [("max_customers", PInt 2)])
                   (record_call (CacheGet "saas_plan_limits")
                      (customers_site [("max_customers", PInt 2)]))
                   [("max_customers", PInt 2)] 2 _ _ _) _ _ _).
  - vm_compute. reflexivity.
  - reflexivity.
  - reflexivity.
  - reflexivity.
  - reflexivity.
  - vm_compute. discriminate.
Defined.

(** A limit of -1 stops the creation of a customer. *)
Lemma negative_limit_blocks_every_save_witness :
  blocks_save host (validate_customer_limit host new_customer)
    (customers_site [("max_customers", PInt (-1))])
    (customer_limit_message host (PInt (-1))).
Proof.
  refine (proj1 (proj2 (negative_limit_blocks_every_save host new_customer
                          (customers_site [("max_customers", PInt (-1))])
                          (record_call (CacheGet "saas_plan_limits")
                             (customers_site [("max_customers", PInt (-1))]))
                          [("max_customers", PInt (-1))] (-1) _ _)) _).
  - vm_compute. reflexivity.
  - lia.
  - reflexivity.
Defined.

(** A limit written as the string ["3"] raises a [TypeError]. *)
Lemma non_numeric_limit_raises_type_error_witness :
  validate_customer_limit host new_customer
    (customers_site [("max_customers", PStr "3")])
  = (Raise (comparison_error (PStr "3")),
     record_call (DbCount "Customer")
       (record_call (CacheGet "saas_plan_limits")
          (customers_site [("max_customers", PStr "3")]))).
Proof.
  refine (proj1 (proj2 (non_numeric_limit_raises_type_error host new_customer
                          (customers_site [("max_customers", PStr "3")])
                          (record_call (CacheGet "saas_plan_limits")
                             (customers_site [("max_customers", PStr "3")]))
                          [("max_customers", PStr "3")] (PStr "3") _ _ _ _)) _).
  - vm_compute. reflexivity.
  - reflexivity.
  - reflexivity.
  - reflexivity.
  - reflexivity.
Defined.

(** A synchronisation whose first argument is not a number fails and
    leaves the site of three users as it was. *)
Lemma sync_failure_stores_nothing_witness :
  let s1 := snd (sync_plan_limits host (PStr "ten") (PInt 0) (PInt 0) (PInt 0)
                   (PInt 0) (PInt 0) three_users_site) in
  cache s1 = cache three_users_site
  /\ site_config s1 = site_config three_users_site
  /\ db s1 = db three_users_site
  /\ exists msg, error_log s1 = error_log three_users_site ++ [msg].
Proof.
  apply (sync_failure_stores_nothing host (PStr "ten") (PInt 0) (PInt 0) (PInt 0)
           (PInt 0) (PInt 0) three_users_site _
           [("success", PBool false);
            ("error", PStr "invalid literal for int() with base 10: 'ten'")]).
  - vm_compute. reflexivity.
  - reflexivity.
Defined.

(** After a synchronisation of zeros the customer hook passes on the
    site of two customers. *)
Lemma sync_zero_lifts_quota_witness :
  exists s',
    validate_customer_limit host new_customer
      (snd (sync_plan_limits host (PInt 0) (PInt 0) (PInt 0) (PInt 0) (PInt 0) (PInt 0)
              (customers_site [("max_customers", PInt 2)])))
    = (Ok tt, s').
Proof.
  refine (proj1 (proj2 (sync_zero_lifts_quota host (PInt 0) (PInt 0) (PInt 0) (PInt 0)
                          (PInt 0) (PInt 0)
                          (customers_site [("max_customers", PInt 2)]) _
                          [("success", PBool true);
                           ("message", PStr "Plan limits updated");
                           ("limits",
                            PDict [("max_users", PInt 0);
                                   ("max_customers", PInt 0);
                                   ("max_suppliers", PInt 0);
                                   ("max_companies", PInt 0);
                                   ("max_invoices_per_month", PInt 0);
                                   ("max_storage_gb", PInt 0)])]
                          new_customer _ _)) _).
  - vm_compute. reflexivity.
  - reflexivity.
  - reflexivity.
Defined.

(** A string that is not base64 is rejected by both entry points. *)
Lemma setup_company_rejects_bad_config_witness :
  setup_company host "not base64" fresh_site
  = (Ok (failure (Exn "binascii.Error" "Incorrect padding")),
     reported "SETUP_FAILED: " (Exn "binascii.Error" "Incorrect padding") fresh_site).
Proof.
  apply (proj1 (setup_company_rejects_bad_config host "not base64" fresh_site)).
  reflexivity.
Defined.

Lemma create_user_rejects_bad_config_witness :
  create_user host "not base64" fresh_site
  = (Ok (failure (Exn "binascii.Error" "Incorrect padding")),
     reported "USER_FAILED: " (Exn "binascii.Error" "Incorrect padding") fresh_site).
Proof.
  apply (proj1 (create_user_rejects_bad_config host "not base64" fresh_site)).
  reflexivity.
Defined.

(** A full run of [setup_company] on a new site marks the file. *)
Lemma setup_company_success_marks_file_witness :
  file_key (site_config (snd (setup_company host acme_config_b64 fresh_site)))
    "setup_complete" = Some (PInt 1).
Proof.
  apply (setup_company_success_marks_file host acme_config_b64 fresh_site _
           (PDict [("success", PBool true);
                   ("message", PStr "Company Acme created successfully")])).
  - vm_compute. reflexivity.
  - reflexivity.
Defined.

(** ... writes and commits the System Settings, *)
Lemma setup_company_success_commits_settings_witness :
  exists country,
    config_value host acme_config_b64 "country" = Some country
    /\ settings_hold
         [("setup_complete", PInt 1); ("enable_onboarding", PInt 0);
          ("country", country); ("language", PStr "en");
          ("time_zone", PStr "Asia/Kolkata")]
         (db (snd (setup_company host acme_config_b64 fresh_site)))
    /\ settings_hold
         [("setup_complete", PInt 1); ("enable_onboarding", PInt 0);
          ("country", country); ("language", PStr "en");
          ("time_zone", PStr "Asia/Kolkata")]
         (committed (snd (setup_company host acme_config_b64 fresh_site))).
Proof.
  apply (setup_company_success_commits_settings host acme_config_b64 fresh_site _
           (PDict [("success", PBool true);
                   ("message", PStr "Company Acme created successfully")])).
  - vm_compute. reflexivity.
  - reflexivity.
Defined.

(** ... writes and commits the defaults, *)
Lemma setup_company_success_commits_defaults_witness :
  exists company_name country currency fy_name,
    config_value host acme_config_b64 "company_name" = Some company_name
    /\ config_value host acme_config_b64 "country" = Some country
    /\ config_value host acme_config_b64 "currency" = Some currency
    /\ config_value host acme_config_b64 "fy_name" = Some fy_name
    /\ defaults_hold
         [("desktop:home_page", PStr "home"); ("company", company_name);
          ("country", country); ("currency", currency);
          ("fiscal_year", fy_name)]
         (db (snd (setup_company host acme_config_b64 fresh_site)))
    /\ defaults_hold
         [("desktop:home_page", PStr "home"); ("company", company_name);
          ("country", country); ("currency", currency);
          ("fiscal_year", fy_name)]
         (committed (snd (setup_company host acme_config_b64 fresh_site))).
Proof.
  apply (setup_company_success_commits_defaults host acme_config_b64 fresh_site _
           (PDict [("success", PBool true);
                   ("message", PStr "Company Acme created successfully")])).
  - vm_compute. reflexivity.
  - reflexivity.
Defined.

(** ... and leaves [ignore_permissions] set. *)
Lemma setup_company_success_leaves_flags_witness :
  dict_get (flags (snd (setup_company host acme_config_b64 fresh_site)))
    "ignore_permissions" = Some (PBool true)
  /\ dict_get (flags (snd (setup_company host acme_config_b64 fresh_site)))
       "in_setup_wizard" = Some (PBool false).
Proof.
  apply (setup_company_success_leaves_flags host acme_config_b64 fresh_site _
           (PDict [("success", PBool true);
                   ("message", PStr "Company Acme created successfully")])).
  - vm_compute. reflexivity.
  - reflexivity.
Defined.

(** Creating Ann on a new site stores her password. *)
Lemma create_user_success_stores_password_witness :
  exists email password,
    config_value host ann_config_b64 "email" = Some email
    /\ config_value host ann_config_b64 "password" = Some password
    /\ password_stored (py_str host email) password
         (snd (create_user host ann_config_b64 fresh_site)).
Proof.
  apply (create_user_success_stores_password host ann_config_b64 fresh_site _
           (PDict [("success", PBool true);
                   ("message", PStr "User ann@example.com created/updated")])).
  - vm_compute. reflexivity.
  - reflexivity.
Defined.

(** Updating Ann stores her new password and leaves the stored password
    of Bob as it was. *)
Lemma create_user_other_passwords_untouched_witness :
  dict_get (passwords (db (snd (create_user host ann_config_b64 ann_bob_site))))
    "bob@example.com" = Some (PStr "hunter2")
  /\ dict_get (passwords (db (snd (create_user host ann_config_b64 ann_bob_site))))
       "ann@example.com" = Some (PStr "s3cret").
Proof.
  split; [|vm_compute; reflexivity].
  rewrite (create_user_other_passwords_untouched host ann_config_b64 ann_bob_site
             (snd (create_user host ann_config_b64 ann_bob_site))
             (fst (create_user host ann_config_b64 ann_bob_site))
             "bob@example.com").
  - reflexivity.
  - apply surjective_pairing.
  - discriminate.
  - intros email V. vm_compute in V. inversion V. discriminate.
Defined.

(** Updating Ann, who exists, leaves the Administrator password alone. *)
Lemma create_user_update_keeps_admin_password_witness :
  dict_get (passwords (db (snd (create_user host ann_config_b64 ann_site))))
    "Administrator"
  = dict_get (passwords (db ann_site)) "Administrator".
Proof.
  apply (create_user_update_keeps_admin_password host ann_config_b64 ann_site _
           (fst (create_user host ann_config_b64 ann_site))
           (PStr "ann@example.com")).
  - apply surjective_pairing.
  - reflexivity.
  - discriminate.
  - reflexivity.
Defined.

(** The users of the site of three users are still there after
    [setup_company]. *)
Lemma bootstrap_removes_no_record_witness :
  has_name (snd (setup_company host acme_config_b64 three_users_site))
    "User" "a@example.com" = true.
Proof.
  apply (proj1 (bootstrap_removes_no_record host acme_config_b64 three_users_site
                  (snd (setup_company host acme_config_b64 three_users_site))
                  (fst (setup_company host acme_config_b64 three_users_site))
                  "User" "a@example.com" eq_refl)).
  apply surjective_pairing.
Defined.

(** The check of a new customer on the site whose limits are in
    [frappe.conf] only: the cache gets those limits and nothing else
    changes. *)
Lemma quota_checks_write_nothing_witness :
  only_warms_cache conf_limits_site
    (snd (validate_customer_limit host new_customer conf_limits_site))
  /\ cache (snd (validate_customer_limit host new_customer conf_limits_site))
     = [("saas_plan_limits", PDict [("max_customers", PInt 2)])].
Proof.
  split; [|reflexivity].
  apply (proj1 (proj2 (quota_checks_write_nothing host new_customer conf_limits_site
                         (snd (validate_customer_limit host new_customer
                                 conf_limits_site))))
           (fst (validate_customer_limit host new_customer conf_limits_site))).
  apply surjective_pairing.
Defined.

(** Storing limits on the site whose [frappe.conf] holds older ones
    leaves [frappe.conf] as it was. *)
Lemma storing_limits_leaves_conf_witness :
  limits_only conf_limits_site
    (snd (set_plan_limits host (PDict [("max_customers", PInt 5)]) conf_limits_site)).
Proof.
  apply (proj1 (storing_limits_leaves_conf host (PDict [("max_customers", PInt 5)])
                  (PInt 0) (PInt 0) (PInt 0) (PInt 0) (PInt 0) (PInt 0)
                  conf_limits_site
                  (snd (set_plan_limits host (PDict [("max_customers", PInt 5)])
                          conf_limits_site)))
           (fst (set_plan_limits host (PDict [("max_customers", PInt 5)])
                   conf_limits_site))).
  apply surjective_pairing.
Defined.

(** Updating Ann leaves her enabled and a System Manager. *)
Lemma create_user_success_saves_manager_witness :
  exists email,
    config_value host ann_config_b64 "email" = Some email
    /\ manager_saved email (db (snd (create_user host ann_config_b64 ann_site)))
    /\ manager_saved email (committed (snd (create_user host ann_config_b64 ann_site))).
Proof.
  apply (create_user_success_saves_manager host ann_config_b64 ann_site _
           (PDict [("success", PBool true);
                   ("message", PStr "User ann@example.com updated")])).
  - vm_compute. reflexivity.
  - reflexivity.
Defined.

(** On the site whose file cannot be written [setup_company] fails
    without a framework call. *)
Lemma setup_company_needs_writable_file_witness :
  (exists e, fst (setup_company host acme_config_b64 read_only_site) = Ok (failure e))
  /\ db (snd (setup_company host acme_config_b64 read_only_site)) = db read_only_site
  /\ committed (snd (setup_company host acme_config_b64 read_only_site))
     = committed read_only_site
  /\ site_config (snd (setup_company host acme_config_b64 read_only_site))
     = site_config read_only_site
  /\ calls (snd (setup_company host acme_config_b64 read_only_site))
     = calls read_only_site.
Proof.
  apply (setup_company_needs_writable_file host acme_config_b64 read_only_site).
  - left. reflexivity.
  - apply surjective_pairing.
Defined.

(** With the cache down the creation of a customer is stopped by the
    cache's error. *)
Lemma cache_outage_blocks_saves_witness :
  validate_customer_limit host_cache_down new_customer
    (customers_site [("max_customers", PInt 2)])
  = (Raise (Exn "redis.exceptions.TimeoutError" "Timeout reading from socket"),
     record_call (CacheGet LIMITS_CACHE_KEY)
       (customers_site [("max_customers", PInt 2)])).
Proof.
  apply (proj1 (proj2 (cache_outage_blocks_saves host_cache_down
                         (Exn "redis.exceptions.TimeoutError"
                            "Timeout reading from socket")
                         new_customer (customers_site [("max_customers", PInt 2)])
                         eq_refl))).
Defined.

(** On the site where Acme exists, [setup_company] leaves the Company
    table as it was. *)
Lemma setup_company_again_keeps_records_witness :
  table (db (snd (setup_company host acme_config_b64 acme_site))) "Company"
  = table (db acme_site) "Company".
Proof.
  apply (proj1 (setup_company_again_keeps_records host acme_config_b64 acme_site
                  (snd (setup_company host acme_config_b64 acme_site))
                  (fst (setup_company host acme_config_b64 acme_site))
                  (surjective_pairing _))
           (PStr "Acme")).
  - reflexivity.
  - reflexivity.
Defined.
